(** * Online-judge adapters: URL resolution, sample scraping and handles

    A shallow embedding of the service adapters

      - [onlinejudge/service/anarchygolf.py]
      - [onlinejudge/service/aoj.py]
      - [onlinejudge/service/codeforces.py]
      - [onlinejudge/service/hackerrank.py]

    Python [str] values are modelled as [string] (a sequence of 8-bit code
    units: exact for ASCII text, the UTF-8 encoding otherwise), [bytes] as
    [list byte], [int] as [Z], [None]-able values as [option], and a raised
    exception as the [Raise] branch of [result].  Calls that leave the
    process (HTTP, the HTML and JSON parsers) go through an explicit
    environment record and a request history that is threaded as state. *)

From Stdlib Require Import String Ascii List ZArith NArith Bool Lia.
From Stdlib Require Import Strings.Byte Decimal DecimalString DecimalZ DecimalN DecimalPos.
Import ListNotations.
Open Scope string_scope.
Set Warnings "-register-all".

(* ================================================================== *)
(** * Part I: definitions *)
(* ================================================================== *)

(** ** Exceptions and results *)

(** What [requests] hands back for one HTTP exchange.  [text] is the body
    decoded by [requests], [content] the raw body, [url] the final URL
    after redirects. *)
Record Response : Type := mkResponse {
  status_code : Z;
  resp_url : string;
  content : list byte;
  text : string
}.

Inductive exn : Type :=
| ValueError
| AssertionError
| AttributeError
| UnboundLocalError
| IndexError
| KeyError
| TypeError
| NotImplementedError
| NotLoggedInError
| SubmissionError (msg : string)
| SampleParseError (msg : string)
| HTTPError (resp : Response)          (* requests.HTTPError of raise_for_status *)
| TransportError (detail : string).    (* any other failure of the HTTP collaborator *)

Inductive result (A : Type) : Type :=
| OK (a : A)
| Raise (e : exn).
Arguments OK {A} a.
Arguments Raise {A} e.

Definition bind {A B : Type} (m : result A) (k : A -> result B) : result B :=
  match m with
  | OK a => k a
  | Raise e => Raise e
  end.

Declare Scope result_scope.
Delimit Scope result_scope with result.
Notation "x <- m ;; k" := (bind m (fun x => k))
  (at level 61, m at next level, right associativity) : result_scope.
Notation "'assert' b ;; k" := (if b then k else Raise AssertionError)
  (at level 61, b at next level, right associativity) : result_scope.

(** ** Characters and strings, as Python's [str] methods use them

    A [string] stands for the UTF-8 encoding of a Python [str].
    Python's [str.upper] and the classes [\d] and [\w] of [re] know
    Unicode; the model reads them on ASCII and leaves every code unit
    above 127 as it is (neither a letter nor a digit).  White space
    ([str.strip], [str.lstrip]) and the slices [s[1:]] and [s[:-1]] are
    read by characters, on the encoding. *)

Definition code (c : ascii) : nat := nat_of_ascii c.

Definition is_digit (c : ascii) : bool := (48 <=? code c)%nat && (code c <=? 57)%nat.
Definition is_digit19 (c : ascii) : bool := (49 <=? code c)%nat && (code c <=? 57)%nat.
Definition is_upper (c : ascii) : bool := (65 <=? code c)%nat && (code c <=? 90)%nat.
Definition is_lower (c : ascii) : bool := (97 <=? code c)%nat && (code c <=? 122)%nat.
Definition is_alpha (c : ascii) : bool := is_upper c || is_lower c.
Definition is_alnum (c : ascii) : bool := is_alpha c || is_digit c.

(** A code unit of ASCII, and text made of them: on such text the
    model's reading of [str.upper], [\d] and [\w] is Python's. *)
Definition is_ascii (c : ascii) : bool := (code c <? 128)%nat.

(** [\w] of [re], on ASCII text. *)
Definition is_word (c : ascii) : bool := is_alnum c || Ascii.eqb c "_".

(** [str.isspace] on ASCII: TAB, LF, VT, FF, CR, FS, GS, RS, US and SPACE. *)
Definition is_space (c : ascii) : bool :=
  ((9 <=? code c)%nat && (code c <=? 13)%nat)
  || ((28 <=? code c)%nat && (code c <=? 32)%nat).

Definition upper_char (c : ascii) : ascii :=
  if is_lower c then ascii_of_nat (code c - 32) else c.
Definition lower_char (c : ascii) : ascii :=
  if is_upper c then ascii_of_nat (code c + 32) else c.

Fixpoint str_map (f : ascii -> ascii) (s : string) : string :=
  match s with
  | EmptyString => EmptyString
  | String c r => String (f c) (str_map f r)
  end.

(** [s.upper()] and [s.lower()]. *)
Definition upper (s : string) : string := str_map upper_char s.
Definition lower (s : string) : string := str_map lower_char s.

Fixpoint str_forallb (p : ascii -> bool) (s : string) : bool :=
  match s with
  | EmptyString => true
  | String c r => p c && str_forallb p r
  end.

Definition ascii_text (s : string) : bool := str_forallb is_ascii s.

Fixpoint str_filter (p : ascii -> bool) (s : string) : string :=
  match s with
  | EmptyString => EmptyString
  | String c r => if p c then String c (str_filter p r) else str_filter p r
  end.

(** [c in s] for a single character [c]. *)
Fixpoint has_char (c : ascii) (s : string) : bool :=
  match s with
  | EmptyString => false
  | String a r => Ascii.eqb a c || has_char c r
  end.

(** [s.startswith(p)]. *)
Fixpoint startswith (p s : string) : bool :=
  match p, s with
  | EmptyString, _ => true
  | String a p', String b s' => Ascii.eqb a b && startswith p' s'
  | String _ _, EmptyString => false
  end.

(** The text after the prefix [p], when [s] starts with it. *)
Fixpoint strip_prefix (p s : string) : option string :=
  match p, s with
  | EmptyString, _ => Some s
  | String a p', String b s' => if Ascii.eqb a b then strip_prefix p' s' else None
  | String _ _, EmptyString => None
  end.

(** [sub in s] for strings. *)
Fixpoint contains (sub s : string) : bool :=
  startswith sub s ||
  match s with
  | EmptyString => false
  | String _ r => contains sub r
  end.

(** [s.partition(c)] when [c] occurs: the text before and after the first [c]. *)
Fixpoint partition (c : ascii) (s : string) : option (string * string) :=
  match s with
  | EmptyString => None
  | String a r =>
      if Ascii.eqb a c then Some (EmptyString, r)
      else match partition c r with
           | Some (h, t) => Some (String a h, t)
           | None => None
           end
  end.

(** The longest prefix whose characters satisfy [p], and the rest. *)
Fixpoint span (p : ascii -> bool) (s : string) : string * string :=
  match s with
  | EmptyString => (EmptyString, EmptyString)
  | String a r =>
      if p a then let (h, t) := span p r in (String a h, t)
      else (EmptyString, s)
  end.

Fixpoint lstrip_by (p : ascii -> bool) (s : string) : string :=
  match s with
  | EmptyString => EmptyString
  | String a r => if p a then lstrip_by p r else s
  end.

Fixpoint rstrip_by (p : ascii -> bool) (s : string) : string :=
  match s with
  | EmptyString => EmptyString
  | String a r =>
      match rstrip_by p r with
      | EmptyString => if p a then EmptyString else String a EmptyString
      | r' => String a r'
      end
  end.

(** The characters beyond ASCII that [str.isspace] holds, by the bytes of
    their encoding: U+0085 and U+00A0 in two bytes; U+1680, U+2000 to
    U+200A, U+2028, U+2029, U+202F, U+205F and U+3000 in three. *)
Definition is_space2 (a b : ascii) : bool :=
  (code a =? 194)%nat && ((code b =? 133)%nat || (code b =? 160)%nat).

Definition is_space3 (a b c : ascii) : bool :=
  ((code a =? 225)%nat && (code b =? 154)%nat && (code c =? 128)%nat)
  || ((code a =? 226)%nat && (code b =? 128)%nat
      && (((128 <=? code c)%nat && (code c <=? 138)%nat)
          || (code c =? 168)%nat || (code c =? 169)%nat || (code c =? 175)%nat))
  || ((code a =? 226)%nat && (code b =? 129)%nat && (code c =? 159)%nat)
  || ((code a =? 227)%nat && (code b =? 128)%nat && (code c =? 128)%nat).

(** [s.lstrip()]: [s] without the white space it starts with. *)
Fixpoint lstrip (s : string) : string :=
  match s with
  | EmptyString => EmptyString
  | String a r =>
      if is_space a then lstrip r
      else
        match r with
        | String b r' =>
            if is_space2 a b then lstrip r'
            else
              match r' with
              | String c r'' => if is_space3 a b c then lstrip r'' else s
              | EmptyString => s
              end
        | EmptyString => s
        end
  end.

(** [s.rstrip()], on the text reversed: [c] is its last byte. *)
Fixpoint rstrip_reversed (l : list ascii) : list ascii :=
  match l with
  | [] => []
  | c :: r =>
      if is_space c then rstrip_reversed r
      else
        match r with
        | b :: r' =>
            if is_space2 b c then rstrip_reversed r'
            else
              match r' with
              | a :: r'' => if is_space3 a b c then rstrip_reversed r'' else l
              | [] => l
              end
        | [] => l
        end
  end.

Definition rstrip (s : string) : string :=
  string_of_list_ascii
    (List.rev (rstrip_reversed (List.rev (list_ascii_of_string s)))).

(** [s.strip()] and [s.rstrip('/')]. *)
Definition strip (s : string) : string := rstrip (lstrip s).
Definition rstrip_slash (s : string) : string := rstrip_by (Ascii.eqb "/") s.

(** [s.split(c)]: never empty, one more element than there are [c] in [s]. *)
Fixpoint split_on (c : ascii) (s : string) : list string :=
  match s with
  | EmptyString => [EmptyString]
  | String a r =>
      if Ascii.eqb a c then EmptyString :: split_on c r
      else match split_on c r with
           | h :: t => String a h :: t
           | [] => [String a EmptyString]
           end
  end.

(** [sep.join(l)]. *)
Fixpoint join (sep : string) (l : list string) : string :=
  match l with
  | [] => EmptyString
  | [x] => x
  | x :: r => x ++ sep ++ join sep r
  end.

(** [s[1:]]. *)
Definition tail (s : string) : string :=
  match s with
  | EmptyString => EmptyString
  | String _ r => r
  end.

(** [s.replace('\r\n', '\n')]. *)
Fixpoint replace_crlf (s : string) : string :=
  match s with
  | EmptyString => EmptyString
  | String a r =>
      match r with
      | String b r' =>
          if Ascii.eqb a "013" && Ascii.eqb b "010"
          then String "010" (replace_crlf r')
          else String a (replace_crlf r)
      | EmptyString => s
      end
  end.

(** [s.encode()]. *)
Definition encode (s : string) : list byte := list_byte_of_string s.
(** [b.decode()], total in this model of [str]. *)
Definition decode (b : list byte) : string := string_of_list_byte b.

(** ** Searching and slicing text *)

(** The place of the first occurrence of [sub] in [s]. *)
Fixpoint find_sub (sub s : string) : option nat :=
  if startswith sub s then Some O
  else match s with
       | EmptyString => None
       | String _ r => option_map S (find_sub sub r)
       end.

(** The place of the first occurrence of [sub] in [s] at or after [start]. *)
Fixpoint index_from (sub s : string) (start : nat) {struct start} : option nat :=
  match start with
  | O => find_sub sub s
  | S k =>
      match s with
      | EmptyString => None
      | String _ r => option_map S (index_from sub r k)
      end
  end.

(** [s[n:]] and [s[:n]]. *)
Fixpoint str_drop (n : nat) (s : string) : string :=
  match n, s with
  | O, _ => s
  | S k, String _ r => str_drop k r
  | S _, EmptyString => EmptyString
  end.

Fixpoint str_take (n : nat) (s : string) : string :=
  match n, s with
  | O, _ => EmptyString
  | S k, String c r => String c (str_take k r)
  | S _, EmptyString => EmptyString
  end.

(** [s[l:r]] for [l] and [r] that are not negative. *)
Definition slice (s : string) (l r : nat) : string := str_take (r - l) (str_drop l s).

(** A byte that continues the UTF-8 encoding of a character. *)
Definition is_continuation (c : ascii) : bool :=
  (128 <=? code c)%nat && (code c <=? 191)%nat.

(** [s[1:]] and [s[:-1]] by characters: the first byte of a character
    goes with the continuation bytes that follow it. *)
Definition behead (s : string) : string :=
  match s with
  | EmptyString => EmptyString
  | String _ r => lstrip_by is_continuation r
  end.

Fixpoint chop_reversed (l : list ascii) : list ascii :=
  match l with
  | [] => []
  | c :: r => if is_continuation c then chop_reversed r else r
  end.

Definition chop (s : string) : string :=
  string_of_list_ascii (List.rev (chop_reversed (List.rev (list_ascii_of_string s)))).

(** [s.split(sep)] for a separator [sep] made of the two characters [a]
    and [b]: the occurrences are taken from the left and do not overlap. *)
Fixpoint split_on2 (a b : ascii) (s : string) : list string :=
  match s with
  | EmptyString => [EmptyString]
  | String x r =>
      match r with
      | String y r' =>
          if Ascii.eqb x a && Ascii.eqb y b then EmptyString :: split_on2 a b r'
          else match split_on2 a b r with
               | h :: t => String x h :: t
               | [] => [String x EmptyString]
               end
      | EmptyString => [String x EmptyString]
      end
  end.

(** The double quote. *)
Definition dquote : ascii := "034"%char.

(** ** A [dict] from text to text, as the list of its items in the order
    of their insertion *)

(** [d[key] = value]: a key the dict has keeps its place. *)
Fixpoint dict_set (key value : string) (d : list (string * string)) : list (string * string) :=
  match d with
  | [] => [(key, value)]
  | (k, v) :: r =>
      if String.eqb k key then (k, value) :: r else (k, v) :: dict_set key value r
  end.

(** [d.get(key)]. *)
Fixpoint dict_get (key : string) (d : list (string * string)) : option string :=
  match d with
  | [] => None
  | (k, v) :: r => if String.eqb k key then Some v else dict_get key r
  end.

(** ** Integers and text *)

(** ['{}'.format(n)] for an [int]. *)
Definition str_of_int (z : Z) : string := NilZero.string_of_int (Z.to_int z).

(** ['{}'.format(x)] for an optional [int]: [None] prints as ["None"]. *)
Definition str_of_opt_int (o : option Z) : string :=
  match o with
  | Some z => str_of_int z
  | None => "None"
  end.

(** [int(s)] on the text a [[0-9]*] group can capture: the empty string is
    a [ValueError], leading zeros are accepted.  (The interpreter's limit
    on the length of a decimal conversion is not modelled.) *)
Definition int_of_str (s : string) : result Z :=
  match s with
  | EmptyString => Raise ValueError
  | _ => if str_forallb is_digit s
         then match NilEmpty.uint_of_string s with
              | Some d => OK (Z.of_uint d)
              | None => Raise ValueError
              end
         else Raise ValueError
  end.

(** ** [urllib.parse.urlparse]

    The adapters read [scheme], [netloc], [path], [query] and [fragment]
    of the parse.  The model follows CPython's [urlsplit] and [urlparse]
    step by step; the validation of a bracketed IP literal and the NFKC
    check of a non-ASCII host are left out (a host the adapters accept is
    a plain ASCII name). *)

Record ParseResult : Type := mkParse {
  scheme : string;
  netloc : string;
  path : string;
  params : string;
  query : string;
  fragment : string
}.

(** [_WHATWG_C0_CONTROL_OR_SPACE]: code points 0 to 32. *)
Definition is_c0_or_space (c : ascii) : bool := (code c <=? 32)%nat.

(** [_UNSAFE_URL_BYTES_TO_REMOVE]: TAB, CR and LF. *)
Definition is_unsafe_url_byte (c : ascii) : bool :=
  Ascii.eqb c "009" || Ascii.eqb c "010" || Ascii.eqb c "013".

Definition remove_unsafe (url : string) : string :=
  str_filter (fun c => negb (is_unsafe_url_byte c)) url.

Definition scheme_char (c : ascii) : bool :=
  is_alnum c || Ascii.eqb c "+" || Ascii.eqb c "-" || Ascii.eqb c ".".

(** The [i = url.find(':')] block of [urlsplit]. *)
Definition split_scheme (url : string) : string * string :=
  match url with
  | String c0 _ =>
      if is_alpha c0 then
        match partition ":" url with
        | Some (s, rest) =>
            if str_forallb scheme_char s then (lower s, rest) else (EmptyString, url)
        | None => (EmptyString, url)
        end
      else (EmptyString, url)
  | EmptyString => (EmptyString, url)
  end.

Definition netloc_delim (c : ascii) : bool :=
  Ascii.eqb c "/" || Ascii.eqb c "?" || Ascii.eqb c "#".

(** [if url[:2] == '//': netloc, url = _splitnetloc(url, 2)]. *)
Definition split_netloc (url : string) : string * string :=
  match strip_prefix "//" url with
  | Some r => span (fun c => negb (netloc_delim c)) r
  | None => (EmptyString, url)
  end.

(** [url.split(c, 1)] when [c in url], else the default second part. *)
Definition split_once (c : ascii) (url : string) : string * string :=
  match partition c url with
  | Some (h, t) => (h, t)
  | None => (url, EmptyString)
  end.

Definition urlsplit (url0 : string) : result (string * string * string * string * string) :=
  let url := remove_unsafe (lstrip_by is_c0_or_space url0) in
  let (sch, url) := split_scheme url in
  let (loc, url) := split_netloc url in
  if xorb (has_char "[" loc) (has_char "]" loc) then Raise ValueError
  else
    let (url, frag) := split_once "#" url in
    let (url, qry) := split_once "?" url in
    OK (sch, loc, url, qry, frag).

Definition uses_params : list string :=
  [""; "ftp"; "hdl"; "prospero"; "http"; "imap"; "https"; "shttp"; "rtsp";
   "rtspu"; "sip"; "sips"; "mms"; "sftp"; "tel"].

Definition str_in_list (s : string) (l : list string) : bool :=
  existsb (String.eqb s) l.

(** The text up to and including the last ['/'], and the text after it. *)
Fixpoint rsplit_slash (s : string) : string * string :=
  match s with
  | EmptyString => (EmptyString, EmptyString)
  | String c r =>
      if has_char "/" r then let (h, t) := rsplit_slash r in (String c h, t)
      else if Ascii.eqb c "/" then (String c EmptyString, r)
      else (EmptyString, s)
  end.

(** [_splitparams], called when [';' in url]. *)
Definition splitparams (url : string) : string * string :=
  if has_char "/" url then
    let (h, last) := rsplit_slash url in
    match partition ";" last with
    | Some (a, b) => (h ++ a, b)
    | None => (url, EmptyString)
    end
  else split_once ";" url.

Definition urlparse (url : string) : result ParseResult :=
  match urlsplit url with
  | Raise e => Raise e
  | OK (sch, loc, p, qry, frag) =>
      let (p, prm) :=
        if str_in_list sch uses_params && has_char ";" p
        then splitparams p else (p, EmptyString) in
      OK (mkParse sch loc p prm qry frag)
  end.

(** ** [urllib.parse.parse_qs] *)

Definition hex_val (c : ascii) : option nat :=
  if is_digit c then Some (code c - 48)%nat
  else if (65 <=? code c)%nat && (code c <=? 70)%nat then Some (code c - 55)%nat
  else if (97 <=? code c)%nat && (code c <=? 102)%nat then Some (code c - 87)%nat
  else None.

Fixpoint unquote_escapes (s : string) : string :=
  match s with
  | EmptyString => EmptyString
  | String c r =>
      if Ascii.eqb c "%" then
        match r with
        | String a (String b r2) =>
            match hex_val a, hex_val b with
            | Some x, Some y => String (ascii_of_nat (16 * x + y)) (unquote_escapes r2)
            | _, _ => String c (unquote_escapes r)
            end
        | _ => String c (unquote_escapes r)
        end
      else String c (unquote_escapes r)
  end.

(** [unquote]: the text itself when it holds no ['%'], else its escapes
    replaced by the bytes they name. *)
Definition unquote (s : string) : string :=
  if has_char "%" s then unquote_escapes s else s.

Definition plus_to_space (s : string) : string :=
  str_map (fun c => if Ascii.eqb c "+" then " "%char else c) s.

(** [parse_qsl] with its defaults: fields are separated by ['&'], a field
    without ['='] or with a blank value is skipped. *)
Fixpoint parse_qsl_fields (fields : list string) : list (string * string) :=
  match fields with
  | [] => []
  | f :: r =>
      match partition "=" f with
      | Some (n, v) =>
          match v with
          | EmptyString => parse_qsl_fields r
          | _ => (unquote (plus_to_space n), unquote (plus_to_space v))
                   :: parse_qsl_fields r
          end
      | None => parse_qsl_fields r
      end
  end.

Definition parse_qsl (qs : string) : list (string * string) :=
  parse_qsl_fields (split_on "&" qs).

(** [parse_qs(qs).get(key)]: the values of [key] in order, [[]] standing
    for an absent key (which is falsy as well). *)
Definition parse_qs_get (qs key : string) : list string :=
  map snd (filter (fun nv => String.eqb (fst nv) key) (parse_qsl qs)).

(** ** Pieces of the regular expressions of the adapters

    Every pattern below is a sequence of literals and greedy character
    classes, each class followed by a character outside it, so the
    backtracking matcher of [re] can only succeed on the greedy split. *)

(** [$]: at the end, or just before a final newline. *)
Definition at_end (s : string) : bool :=
  String.eqb s EmptyString || String.eqb s (String "010" EmptyString).

(** [c+] for a character class [c]: the captured run and the rest. *)
Definition re_plus (cls : ascii -> bool) (s : string) : option (string * string) :=
  match span cls s with
  | (EmptyString, _) => None
  | (run, rest) => Some (run, rest)
  end.

(** [c*] for a character class [c]. *)
Definition re_star (cls : ascii -> bool) (s : string) : string * string := span cls s.

(** The schemes every [from_url] accepts: [result.scheme in ('', 'http', 'https')]. *)
Definition scheme_accepted (r : ParseResult) : bool :=
  str_in_list (scheme r) [""; "http"; "https"].

(** [string.ascii_uppercase]. *)
Definition ascii_uppercase : string := "ABCDEFGHIJKLMNOPQRSTUVWXYZ".

Definition obind {A B : Type} (m : option A) (k : A -> option B) : option B :=
  match m with
  | Some a => k a
  | None => None
  end.

(** [for kind, expr in table.items(): m = re.match(expr, p); if m: return ...]:
    the first row of the table whose pattern matches decides. *)
Fixpoint first_match {G A : Type} (table : list (string * (string -> option G)))
  (p : string) (found : string -> G -> result (option A)) : result (option A) :=
  match table with
  | [] => OK None
  | (kind, expr) :: rest =>
      match expr p with
      | Some m => found kind m
      | None => first_match rest p found
      end
  end.

(** ** Shapes of canonical URLs

    The character classes a component of a URL must stay in to survive
    [urlparse] unchanged, and the path [urlparse] reads off a URL. *)

Definition url_char (c : ascii) : bool := negb (is_unsafe_url_byte c).

Definition host_char (c : ascii) : bool :=
  url_char c && negb (netloc_delim c)
  && negb (Ascii.eqb c "[") && negb (Ascii.eqb c "]").

Definition path_char (c : ascii) : bool :=
  url_char c && negb (Ascii.eqb c "?") && negb (Ascii.eqb c "#")
  && negb (Ascii.eqb c ";").

Definition query_char (c : ascii) : bool := url_char c && negb (Ascii.eqb c "#").

(** [urlparse(url).path], the empty string when the parse raises. *)
Definition url_path (url : string) : string :=
  match urlparse url with
  | OK r => path r
  | Raise _ => EmptyString
  end.

(** ** JSON values, as [json.loads] returns them

    A JSON object is kept as its list of members, a number as an integer
    (the replies the adapters read carry no fractions).  [JNull] is
    Python's [None]. *)

Inductive json : Type :=
| JNull
| JBool (b : bool)
| JNum (z : Z)
| JStr (s : string)
| JArr (items : list json)
| JObj (members : list (string * json)).

(** [v[key]] for a string key: a missing member is a [KeyError], a value
    that is not an object a [TypeError]. *)
Definition getitem (v : json) (key : string) : result json :=
  match v with
  | JObj members =>
      match find (fun m => String.eqb (fst m) key) members with
      | Some m => OK (snd m)
      | None => Raise KeyError
      end
  | _ => Raise TypeError
  end.

(** [bool(v)]. *)
Definition truthy (v : json) : bool :=
  match v with
  | JNull => false
  | JBool b => b
  | JNum z => negb (z =? 0)%Z
  | JStr s => negb (s =? "")
  | JArr items => match items with [] => false | _ => true end
  | JObj members => match members with [] => false | _ => true end
  end.

(** [v == s] for a string [s]. *)
Definition eq_str (v : json) (s : string) : bool :=
  match v with
  | JStr t => String.eqb t s
  | _ => false
  end.

(** [for x in v]: the elements of an array, the keys of an object, the
    characters of a string; anything else is not iterable. *)
Definition iterate (v : json) : result (list json) :=
  match v with
  | JArr items => OK items
  | JObj members => OK (map (fun m => JStr (fst m)) members)
  | JStr s => OK (map (fun c => JStr (String c EmptyString)) (list_ascii_of_string s))
  | _ => Raise TypeError
  end.

(** [v.encode()], defined on strings only. *)
Definition encode_json (v : json) : result (list byte) :=
  match v with
  | JStr s => OK (encode s)
  | _ => Raise AttributeError
  end.

(** [str(v)] and ['{}'.format(v)]; [repr] prints arrays and objects. *)
Definition format (repr : json -> string) (v : json) : string :=
  match v with
  | JNull => "None"
  | JBool true => "True"
  | JBool false => "False"
  | JNum z => str_of_int z
  | JStr s => s
  | _ => repr v
  end.

(** ** UTF-8 decoding of [bytes] *)

Definition UnicodeDecodeError : exn := ValueError.

Definition in_range (lo hi : nat) (b : byte) : bool :=
  (lo <=? code (ascii_of_byte b))%nat && (code (ascii_of_byte b) <=? hi)%nat.

(** Well-formed UTF-8: the shortest encoding of a code point outside the
    surrogates.  [need] is the list of ranges the next bytes must lie in. *)
Fixpoint valid_utf8 (need : list (nat * nat)) (bs : list byte) : bool :=
  match bs with
  | [] => match need with [] => true | _ => false end
  | b :: r =>
      match need with
      | (lo, hi) :: need' => in_range lo hi b && valid_utf8 need' r
      | [] =>
          if in_range 0 127 b then valid_utf8 [] r
          else if in_range 194 223 b then valid_utf8 [(128, 191)] r
          else if in_range 224 224 b then valid_utf8 [(160, 191); (128, 191)] r
          else if in_range 225 236 b then valid_utf8 [(128, 191); (128, 191)] r
          else if in_range 237 237 b then valid_utf8 [(128, 159); (128, 191)] r
          else if in_range 238 239 b then valid_utf8 [(128, 191); (128, 191)] r
          else if in_range 240 240 b then valid_utf8 [(144, 191); (128, 191); (128, 191)] r
          else if in_range 241 243 b then valid_utf8 [(128, 191); (128, 191); (128, 191)] r
          else if in_range 244 244 b then valid_utf8 [(128, 143); (128, 191); (128, 191)] r
          else false
      end
  end.

(** [b.decode()] and [b.decode('utf-8')]. *)
Definition decode_utf8 (b : list byte) : result string :=
  if valid_utf8 [] b then OK (decode b) else Raise UnicodeDecodeError.

(** ** The document tree of [bs4] *)

Inductive node : Type :=
| NavigableString (s : string)
| Comment (s : string)
| Tag (name : string) (attrs : list (string * string)) (contents : list node).

(** [n.name]: [None] on a string. *)
Definition node_name (n : node) : option string :=
  match n with
  | Tag name _ _ => Some name
  | _ => None
  end.

Definition is_named (nm : string) (n : node) : bool :=
  match n with
  | Tag name _ _ => String.eqb name nm
  | _ => false
  end.

(** [bool(n)]: a tag is always true, a string when it is not empty. *)
Definition node_truthy (n : node) : bool :=
  match n with
  | NavigableString s | Comment s => negb (s =? "")
  | Tag _ _ _ => true
  end.

(** [n.string]: a string is its own [.string]; a tag has one when it has
    exactly one child and that child has one. *)
Fixpoint node_string (n : node) : option string :=
  match n with
  | NavigableString s | Comment s => Some s
  | Tag _ _ [c] => node_string c
  | Tag _ _ _ => None
  end.

(** A tag found in a document, with the siblings before it (nearest
    first) and after it. *)
Record occurrence : Type := mkOcc {
  occ_node : node;
  previous_siblings : list node;
  next_siblings : list node
}.

(** [n.find_all(nm)]: the descendants of [n] named [nm], in document order. *)
Fixpoint find_all (nm : string) (n : node) : list occurrence :=
  match n with
  | Tag _ _ contents =>
      (fix scan (before following : list node) : list occurrence :=
         match following with
         | [] => []
         | x :: rest =>
             ((if is_named nm x then [mkOcc x before rest] else [])
                ++ find_all nm x ++ scan (x :: before) rest)%list
         end) [] contents
  | _ => []
  end.

(** [tag.attrs.get(key)]. *)
Definition attr (key : string) (attrs : list (string * string)) : option string :=
  match find (fun kv => String.eqb (fst kv) key) attrs with
  | Some kv => Some (snd kv)
  | None => None
  end.

(** [soup.find(nm, attrs={key: value})]: the first descendant named [nm]
    whose attribute [key] is [value]. *)
Definition find_with_attr (nm key value : string) (soup : node) : option node :=
  match
    filter (fun o =>
              match occ_node o with
              | Tag _ attrs _ =>
                  match attr key attrs with
                  | Some v => String.eqb v value
                  | None => false
                  end
              | _ => false
              end) (find_all nm soup)
  with
  | o :: _ => Some (occ_node o)
  | [] => None
  end.

(** [tag.find_previous_sibling()]: the nearest earlier sibling that is a tag. *)
Definition find_previous_sibling (o : occurrence) : option node :=
  find (fun n => match n with Tag _ _ _ => true | _ => false end) (previous_siblings o).

(** ** Test cases and submissions ([onlinejudge.type]) *)

Record TestCase : Type := mkTestCase {
  tc_name : string;
  input_name : string;
  input_data : list byte;
  output_name : string;
  output_data : list byte
}.

(** [Language(id, name)] of [onlinejudge.type]: a pair; the adapters put
    values of different types in it. *)
Record Language (I N : Type) : Type := mkLanguage {
  lang_id : I;
  lang_name : N
}.
Arguments mkLanguage {I N} lang_id lang_name.
Arguments lang_id {I N} l.
Arguments lang_name {I N} l.

(** ** The collaborators

    Everything the adapters call outside their own module: the HTTP
    session, the parsers of [json] and [bs4], Python's [repr], and the
    helpers of [onlinejudge._implementation] that are not among the
    sources.  The reply of the transport may depend on the requests made
    so far. *)

Record Request : Type := mkRequest {
  method : string;
  req_url : string;
  json_payload : list (string * string);   (* json=...; empty when absent *)
  headers : list (string * string)
}.

Record Env : Type := mkEnv {
  Session : Type;
  (** [utils.get_default_session()] *)
  get_default_session : Session;
  (** [session.request(method, url, ...)], given the exchanges so far *)
  send : list (Session * Request) -> Session -> Request -> result Response;
  (** [json.loads] *)
  json_loads : string -> result json;
  (** [bs4.BeautifulSoup(text, utils.HTML_PARSER)] *)
  BeautifulSoup : string -> node;
  (** [repr] of a list or a dict *)
  repr : json -> string;
  (** [utils.dos2unix], [utils.textfile], [utils.parse_content] *)
  dos2unix : string -> string;
  textfile : string -> string;
  parse_content : node -> string;
  (** [SampleZipper]: [get()] after the [add(content, name)] calls listed *)
  SampleZipper_get : list (list byte * string) -> list TestCase;
  (** [testcase_zipper.extract_from_zip(content, format)] *)
  extract_from_zip : list byte -> string -> result (list TestCase)
}.

(** The requests made so far, oldest first. *)
Definition History (E : Env) : Type := list (Session E * Request).

(** A computation that may perform requests and may raise. *)
Definition IO (E : Env) (A : Type) : Type := History E -> result A * History E.

Definition ret {E : Env} {A : Type} (a : A) : IO E A := fun h => (OK a, h).

Definition throw {E : Env} {A : Type} (e : exn) : IO E A := fun h => (Raise e, h).

Definition lift {E : Env} {A : Type} (r : result A) : IO E A := fun h => (r, h).

Definition bindIO {E : Env} {A B : Type} (m : IO E A) (k : A -> IO E B) : IO E B :=
  fun h =>
    match m h with
    | (OK a, h') => k a h'
    | (Raise e, h') => (Raise e, h')
    end.

Declare Scope io_scope.
Delimit Scope io_scope with io.
Notation "x <- m ;; k" := (bindIO m (fun x => k))
  (at level 61, m at next level, right associativity) : io_scope.
Notation "m ;;; k" := (bindIO m (fun _ => k))
  (at level 61, right associativity) : io_scope.

(** [session or utils.get_default_session()]. *)
Definition session_or_default (E : Env) (session : option (Session E)) : Session E :=
  match session with
  | Some s => s
  | None => get_default_session E
  end.

(** [resp.raise_for_status()] of [requests]: a status from 400 to 599 is
    raised as the [HTTPError] of the response. *)
Definition is_error_status (resp : Response) : bool :=
  (400 <=? status_code resp)%Z && (status_code resp <? 600)%Z.

Definition raise_for_status {E : Env} (resp : Response) : IO E unit :=
  if is_error_status resp then throw (HTTPError resp) else ret tt.

(** Modelled from the spec: [utils.request] is not among the sources.
    The spec has the adapter fetch "raw data via the HTTP collaborator",
    with a "collaborator I/O or non-success status" surfacing as a fetch
    error "propagated unmodified"; the call sites pass
    [raise_for_status=False] to get the response back whatever its
    status.  So: one exchange on the session, recorded in the history;
    a failure of the transport is raised as it is; a failure status is
    raised unless [raise_for_status] is off. *)
Definition utils_request {E : Env} (req : Request) (session : Session E)
  (raise_for_status_flag : bool) : IO E Response :=
  fun h =>
    let h' := (h ++ [(session, req)])%list in
    match send E h session req with
    | Raise e => (Raise e, h')
    | OK resp =>
        if raise_for_status_flag && is_error_status resp
        then (Raise (HTTPError resp), h')
        else (OK resp, h')
    end.

Definition GET (url : string) : Request := mkRequest "GET" url [] [].

(** ** Anarchy Golf: handles and URLs ([anarchygolf.py]) *)

Module AnarchyGolfService.

Inductive t : Type := cls.

Definition get_url (self : t) : string := "http://golf.shinh.org/".

Definition get_name (self : t) : string := "Anarchy Golf".

Definition from_url (url : string) : result (option t) :=
  (result <- urlparse url ;;
   if scheme_accepted result && (netloc result =? "golf.shinh.org")
   then OK (Some cls)
   else OK None)%result.

End AnarchyGolfService.

Module AnarchyGolfProblem.

Record t : Type := cls { problem_id : string }.

Definition get_url (self : t) : string :=
  "http://golf.shinh.org/p.rb?" ++ problem_id self.

Definition get_service (self : t) : AnarchyGolfService.t := AnarchyGolfService.cls.

Definition from_url (normpath : string -> string) (url : string) : result (option t) :=
  (result <- urlparse url ;;
   if scheme_accepted result
      && (netloc result =? "golf.shinh.org")
      && (normpath (path result) =? "/p.rb")
      && negb (query result =? "")
   then OK (Some (cls (query result)))
   else OK None)%result.

(** A problem the canonical URL identifies: a non-empty id that can stand
    as the query of a URL (no ['#'], TAB, CR or LF). *)
Definition canonical (self : t) : bool :=
  negb (problem_id self =? "") && str_forallb query_char (problem_id self).

(** The loop [while nxt and nxt.string.strip() == '': nxt = nxt.next_sibling]
    over the siblings after the heading: where it stops.  A sibling
    without a [.string] makes [None.strip()] an [AttributeError]. *)
Fixpoint skip_blank (siblings : list node) : result (option node) :=
  match siblings with
  | [] => OK None
  | nxt :: rest =>
      if node_truthy nxt then
        match node_string nxt with
        | None => Raise AttributeError
        | Some s => if strip s =? "" then skip_blank rest else OK (Some nxt)
        end
      else OK (Some nxt)
  end.

(** [if ':' in name: name = name[:name.find(':')]]. *)
Definition heading (name : string) : string :=
  match partition ":" name with
  | Some (before, _) => before
  | None => name
  end.

Definition sample_headings : list string := ["Sample input"; "Sample output"].

(** [':' in name] when [name] is itself a tag: one of its children is the
    string [":"]. *)
Definition has_colon_child (contents : list node) : bool :=
  existsb (fun n => match n with
                    | NavigableString s | Comment s => s =? ":"
                    | Tag _ _ _ => false
                    end) contents.

(** The [if nxt.name == 'pre' ... elif nxt.name == 'p' ...] block: the
    value bound to [s], [None] when neither branch binds it. *)
Definition sample_text (E : Env) (nxt : node) : result (option string) :=
  match node_name nxt with
  | Some nm =>
      if nm =? "pre" then
        match node_string nxt with
        | Some str => OK (Some (dos2unix E (behead str)))
        | None => Raise TypeError
        end
      else if nm =? "p" then OK (Some EmptyString)
      else OK None
  | None => OK None
  end.

(** [_parse_sample_tag(self, tag)], on an [h2] found in the page.  When
    the first child of the heading is a tag, [name.find(':')] is a search
    for a tag and the slice by its result is a [TypeError]; reading [s]
    when no branch has bound it is an [UnboundLocalError]; [nxt.name] on
    [None] is an [AttributeError]. *)
Definition _parse_sample_tag (E : Env) (tag : occurrence)
  : result (option (string * string)) :=
  match occ_node tag with
  | Tag tag_name _ contents =>
      (assert (tag_name =? "h2") ;;
       match contents with
       | [] => Raise IndexError
       | Tag _ _ inner :: _ =>
           if has_colon_child inner then Raise TypeError else OK None
       | (NavigableString name0 | Comment name0) :: _ =>
           let name := heading name0 in
           if str_in_list name sample_headings then
             nxt <- skip_blank (next_siblings tag) ;;
             match nxt with
             | None => Raise AttributeError
             | Some nxt =>
                 s <- sample_text E nxt ;;
                 match s with
                 | Some s => OK (Some (s, name))
                 | None => Raise UnboundLocalError
                 end
             end
           else OK None
       end)%result
  | _ => Raise AssertionError
  end.

(** The loop of [download_sample_cases] over the [h2] tags: the
    [samples.add(s.encode(), name)] calls it makes, in order. *)
Fixpoint added_samples (E : Env) (h2s : list occurrence)
  : result (list (list byte * string)) :=
  match h2s with
  | [] => OK []
  | h2 :: rest =>
      (it <- _parse_sample_tag E h2 ;;
       more <- added_samples E rest ;;
       match it with
       | Some (s, name) => OK ((encode s, name) :: more)
       | None => OK more
       end)%result
  end.

Definition download_sample_cases (E : Env) (self : t) (session : option (Session E))
  : IO E (list TestCase) :=
  (let session := session_or_default E session in
   resp <- utils_request (GET (get_url self)) session true ;;
   let soup := BeautifulSoup E (text resp) in
   samples <- lift (added_samples E (find_all "h2" soup)) ;;
   ret (SampleZipper_get E samples))%io.

End AnarchyGolfProblem.

(** ** HackerRank: handles and URLs ([hackerrank.py]) *)

Definition hackerrank_hosts : list string := ["hackerrank.com"; "www.hackerrank.com"].

Module HackerRankService.

Inductive t : Type := cls.

Definition get_url_of_login_page (self : t) : string := "https://www.hackerrank.com/auth/login".

Definition get_url (self : t) : string := "https://www.hackerrank.com/".

Definition get_name (self : t) : string := "HackerRank".

Definition from_url (url : string) : result (option t) :=
  (result <- urlparse url ;;
   if scheme_accepted result && str_in_list (netloc result) hackerrank_hosts
   then OK (Some cls)
   else OK None)%result.

Definition is_logged_in (E : Env) (self : t) (session : option (Session E)) : IO E bool :=
  (let session := session_or_default E session in
   let url := "https://www.hackerrank.com/auth/login" in
   resp <- utils_request (GET url) session true ;;
   ret (negb (contains "/auth" (resp_url resp))))%io.

End HackerRankService.

Module HackerRankProblem.

Record t : Type := cls { contest_slug : string; challenge_slug : string }.

Definition get_url (self : t) : string :=
  if contest_slug self =? "master"
  then "https://www.hackerrank.com/challenges/" ++ challenge_slug self
  else "https://www.hackerrank.com/contests/" ++ contest_slug self
         ++ "/challenges/" ++ challenge_slug self.

Definition get_service (self : t) : HackerRankService.t := HackerRankService.cls.

(** [[0-9A-Za-z-]]. *)
Definition slug_char (c : ascii) : bool := is_alnum c || Ascii.eqb c "-".

(** [/?$]. *)
Definition re_slash_end (s : string) : bool :=
  at_end s || match strip_prefix "/" s with Some r => at_end r | None => false end.

(** [(/problem)?/?$]. *)
Definition re_problem_end (s : string) : bool :=
  match strip_prefix "/problem" s with
  | Some r => re_slash_end r || re_slash_end s
  | None => re_slash_end s
  end.

(** [^/contests/([0-9A-Za-z-]+)/challenges/([0-9A-Za-z-]+)(/problem)?/?$]:
    groups 1 and 2. *)
Definition re_contest_challenge (p : string) : option (string * string) :=
  obind (strip_prefix "/contests/" p) (fun r =>
  obind (re_plus slug_char r) (fun '(g1, r) =>
  obind (strip_prefix "/challenges/" r) (fun r =>
  obind (re_plus slug_char r) (fun '(g2, r) =>
  if re_problem_end r then Some (g1, g2) else None)))).

(** [^/challenges/([0-9A-Za-z-]+)(/problem)?/?$]: group 1. *)
Definition re_challenge (p : string) : option string :=
  obind (strip_prefix "/challenges/" p) (fun r =>
  obind (re_plus slug_char r) (fun '(g1, r) =>
  if re_problem_end r then Some g1 else None)).

Definition from_url (normpath : string -> string) (url : string) : result (option t) :=
  (result <- urlparse url ;;
   if scheme_accepted result && str_in_list (netloc result) hackerrank_hosts then
     match re_contest_challenge (normpath (path result)) with
     | Some (g1, g2) => OK (Some (cls g1 g2))
     | None =>
         match re_challenge (normpath (path result)) with
         | Some g1 => OK (Some (cls "master" g1))
         | None => OK None
         end
     end
   else OK None)%result.

Definition slug (s : string) : bool :=
  negb (s =? "") && str_forallb slug_char s.

(** A problem the canonical URL identifies: both slugs are non-empty runs
    of [[0-9A-Za-z-]]. *)
Definition canonical (self : t) : bool :=
  slug (contest_slug self) && slug (challenge_slug self).

(** [utils.DummySubmission(url, problem=self)]. *)
Record Submission : Type := DummySubmission {
  submission_url : string;
  problem : t
}.

Definition access_denied : string := "Access Denied. Did you set your User-Agent?".

(** ['https://www.hackerrank.com/rest/contests/{}/challenges/{}'.format(
    self.contest_slug, self.challenge_slug)], the prefix of the REST URLs. *)
Definition rest_url (self : t) : string :=
  "https://www.hackerrank.com/rest/contests/" ++ contest_slug self
    ++ "/challenges/" ++ challenge_slug self.

Definition download_system_cases (E : Env) (self : t) (session : option (Session E))
  : IO E (list TestCase) :=
  (let session := session_or_default E session in
   let url := rest_url self ++ "/download_testcases" in
   resp <- utils_request (GET url) session false ;;
   if (status_code resp =? 403)%Z then
     _ <- lift (decode_utf8 (content resp)) ;;     (* the argument of logger.debug *)
     throw (SampleParseError access_denied)
   else
     raise_for_status resp ;;;
     lift (extract_from_zip E (content resp) "%eput/%eput%s.txt"))%io.

Definition download_sample_cases (E : Env) (self : t) (session : option (Session E))
  : IO E (list TestCase) :=
  download_system_cases E self session.

(** [soup.find('meta', attrs={'name': 'csrf-token'}).attrs['content']]. *)
Definition csrf_token (soup : node) : result string :=
  match find_with_attr "meta" "name" "csrf-token" soup with
  | None => Raise AttributeError
  | Some (Tag _ attrs _) =>
      match attr "content" attrs with
      | Some v => OK v
      | None => Raise KeyError
      end
  | Some _ => Raise AttributeError
  end.

Definition submit_code (E : Env) (self : t) (code : list byte) (language_id : string)
  (filename : option string) (session : option (Session E)) : IO E Submission :=
  (let session := session_or_default E session in
   logged_in <- HackerRankService.is_logged_in E (get_service self) (Some session) ;;
   if negb logged_in then throw NotLoggedInError
   else
     resp <- utils_request (GET (get_url self)) session true ;;
     let soup := BeautifulSoup E (text resp) in
     csrftoken <- lift (csrf_token soup) ;;
     let url := rest_url self ++ "/submissions" in
     source <- lift (decode_utf8 code) ;;
     let payload := [("code", source); ("language", language_id);
                     ("contest_slug", contest_slug self)] in
     resp <- utils_request (mkRequest "POST" url payload [("X-CSRF-Token", csrftoken)])
               session true ;;
     body <- lift (decode_utf8 (content resp)) ;;
     it <- lift (json_loads E body) ;;
     status <- lift (getitem it "status") ;;
     if negb (truthy status) then throw (SubmissionError "")
     else
       model <- lift (getitem it "model") ;;
       model_id <- lift (getitem model "id") ;;
       let url := rstrip_slash (get_url self) ++ "/submissions/code/"
                    ++ format (repr E) model_id in
       ret (DummySubmission url self))%io.

(** [_get_model(self, *, session=None)]. *)
Definition _get_model (E : Env) (self : t) (session : option (Session E)) : IO E json :=
  (let session := session_or_default E session in
   let url := rest_url self in
   resp <- utils_request (GET url) session true ;;
   body <- lift (decode_utf8 (content resp)) ;;
   it <- lift (json_loads E body) ;;
   status <- lift (getitem it "status") ;;
   if negb (truthy status) then throw (SubmissionError "")
   else lift (getitem it "model"))%io.

(** The text the table of display names is looked for by:
    [lang_display_mapping:{c:] followed by [C] in double quotes and a comma. *)
Definition lang_display_mapping_marker : string :=
  "lang_display_mapping:{c:" ++ String dquote ("C" ++ String dquote ",").

Definition codeshell_url : string :=
  "https://hrcdn.net/hackerrank/assets/codeshell/dist/codeshell-cdffcdf1564c6416e1a2eb207a4521ce.js".

(** The loop [for lang in ...: key, value = lang.split(sep);
    lang_display_mapping[key] = value], where [sep] is a colon and a
    double quote: unpacking anything but two parts is a [ValueError]. *)
Fixpoint mapping_of_fields (fields : list string) (d : list (string * string))
  : result (list (string * string)) :=
  match fields with
  | [] => OK d
  | lang :: rest =>
      match split_on2 ":" dquote lang with
      | [key; value] => mapping_of_fields rest (dict_set key value d)
      | _ => Raise ValueError
      end
  end.

(** The parsing part of [_get_lang_display_mapping], from the decoded
    script [s] on; [str.index] raises [ValueError] when it finds nothing. *)
Definition parse_lang_display_mapping (s : string) : result (list (string * string)) :=
  match index_from lang_display_mapping_marker s 0 with
  | None => Raise ValueError
  | Some l =>
      match index_from "{" s l with
      | None => Raise ValueError
      | Some l =>
          match index_from "}" s l with
          | None => Raise ValueError
          | Some r =>
              let r := (r + 1)%nat in
              let s := slice s l r in
              mapping_of_fields (split_on2 dquote "," (behead (chop (chop s)))) []
          end
      end
  end.

(** [_get_lang_display_mapping(self, *, session=None)]. *)
Definition _get_lang_display_mapping (E : Env) (self : t) (session : option (Session E))
  : IO E (list (string * string)) :=
  (let session := session_or_default E session in
   resp <- utils_request (GET codeshell_url) session true ;;
   s <- lift (decode_utf8 (content resp)) ;;
   lift (parse_lang_display_mapping s))%io.

(** [lang_display_mapping.get(lang)]: the keys are texts, so only a text
    can be found; a list or a dict cannot be hashed. *)
Definition mapping_get (d : list (string * string)) (lang : json) : result (option string) :=
  match lang with
  | JStr s => OK (dict_get s d)
  | JArr _ | JObj _ => Raise TypeError
  | _ => OK None
  end.

(** The loop of [get_available_languages] over [info['languages']]. *)
Fixpoint languages_of (d : list (string * string)) (langs : list json)
  : result (list (Language json json)) :=
  match langs with
  | [] => OK []
  | lang :: rest =>
      (descr <- mapping_get d lang ;;
       let descr := match descr with
                    | Some v => JStr v
                    | None => lang
                    end in
       more <- languages_of d rest ;;
       OK (mkLanguage lang descr :: more))%result
  end.

(** [get_available_languages(self, *, session=None)]; the display
    mapping is asked for without a session. *)
Definition get_available_languages (E : Env) (self : t) (session : option (Session E))
  : IO E (list (Language json json)) :=
  (let session := session_or_default E session in
   info <- _get_model E self (Some session) ;;
   lang_display_mapping <- _get_lang_display_mapping E self None ;;
   langs <- lift (getitem info "languages") ;;
   langs <- lift (iterate langs) ;;
   lift (languages_of lang_display_mapping langs))%io.

End HackerRankProblem.

(** ** Aizu Online Judge: handles and URLs ([aoj.py]) *)

Module AOJService.

Inductive t : Type := cls.

Definition get_url (self : t) : string := "http://judge.u-aizu.ac.jp/onlinejudge/".

Definition get_name (self : t) : string := "Aizu Online Judge".

Definition from_url (url : string) : result (option t) :=
  (result <- urlparse url ;;
   if scheme_accepted result
      && str_in_list (netloc result) ["judge.u-aizu.ac.jp"; "onlinejudge.u-aizu.ac.jp"]
   then OK (Some cls)
   else OK None)%result.

(** ['id' in data]: a key of a dict, an element of a list, a part of a
    string; any other value is not a container. *)
Definition json_contains (key : string) (data : json) : result bool :=
  match data with
  | JObj members => OK (existsb (fun m => String.eqb (fst m) key) members)
  | JArr items => OK (existsb (fun v => eq_str v key) items)
  | JStr s => OK (contains key s)
  | _ => Raise TypeError
  end.

(** [is_logged_in(self, *, session=None)].  [loads] is [json.loads] on
    [bytes], which the code applies to [resp.content]. *)
Definition is_logged_in (E : Env) (loads : list byte -> result json) (self : t)
  (session : option (Session E)) : IO E bool :=
  (let session := session_or_default E session in
   let url := "https://judgeapi.u-aizu.ac.jp/self" in
   resp <- utils_request (GET url) session false ;;
   if negb (status_code resp =? 200)%Z then ret false
   else
     data <- lift (loads (content resp)) ;;
     lift (json_contains "id" data))%io.

End AOJService.

Module AOJProblem.

Record t : Type := cls { problem_id : string }.

Definition get_url (self : t) : string :=
  "http://judge.u-aizu.ac.jp/onlinejudge/description.jsp?id=" ++ problem_id self.

Definition get_service (self : t) : AOJService.t := AOJService.cls.

(** [(sources|library/\d+|lesson/\d+)]: the rest after the group. *)
Definition re_section (s : string) : option string :=
  match strip_prefix "sources" s with
  | Some r => Some r
  | None =>
      match strip_prefix "library/" s with
      | Some r => obind (re_plus is_digit r) (fun '(_, r) => Some r)
      | None =>
          obind (strip_prefix "lesson/" s) (fun r =>
          obind (re_plus is_digit r) (fun '(_, r) => Some r))
      end
  end.

(** [(challenges|courses)]: the rest after the group. *)
Definition re_area (s : string) : option string :=
  match strip_prefix "challenges" s with
  | Some r => Some r
  | None => strip_prefix "courses" s
  end.

(** [^/(challenges|courses)/(sources|library/\d+|lesson/\d+)/(\w+)/(\w+)/(\w+)$]:
    group 5. *)
Definition re_source_path (p : string) : option string :=
  obind (strip_prefix "/" p) (fun r =>
  obind (re_area r) (fun r =>
  obind (strip_prefix "/" r) (fun r =>
  obind (re_section r) (fun r =>
  obind (strip_prefix "/" r) (fun r =>
  obind (re_plus is_word r) (fun '(_, r) =>
  obind (strip_prefix "/" r) (fun r =>
  obind (re_plus is_word r) (fun '(_, r) =>
  obind (strip_prefix "/" r) (fun r =>
  obind (re_plus is_word r) (fun '(g5, r) =>
  if at_end r then Some g5 else None)))))))))).

(** [^/problems/(\w+)$]: group 1. *)
Definition re_problems_path (p : string) : option string :=
  obind (strip_prefix "/problems/" p) (fun r =>
  obind (re_plus is_word r) (fun '(g1, r) =>
  if at_end r then Some g1 else None)).

Definition from_url (normpath : string -> string) (url : string) : result (option t) :=
  (result <- urlparse url ;;
   let ids := parse_qs_get (query result) "id" in
   match
     (if scheme_accepted result
         && (netloc result =? "judge.u-aizu.ac.jp")
         && (normpath (path result) =? "/onlinejudge/description.jsp")
      then match ids with [n] => Some n | _ => None end
      else None)
   with
   | Some n => OK (Some (cls n))
   | None =>
       match
         (if scheme_accepted result && (netloc result =? "onlinejudge.u-aizu.ac.jp")
          then re_source_path (normpath (path result)) else None)
       with
       | Some n => OK (Some (cls n))
       | None =>
           match
             (if scheme_accepted result && (netloc result =? "onlinejudge.u-aizu.ac.jp")
              then re_problems_path (normpath (path result)) else None)
           with
           | Some n => OK (Some (cls n))
           | None => OK None
           end
       end
   end)%result.

(** A problem the canonical URL identifies: a non-empty id of word
    characters, like [DSL_1_A] or [2256]. *)
Definition canonical (self : t) : bool :=
  negb (problem_id self =? "") && str_forallb is_word (problem_id self).

(** One element of the reply of the samples API, as the body of the
    [enumerate] loop reads it: [TestCase('sample-{}'.format(i + 1),
    str(sample['serial']), sample['in'].encode(), str(sample['serial']),
    sample['out'].encode())]. *)
Definition api_sample (E : Env) (i : nat) (sample : json) : result TestCase :=
  (serial <- getitem sample "serial" ;;
   input <- getitem sample "in" ;;
   input <- encode_json input ;;
   serial' <- getitem sample "serial" ;;
   output <- getitem sample "out" ;;
   output <- encode_json output ;;
   OK (mkTestCase ("sample-" ++ str_of_int (Z.of_nat (i + 1)))
         (format (repr E) serial) input (format (repr E) serial') output))%result.

Fixpoint api_samples (E : Env) (i : nat) (samples : list json) : result (list TestCase) :=
  match samples with
  | [] => OK []
  | sample :: rest =>
      (tc <- api_sample E i sample ;;
       more <- api_samples E (S i) rest ;;
       OK (tc :: more))%result
  end.

Definition expected_strings : list string :=
  ["入力例"; "出力例"; "Sample Input"; "Sample Output"].

(** The heading of a [pre]: [tag = pre.find_previous_sibling()], kept when
    [tag and tag.name == 'h3' and tag.string
     and any(s in tag.string for s in expected_strings)]; the result is
    [tag.string]. *)
Definition sample_heading (pre : occurrence) : option string :=
  match find_previous_sibling pre with
  | Some tag =>
      if is_named "h3" tag then
        match node_string tag with
        | Some label =>
            if negb (label =? "") && existsb (fun s => contains s label) expected_strings
            then Some label else None
        | None => None
        end
      else None
  | None => None
  end.

(** The [zipper.add(s.encode(), tag.string)] calls of the HTML fallback,
    with [s = utils.textfile(utils.parse_content(pre).lstrip())]. *)
Fixpoint added_samples (E : Env) (pres : list occurrence) : list (list byte * string) :=
  match pres with
  | [] => []
  | pre :: rest =>
      match sample_heading pre with
      | Some label =>
          (encode (textfile E (lstrip (parse_content E (occ_node pre)))), label)
            :: added_samples E rest
      | None => added_samples E rest
      end
  end.

(** [bs4.BeautifulSoup(html, utils.HTML_PARSER)] on a value of the reply:
    markup that is not a string makes [bs4] raise. *)
Definition soup_of (E : Env) (html : json) : result node :=
  match html with
  | JStr s => OK (BeautifulSoup E s)
  | _ => Raise TypeError
  end.

Definition download_sample_cases (E : Env) (self : t) (session : option (Session E))
  : IO E (list TestCase) :=
  (let session := session_or_default E session in
   let url := "https://judgedat.u-aizu.ac.jp/testcases/samples/" ++ problem_id self in
   resp <- utils_request (GET url) session true ;;
   reply <- lift (json_loads E (text resp)) ;;
   items <- lift (iterate reply) ;;
   samples <- lift (api_samples E 0 items) ;;
   match samples with
   | _ :: _ => ret samples
   | [] =>
       let url := "https://judgeapi.u-aizu.ac.jp/resources/descriptions/ja/"
                    ++ problem_id self in
       resp <- utils_request (GET url) session true ;;
       reply <- lift (json_loads E (text resp)) ;;
       html <- lift (getitem reply "html") ;;
       soup <- lift (soup_of E html) ;;
       ret (SampleZipper_get E (added_samples E (find_all "pre" soup)))
   end)%io.

(** The body of the loop of [download_system_cases] over the headers. *)
Fixpoint system_cases (E : Env) (self : t) (session : Session E) (headers : list json)
  : IO E (list TestCase) :=
  match headers with
  | [] => ret []
  | header :: rest =>
      (serial <- lift (getitem header "serial") ;;
       let url := "https://judgedat.u-aizu.ac.jp/testcases/" ++ problem_id self
                    ++ "/" ++ format (repr E) serial in
       resp_in <- utils_request (GET (url ++ "/in")) session true ;;
       resp_out <- utils_request (GET (url ++ "/out")) session true ;;
       name <- lift (getitem header "name") ;;
       let name := format (repr E) name in
       more <- system_cases E self session rest ;;
       ret (mkTestCase name name (content resp_in) name (content resp_out) :: more))%io
  end.

Definition download_system_cases (E : Env) (self : t) (session : option (Session E))
  : IO E (list TestCase) :=
  (let session := session_or_default E session in
   let url := "https://judgedat.u-aizu.ac.jp/testcases/" ++ problem_id self ++ "/header" in
   resp <- utils_request (GET url) session true ;;
   header <- lift (json_loads E (text resp)) ;;
   headers <- lift (getitem header "headers") ;;
   headers <- lift (iterate headers) ;;
   system_cases E self session headers)%io.

End AOJProblem.

Module AOJArenaProblem.

(** [_problem_id] is the memo slot of [get_problem_id]: [None] until the
    backing problem id has been resolved. *)
Record t : Type := mk {
  arena_id : string;
  alphabet : string;
  _problem_id : option json
}.

(** [__init__(self, *, arena_id, alphabet)]. *)
Definition cls (arena_id alphabet : string) : result t :=
  (assert (contains alphabet ascii_uppercase) ;;
   OK (mk arena_id alphabet None))%result.

Definition get_url (self : t) : string :=
  "https://onlinejudge.u-aizu.ac.jp/services/room.html#" ++ arena_id self
    ++ "/problems/" ++ alphabet self.

Definition get_service (self : t) : AOJService.t := AOJService.cls.

Definition from_url (normpath : string -> string) (url : string) : result (option t) :=
  (result <- urlparse url ;;
   if scheme_accepted result
      && (netloc result =? "onlinejudge.u-aizu.ac.jp")
      && (normpath (path result) =? "/services/room.html")
   then
     match split_on "/" (fragment result) with
     | [f0; f1; f2] =>
         if f1 =? "problems"
         then (self <- cls f0 (upper f2) ;; OK (Some self))
         else OK None
     | _ => OK None
     end
   else OK None)%result.

Definition arena_char (c : ascii) : bool := url_char c && negb (Ascii.eqb c "/").

(** A problem the canonical URL identifies: an arena id without ['/'],
    TAB, CR or LF, and the alphabet the constructor accepts. *)
Definition canonical (self : t) : bool :=
  str_forallb arena_char (arena_id self) && contains (alphabet self) ascii_uppercase.

(** [self._problem_id = problem['problemId']]: JSON [null] is [None]. *)
Definition memo_of (v : json) : option json :=
  match v with
  | JNull => None
  | _ => Some v
  end.

(** The loop [for problem in problems: if problem['id'] == self.alphabet:
    self._problem_id = problem['problemId']; break]: the handle after it. *)
Fixpoint resolve (self : t) (problems : list json) : result t :=
  match problems with
  | [] => OK self
  | problem :: rest =>
      (id <- getitem problem "id" ;;
       if eq_str id (alphabet self) then
         problemId <- getitem problem "problemId" ;;
         OK (mk (arena_id self) (alphabet self) (memo_of problemId))
       else resolve self rest)%result
  end.

(** [get_problem_id(self, *, session=None)]: the value returned and the
    handle as the call leaves it. *)
Definition get_problem_id (E : Env) (self : t) (session : option (Session E))
  : IO E (option json * t) :=
  match _problem_id self with
  | Some v => ret (Some v, self)
  | None =>
      (let session := session_or_default E session in
       let url := "https://judgeapi.u-aizu.ac.jp/arenas/" ++ arena_id self ++ "/problems" in
       resp <- utils_request (GET url) session true ;;
       problems <- lift (json_loads E (text resp)) ;;
       problems <- lift (iterate problems) ;;
       self' <- lift (resolve self problems) ;;
       ret (_problem_id self', self'))%io
  end.

(** [AOJProblem(problem_id=self.get_problem_id())]: the methods of the
    problem built here only format its id into URLs, so the handle is
    given the text the id formats to ([None] formats as ["None"]). *)
Definition backing_problem (E : Env) (problem_id : option json) : AOJProblem.t :=
  AOJProblem.cls (match problem_id with
                  | Some v => format (repr E) v
                  | None => "None"
                  end).

Definition download_sample_cases (E : Env) (self : t) (session : option (Session E))
  : IO E (list TestCase * t) :=
  (r <- get_problem_id E self None ;;
   cases <- AOJProblem.download_sample_cases E (backing_problem E (fst r)) session ;;
   ret (cases, snd r))%io.

Definition download_system_cases (E : Env) (self : t) (session : option (Session E))
  : IO E (list TestCase * t) :=
  (r <- get_problem_id E self None ;;
   cases <- AOJProblem.download_system_cases E (backing_problem E (fst r)) session ;;
   ret (cases, snd r))%io.

Definition download_content (E : Env) (self : t) (session : option (Session E))
  : IO E unit :=
  throw NotImplementedError.

End AOJArenaProblem.

(** ** Codeforces: handles and URLs ([codeforces.py]) *)

Definition _CODEFORCES_DOMAINS : list string :=
  ["codeforces.com"; "m1.codeforces.com"; "m2.codeforces.com"; "m3.codeforces.com"].

(** [kind in (None, k1, ..., kn)]. *)
Definition kind_in (kind : option string) (allowed : list string) : bool :=
  match kind with
  | None => true
  | Some k => str_in_list k allowed
  end.

(** The [if kind is None] block shared by both constructors. *)
Definition infer_kind (contest_id : Z) (kind : option string) : string :=
  match kind with
  | None => if (contest_id <? 100000)%Z then "contest" else "gym"
  | Some k => k
  end.

Module CodeforcesService.

Inductive t : Type := cls.

Definition get_url_of_login_page (self : t) : string := "https://codeforces.com/enter".

Definition get_url (self : t) : string := "https://codeforces.com/".

Definition get_name (self : t) : string := "Codeforces".

Definition from_url (url : string) : result (option t) :=
  (result <- urlparse url ;;
   if scheme_accepted result && str_in_list (netloc result) _CODEFORCES_DOMAINS
   then OK (Some cls)
   else OK None)%result.

End CodeforcesService.

Module CodeforcesContest.

Record t : Type := mk { contest_id : Z; kind : string }.

(** [__init__(self, *, contest_id, kind=None)]. *)
Definition cls (contest_id : Z) (kind : option string) : result t :=
  (assert (kind_in kind ["contest"; "gym"]) ;;
   OK (mk contest_id (infer_kind contest_id kind)))%result.

Definition get_url (self : t) : string :=
  "https://codeforces.com/" ++ kind self ++ "/" ++ str_of_int (contest_id self).

Definition get_service (self : t) : CodeforcesService.t := CodeforcesService.cls.

(** [re.match(r'/<kind>/([0-9]+).*', p)]: group 1.  The trailing [.*]
    accepts whatever follows the digits. *)
Definition re_contest (kind : string) (p : string) : option string :=
  obind (strip_prefix ("/" ++ kind ++ "/") p) (fun r =>
  obind (re_plus is_digit r) (fun '(g1, _) => Some g1)).

Definition table : list (string * (string -> option string)) :=
  [("contest", re_contest "contest"); ("gym", re_contest "gym")].

(** [return cls(contest_id=int(m.group(1)), kind=kind)]. *)
Definition of_match (kind : string) (g1 : string) : result (option t) :=
  (n <- int_of_str g1 ;;
   self <- cls n (Some kind) ;;
   OK (Some self))%result.

Definition from_url (normpath : string -> string) (url : string) : result (option t) :=
  (result <- urlparse url ;;
   if scheme_accepted result && str_in_list (netloc result) _CODEFORCES_DOMAINS
   then first_match table (normpath (path result)) of_match
   else OK None)%result.

(** A contest the canonical URL identifies: a natural number as id and
    one of the two kinds a contest has. *)
Definition canonical (self : t) : bool :=
  (0 <=? contest_id self)%Z && str_in_list (kind self) ["contest"; "gym"].

End CodeforcesContest.

Module CodeforcesProblem.

Record t : Type := mk {
  contest_id : Z;
  index : string;
  kind : string;
  course : option Z;
  lesson : option Z;
  step : option Z
}.

(** [string.digits]. *)
Definition digits : string := "0123456789".

(** [__init__(self, *, contest_id, index, kind=None, course=None,
    lesson=None, step=None)]. *)
Definition cls (contest_id : Z) (index : string) (kind : option string)
  (course lesson step : option Z) : result t :=
  (assert ((1 <=? String.length index)%nat && (String.length index <=? 2)%nat) ;;
   assert (match index with
           | String c _ => has_char c ascii_uppercase
           | EmptyString => false
           end) ;;
   assert (match index with
           | String _ (String d EmptyString) => has_char d digits
           | _ => true
           end) ;;
   assert (kind_in kind ["contest"; "gym"; "problemset"; "edu"]) ;;
   OK (mk contest_id index (infer_kind contest_id kind) course lesson step))%result.

(** [table[self.kind].format(contest_id, index, course, lesson, step)];
    a kind outside the table is a [KeyError]. *)
Definition get_url (self : t) : result string :=
  let c := str_of_int (contest_id self) in
  if kind self =? "contest" then
    OK ("https://codeforces.com/contest/" ++ c ++ "/problem/" ++ index self)
  else if kind self =? "problemset" then
    OK ("https://codeforces.com/problemset/problem/" ++ c ++ "/" ++ index self)
  else if kind self =? "gym" then
    OK ("https://codeforces.com/gym/" ++ c ++ "/problem/" ++ index self)
  else if kind self =? "edu" then
    OK ("https://codeforces.com/edu/course/" ++ str_of_opt_int (course self)
          ++ "/lesson/" ++ str_of_opt_int (lesson self)
          ++ "/" ++ str_of_opt_int (step self)
          ++ "/practice/contest/" ++ c ++ "/problem/" ++ index self)
  else Raise KeyError.

Definition get_service (self : t) : CodeforcesService.t := CodeforcesService.cls.

Definition get_contest (self : t) : result CodeforcesContest.t :=
  (assert (negb (str_in_list (kind self) ["problemset"; "edu"])) ;;
   CodeforcesContest.cls (contest_id self) (Some (kind self)))%result.

(** The named groups of a match; a pattern without [course], [lesson] and
    [step] leaves them [None]. *)
Record groups : Type := mkGroups {
  g_contest : string;
  g_index : string;
  g_course : option string;
  g_lesson : option string;
  g_step : option string
}.

(** [(?P<index>0|[A-Za-z][1-9]?)$]: the captured index. *)
Definition re_for_index (s : string) : option string :=
  match s with
  | String c r =>
      if Ascii.eqb c "0" && at_end r then Some (String c EmptyString)
      else if is_alpha c then
        match r with
        | String d r' =>
            if is_digit19 d && at_end r' then Some (String c (String d EmptyString))
            else if at_end r then Some (String c EmptyString)
            else None
        | EmptyString => Some (String c EmptyString)
        end
      else None
  | EmptyString => None
  end.

(** [^/contest/(?P<contest>[0-9]+)/problem/<index>$] and its [gym] twin. *)
Definition re_contest_problem (kind : string) (p : string) : option groups :=
  obind (strip_prefix ("/" ++ kind ++ "/") p) (fun r =>
  obind (re_plus is_digit r) (fun '(c, r) =>
  obind (strip_prefix "/problem/" r) (fun r =>
  obind (re_for_index r) (fun i =>
  Some (mkGroups c i None None None))))).

(** [^/problemset/problem/(?P<contest>[0-9]+)/<index>$]. *)
Definition re_problemset (p : string) : option groups :=
  obind (strip_prefix "/problemset/problem/" p) (fun r =>
  obind (re_plus is_digit r) (fun '(c, r) =>
  obind (strip_prefix "/" r) (fun r =>
  obind (re_for_index r) (fun i =>
  Some (mkGroups c i None None None))))).

(** [^/edu/course/<course>/lesson/<lesson>/<step>/practice/contest/<contest>/problem/<index>$],
    where the named groups [course], [lesson], [step] and [contest] are
    each a possibly empty run [[0-9]*]. *)
Definition re_edu (p : string) : option groups :=
  obind (strip_prefix "/edu/course/" p) (fun r =>
  let (co, r) := re_star is_digit r in
  obind (strip_prefix "/lesson/" r) (fun r =>
  let (le, r) := re_star is_digit r in
  obind (strip_prefix "/" r) (fun r =>
  let (st, r) := re_star is_digit r in
  obind (strip_prefix "/practice/contest/" r) (fun r =>
  let (c, r) := re_star is_digit r in
  obind (strip_prefix "/problem/" r) (fun r =>
  obind (re_for_index r) (fun i =>
  Some (mkGroups c i (Some co) (Some le) (Some st)))))))).

Definition table : list (string * (string -> option groups)) :=
  [("contest", re_contest_problem "contest");
   ("problemset", re_problemset);
   ("gym", re_contest_problem "gym");
   ("edu", re_edu)].

(** [int(m.group(name))]; a group the pattern does not have is an [IndexError]. *)
Definition int_of_group (g : option string) : result Z :=
  match g with
  | Some s => int_of_str s
  | None => Raise IndexError
  end.

(** [if m.group('index') == '0': index = 'A' else: index = m.group('index').upper()]. *)
Definition normalize_index (i : string) : string :=
  if i =? "0" then "A" else upper i.

(** The body of the loop of [from_url] once a pattern has matched. *)
Definition of_match (kind : string) (m : groups) : result (option t) :=
  (let index := normalize_index (g_index m) in
   if kind =? "edu" then
     n <- int_of_str (g_contest m) ;;
     co <- int_of_group (g_course m) ;;
     le <- int_of_group (g_lesson m) ;;
     st <- int_of_group (g_step m) ;;
     self <- cls n index (Some kind) (Some co) (Some le) (Some st) ;;
     OK (Some self)
   else
     n <- int_of_str (g_contest m) ;;
     self <- cls n index (Some kind) None None None ;;
     OK (Some self))%result.

Definition from_url (normpath : string -> string) (url : string) : result (option t) :=
  (result <- urlparse url ;;
   if scheme_accepted result && str_in_list (netloc result) _CODEFORCES_DOMAINS
   then first_match table (normpath (path result)) of_match
   else OK None)%result.

(** What the three index assertions of the constructor ask of [index]. *)
Definition valid_index (index : string) : bool :=
  match index with
  | String c EmptyString => has_char c ascii_uppercase
  | String c (String d EmptyString) => has_char c ascii_uppercase && has_char d digits
  | _ => false
  end.

(** The index texts the pattern [0|[A-Za-z][1-9]?] accepts in a URL. *)
Definition url_index (i : string) : bool :=
  match i with
  | String c EmptyString => Ascii.eqb c "0" || is_alpha c
  | String c (String d EmptyString) => is_alpha c && is_digit19 d
  | _ => false
  end.

(** The indices [from_url] builds: an uppercase letter, then possibly a
    digit from 1 to 9. *)
Definition canonical_index (i : string) : bool :=
  match i with
  | String c EmptyString => is_upper c
  | String c (String d EmptyString) => is_upper c && is_digit19 d
  | _ => false
  end.

Definition nonneg (o : option Z) : bool :=
  match o with
  | Some z => (0 <=? z)%Z
  | None => false
  end.

Definition is_none (o : option Z) : bool :=
  match o with
  | Some _ => false
  | None => true
  end.

(** A problem the canonical URL identifies: natural numbers as ids, a
    canonical index, and the course coordinates exactly for kind [edu]. *)
Definition canonical (self : t) : bool :=
  (0 <=? contest_id self)%Z && canonical_index (index self)
  && if kind self =? "edu"
     then nonneg (course self) && nonneg (lesson self) && nonneg (step self)
     else str_in_list (kind self) ["contest"; "problemset"; "gym"]
          && is_none (course self) && is_none (lesson self) && is_none (step self).

(** [utils.DummySubmission]-like handle a submission would return. *)
Record Submission : Type := DummySubmission {
  submission_url : string;
  problem : t
}.

Definition submission_removed : string :=
  "The feature to submit to Codeforces is now removed. Please read https://github.com/online-judge-tools/api-client/issues/127".

Definition submit_code (E : Env) (self : t) (code : list byte) (language_id : string)
  (filename : option string) (session : option (Session E)) : IO E Submission :=
  throw (SubmissionError submission_removed).

(** The loop [for option in select.findAll('option'): languages +=
    [Language(option.attrs['value'], option.string)]]. *)
Fixpoint languages_of_options (options : list occurrence)
  : result (list (Language string (option string))) :=
  match options with
  | [] => OK []
  | option :: rest =>
      (value <- match occ_node option with
                | Tag _ attrs _ =>
                    match attr "value" attrs with
                    | Some v => OK v
                    | None => Raise KeyError
                    end
                | _ => Raise AttributeError
                end ;;
       more <- languages_of_options rest ;;
       OK (mkLanguage value (node_string (occ_node option)) :: more))%result
  end.

(** [get_available_languages(self, *, session=None)]. *)
Definition get_available_languages (E : Env) (self : t) (session : option (Session E))
  : IO E (list (Language string (option string))) :=
  (let session := session_or_default E session in
   url <- lift (get_url self) ;;
   resp <- utils_request (GET url) session true ;;
   let soup := BeautifulSoup E (text resp) in
   match find_with_attr "select" "name" "programTypeId" soup with
   | None => throw NotLoggedInError
   | Some select => lift (languages_of_options (find_all "option" select))
   end)%io.

End CodeforcesProblem.

(** ** An instance of [utils.normpath] *)

(** The loop of [posixpath.normpath] over the components of the path;
    [new_comps] is kept with its last element first. *)
Fixpoint norm_comps (initial_slashes : bool) (comps new_comps : list string) : list string :=
  match comps with
  | [] => List.rev new_comps
  | comp :: rest =>
      if (comp =? "") || (comp =? ".") then norm_comps initial_slashes rest new_comps
      else if negb (comp =? "..")
              || (negb initial_slashes && match new_comps with [] => true | _ => false end)
              || match new_comps with last :: _ => last =? ".." | [] => false end
      then norm_comps initial_slashes rest (comp :: new_comps)
      else norm_comps initial_slashes rest (List.tl new_comps)
  end.

(** [posixpath.normpath]. *)
Definition posixpath_normpath (p : string) : string :=
  match p with
  | EmptyString => "."
  | _ =>
      let initial_slashes := startswith "/" p in
      let lead :=
        if initial_slashes then
          if startswith "//" p && negb (startswith "///" p) then "//" else "/"
        else "" in
      let out := lead ++ join "/" (norm_comps initial_slashes (split_on "/" p) []) in
      match out with
      | EmptyString => "."
      | _ => out
      end
  end.

(** Modelled from the spec: [utils.normpath] is not among the sources, and
    the spec only says that [from_url] matches "a path/query shape specific
    to the adapter".  The adapters take it as a parameter; this instance,
    [posixpath.normpath] with a leading double slash collapsed, serves to
    evaluate them on concrete URLs. *)
Definition utils_normpath (p : string) : string :=
  let q := posixpath_normpath p in
  if startswith "//" q then "/" ++ lstrip_by (Ascii.eqb "/") q else q.

(** A component [posixpath.normpath] keeps as it is: not empty, not [.]
    or [..], and without a slash. *)
Definition normal_component (c : string) : bool :=
  negb (c =? "") && negb (c =? ".") && negb (c =? "..") && negb (has_char "/" c).

(** ** URL shapes used to state properties of [CodeforcesProblem.from_url] *)

(** The text of a problem URL of kind [contest], [gym] or [problemset] on
    a given scheme and host, with contest digits [n] and index text [i]:
    the shapes the first three rows of the table of [from_url] accept. *)
Definition codeforces_problem_url (sch host kind n i : string) : string :=
  sch ++ "://" ++ host ++
  (if kind =? "problemset"
   then "/problemset/problem/" ++ n ++ "/" ++ i
   else "/" ++ kind ++ "/" ++ n ++ "/problem/" ++ i).

(** The text of an arena problem URL with the letter [l] in its fragment. *)
Definition aoj_arena_url (arena l : string) : string :=
  "https://onlinejudge.u-aizu.ac.jp/services/room.html#" ++ arena ++ "/problems/" ++ l.

(** [normpath] leaves the path of [url] as [urlparse] reads it. *)
Definition keeps_path (normpath : string -> string) (url : string) : Prop :=
  normpath (url_path url) = url_path url.

(** ** Instances of the collaborators, for evaluating the adapters *)

(** Modelled from the spec: the sample zipper
    ([onlinejudge._implementation.testcase_zipper.SampleZipper]) is not
    among the sources.  This follows section 4.2 of the spec: a label is
    classified by case-insensitive matching against the marker phrases,
    its explicit index is the first run of digits once the marker is
    stripped; fragments queue per direction in document order, a later
    duplicate of an explicit index on one side is dropped; equal explicit
    indices on both sides pair first, in ascending order and named by
    the index; what remains pairs positionally under a sequential name;
    a fragment left over is dropped. *)
Module SampleZipper.

Inductive direction : Type := INPUT | OUTPUT | UNKNOWN.

Record fragment : Type := mkFragment {
  f_index : option N;
  f_label : string;
  f_content : list byte
}.

(** [s] without the first occurrence of [marker], when there is one. *)
Fixpoint strip_marker (marker s : string) : option string :=
  match strip_prefix marker s with
  | Some r => Some r
  | None =>
      match s with
      | EmptyString => None
      | String c r => option_map (String c) (strip_marker marker r)
      end
  end.

Fixpoint strip_first_marker (markers : list string) (label : string) : option string :=
  match markers with
  | [] => None
  | m :: rest =>
      match strip_marker (lower m) label with
      | Some r => Some r
      | None => strip_first_marker rest label
      end
  end.

(** The first contiguous run of digits, as a number. *)
Definition first_digits (s : string) : option N :=
  let (_, r) := span (fun c => negb (is_digit c)) s in
  let (d, _) := span is_digit r in
  match d with
  | EmptyString => None
  | _ => option_map N.of_uint (NilEmpty.uint_of_string d)
  end.

Definition classify (input_markers output_markers : list string) (label : string)
  : direction * option N :=
  match strip_first_marker input_markers (lower label) with
  | Some r => (INPUT, first_digits r)
  | None =>
      match strip_first_marker output_markers (lower label) with
      | Some r => (OUTPUT, first_digits r)
      | None => (UNKNOWN, None)
      end
  end.

Definition is_input (d : direction) : bool :=
  match d with INPUT => true | _ => false end.

Definition is_output (d : direction) : bool :=
  match d with OUTPUT => true | _ => false end.

Definition has_index (i : N) (f : fragment) : bool :=
  match f_index f with
  | Some j => N.eqb i j
  | None => false
  end.

(** The queue of one direction: the fragments of that direction in
    document order, a repeated explicit index kept once. *)
Fixpoint queue (input_markers output_markers : list string) (wanted : direction -> bool)
  (seen : list N) (added : list (list byte * string)) : list fragment :=
  match added with
  | [] => []
  | (data, label) :: rest =>
      let (d, i) := classify input_markers output_markers label in
      if wanted d then
        match i with
        | Some j =>
            if existsb (N.eqb j) seen
            then queue input_markers output_markers wanted seen rest
            else mkFragment i label data
                   :: queue input_markers output_markers wanted (j :: seen) rest
        | None => mkFragment i label data
                    :: queue input_markers output_markers wanted seen rest
        end
      else queue input_markers output_markers wanted seen rest
  end.

Fixpoint insert_sorted (i : N) (l : list N) : list N :=
  match l with
  | [] => [i]
  | j :: rest => if (i <=? j)%N then i :: l else j :: insert_sorted i rest
  end.

Definition sort (l : list N) : list N := fold_right insert_sorted [] l.

Definition explicit_indices (q : list fragment) : list N :=
  flat_map (fun f => match f_index f with Some i => [i] | None => [] end) q.

(** The explicit indices present on both sides, ascending. *)
Definition shared_indices (ins outs : list fragment) : list N :=
  sort (filter (fun i => existsb (has_index i) outs) (explicit_indices ins)).

Definition pair_up (name : string) (i o : fragment) : TestCase :=
  mkTestCase name (f_label i) (f_content i) (f_label o) (f_content o).

Definition pair_by_index (ins outs : list fragment) (i : N) : list TestCase :=
  match find (has_index i) ins, find (has_index i) outs with
  | Some a, Some b => [pair_up (str_of_int (Z.of_N i)) a b]
  | _, _ => []
  end.

Definition unmatched (shared : list N) (q : list fragment) : list fragment :=
  filter (fun f => negb (existsb (fun i => has_index i f) shared)) q.

Fixpoint pair_positionally (k : nat) (ins outs : list fragment) : list TestCase :=
  match ins, outs with
  | a :: ins', b :: outs' =>
      pair_up ("sample-" ++ str_of_int (Z.of_nat k)) a b
        :: pair_positionally (S k) ins' outs'
  | _, _ => []
  end.

(** [finish()] after the [add(content, label)] calls listed. *)
Definition get (input_markers output_markers : list string)
  (added : list (list byte * string)) : list TestCase :=
  let ins := queue input_markers output_markers is_input [] added in
  let outs := queue input_markers output_markers is_output [] added in
  let shared := shared_indices ins outs in
  let by_index := flat_map (pair_by_index ins outs) shared in
  (by_index
     ++ pair_positionally (S (List.length by_index))
          (unmatched shared ins) (unmatched shared outs))%list.

End SampleZipper.

(** Modelled from the spec: [utils.textfile] is not among the sources; the
    spec allows "only newline normalization" on scraped content.  This
    instance gives the text a final newline when it has none. *)
Fixpoint ends_with_newline (s : string) : bool :=
  match s with
  | EmptyString => false
  | String c EmptyString => Ascii.eqb c "010"
  | String _ r => ends_with_newline r
  end.

Definition utils_textfile (s : string) : string :=
  if ends_with_newline s then s
  else if contains (String "013" (String "010" "")) s
       then s ++ String "013" (String "010" "")
       else s ++ String "010" "".

(** Modelled from the spec: [utils.parse_content] is not among the
    sources; the spec speaks of the "literal text block" of a tag.  This
    instance reads the text of a node as the strings below it put
    together, a comment as no text and an empty [br] as a newline. *)
Fixpoint utils_parse_content (n : node) : string :=
  match n with
  | Comment _ => EmptyString
  | NavigableString s => s
  | Tag name _ [] => if contains "br" name then String "010" "" else EmptyString
  | Tag _ _ contents =>
      (fix texts (l : list node) : string :=
         match l with
         | [] => EmptyString
         | x :: r => utils_parse_content x ++ texts r
         end) contents
  end.

(** Modelled from the spec: [utils.dos2unix] is not among the sources and
    the spec only names "newline normalization".  This instance replaces
    each CR LF by LF, as the name of the helper says. *)
Definition utils_dos2unix (s : string) : string := replace_crlf s.

Definition lookup {A : Type} (key : string) (table : list (string * A)) : option A :=
  match find (fun kv => String.eqb (fst kv) key) table with
  | Some kv => Some (snd kv)
  | None => None
  end.

(** A closed world for evaluating the adapters: one session; the
    transport answers a request from a table keyed by method and URL and
    fails on any other; the parsers read the few texts listed; [repr]
    abbreviates every list and dict.  No archive is listed, so
    [extract_from_zip] finds no file. *)
Definition table_env (routes : list (string * Response))
  (documents : list (string * json)) (pages : list (string * node)) : Env :=
  mkEnv unit tt
    (fun _ _ req =>
       match lookup (method req ++ " " ++ req_url req) routes with
       | Some resp => OK resp
       | None => Raise (TransportError "connection refused")
       end)
    (fun s => match lookup s documents with
              | Some v => OK v
              | None => Raise ValueError
              end)
    (fun s => match lookup s pages with
              | Some n => n
              | None => Tag "[document]" [] []
              end)
    (fun _ => "...")
    utils_dos2unix utils_textfile utils_parse_content
    (SampleZipper.get ["input"; "入力"] ["output"; "出力"])
    (fun _ _ => OK []).

(** A reply with status 200 whose body is [body]. *)
Definition ok_response (url body : string) : Response :=
  mkResponse 200 url (encode body) body.

(** ** Worlds for the examples *)

(** HackerRank answers the download of the test cases of
    [master/fp-hello-world] with the given status. *)
Definition hackerrank_download_world (status : Z) : Env :=
  table_env
    [("GET https://www.hackerrank.com/rest/contests/master/challenges/fp-hello-world/download_testcases",
      mkResponse status "https://www.hackerrank.com/rest/contests/master/challenges/fp-hello-world/download_testcases"
        (encode "denied") "denied")]
    [] [].

Definition challenge_page : node :=
  Tag "[document]" []
    [Tag "html" []
       [Tag "head" []
          [Tag "meta" [("charset", "utf-8")] [];
           Tag "meta" [("name", "csrf-token"); ("content", "TOKEN")] []];
        Tag "body" [] [NavigableString "fp-hello-world"]]].

(** HackerRank with a signed-in session (the login page redirects to the
    dashboard), answering a submission to [master/fp-hello-world] with
    the given [status] and the model id 42. *)
Definition hackerrank_submission_world (status : json) : Env :=
  table_env
    [("GET https://www.hackerrank.com/auth/login",
      ok_response "https://www.hackerrank.com/dashboard" "dashboard");
     ("GET https://www.hackerrank.com/challenges/fp-hello-world",
      ok_response "https://www.hackerrank.com/challenges/fp-hello-world" "challenge page");
     ("POST https://www.hackerrank.com/rest/contests/master/challenges/fp-hello-world/submissions",
      ok_response "https://www.hackerrank.com/rest/contests/master/challenges/fp-hello-world/submissions"
        "reply")]
    [("reply", JObj [("status", status); ("model", JObj [("id", JNum 42)])])]
    [("challenge page", challenge_page)].

(** The arena [RitsCamp19Day2] with its problems A and B. *)
Definition arena_world : Env :=
  table_env
    [("GET https://judgeapi.u-aizu.ac.jp/arenas/RitsCamp19Day2/problems",
      ok_response "https://judgeapi.u-aizu.ac.jp/arenas/RitsCamp19Day2/problems" "problems")]
    [("problems",
      JArr [JObj [("id", JStr "A"); ("problemId", JStr "3001")];
            JObj [("id", JStr "B"); ("problemId", JStr "3002")]])]
    [].

(** AOJ problem 2256 with one sample registered in the official API. *)
Definition aoj_api_world : Env :=
  table_env
    [("GET https://judgedat.u-aizu.ac.jp/testcases/samples/2256",
      ok_response "https://judgedat.u-aizu.ac.jp/testcases/samples/2256" "samples")]
    [("samples",
      JArr [JObj [("problemId", JStr "2256"); ("serial", JNum 1);
                  ("in", JStr "  1 2"); ("out", JStr "3")]])]
    [].

Definition description_page : node :=
  Tag "[document]" []
    [Tag "h3" [] [NavigableString "Sample Input"];
     NavigableString (String "010" "");
     Tag "pre" [] [NavigableString "  1 2"];
     Tag "h3" [] [NavigableString "Sample Output"];
     NavigableString (String "010" "");
     Tag "pre" [] [NavigableString "3"]].

(** AOJ problem 2256 with no sample in the official API and the samples
    in the HTML of its description. *)
Definition aoj_html_world : Env :=
  table_env
    [("GET https://judgedat.u-aizu.ac.jp/testcases/samples/2256",
      ok_response "https://judgedat.u-aizu.ac.jp/testcases/samples/2256" "samples");
     ("GET https://judgeapi.u-aizu.ac.jp/resources/descriptions/ja/2256",
      ok_response "https://judgeapi.u-aizu.ac.jp/resources/descriptions/ja/2256" "description")]
    [("samples", JArr []);
     ("description", JObj [("language", JStr "ja"); ("html", JStr "<h3>...</h3>")])]
    [("<h3>...</h3>", description_page)].

(** A heading of an Anarchy Golf page with the siblings that follow it. *)
Definition golf_heading (label : string) (following : list node) : occurrence :=
  mkOcc (Tag "h2" [] [NavigableString label]) [] following.

(** Text without its CR and LF characters: two texts that differ by
    newline normalization only have the same image. *)
Definition without_newlines (s : string) : string :=
  str_filter (fun c => negb (Ascii.eqb c "010" || Ascii.eqb c "013")) s.

(** A sibling the scan of [_parse_sample_tag] steps over: it is true and
    its [.string] is white space only. *)
Definition blank (n : node) : bool :=
  node_truthy n &&
  match node_string n with
  | Some s => strip s =? ""
  | None => false
  end.

(** The line feed as a text. *)
Definition LF : string := String "010" EmptyString.

(** What a test case of the official API carries: the [in] and [out]
    texts of its sample, encoded and otherwise untouched. *)
Definition carries (sample : json) (tc : TestCase) : Prop :=
  exists input output,
    getitem sample "in" = OK (JStr input)
    /\ getitem sample "out" = OK (JStr output)
    /\ input_data tc = encode input
    /\ output_data tc = encode output.

(** AOJ problem 2256 with one system test case, of serial 1. *)
Definition aoj_system_world : Env :=
  table_env
    [("GET https://judgedat.u-aizu.ac.jp/testcases/2256/header",
      ok_response "https://judgedat.u-aizu.ac.jp/testcases/2256/header" "header");
     ("GET https://judgedat.u-aizu.ac.jp/testcases/2256/1/in",
      ok_response "https://judgedat.u-aizu.ac.jp/testcases/2256/1/in" "1 2");
     ("GET https://judgedat.u-aizu.ac.jp/testcases/2256/1/out",
      ok_response "https://judgedat.u-aizu.ac.jp/testcases/2256/1/out" "3")]
    [("header",
      JObj [("problemId", JStr "2256");
            ("headers", JArr [JObj [("serial", JNum 1); ("name", JStr "judge_data")]])])]
    [].

(** A world without network and with two sessions: the default one,
    [false], and another, [true]. *)
Definition offline_world : Env :=
  mkEnv bool false
    (fun _ _ _ => Raise (TransportError "connection refused"))
    (fun _ => Raise ValueError)
    (fun _ => Tag "[document]" [] [])
    (fun _ => "...")
    utils_dos2unix utils_textfile utils_parse_content
    (SampleZipper.get ["input"; "入力"] ["output"; "出力"])
    (fun _ _ => OK []).

(** ** Texts used to state properties of [parse_lang_display_mapping] *)

(** One entry of the table of display names as the script writes it: the
    key, a colon, and the value in double quotes. *)
Definition render_entry (kv : string * string) : string :=
  fst kv ++ ":" ++ String dquote (snd kv ++ String dquote "").

(** The table: its entries between braces, separated by commas. *)
Definition render_mapping (entries : list (string * string)) : string :=
  "{" ++ join "," (map render_entry entries) ++ "}".

(** Keys without a double quote or a closing brace; values that have no
    comma either. *)
Definition key_char (c : ascii) : bool :=
  negb (Ascii.eqb c dquote) && negb (Ascii.eqb c "}").

Definition value_char (c : ascii) : bool := key_char c && negb (Ascii.eqb c ",").

Definition plain_entry (kv : string * string) : bool :=
  str_forallb key_char (fst kv) && str_forallb value_char (snd kv).

(** ** Worlds with two sessions *)

(** As [table_env], with two sessions: the default one, [false], and
    another, [true]. *)
Definition two_session_env (routes : list (string * Response))
  (documents : list (string * json)) (pages : list (string * node)) : Env :=
  mkEnv bool false
    (fun _ _ req =>
       match lookup (method req ++ " " ++ req_url req) routes with
       | Some resp => OK resp
       | None => Raise (TransportError "connection refused")
       end)
    (fun s => match lookup s documents with
              | Some v => OK v
              | None => Raise ValueError
              end)
    (fun s => match lookup s pages with
              | Some n => n
              | None => Tag "[document]" [] []
              end)
    (fun _ => "...")
    utils_dos2unix utils_textfile utils_parse_content
    (SampleZipper.get ["input"; "入力"] ["output"; "出力"])
    (fun _ _ => OK []).

(** A script with the table of three display names in it. *)
Definition codeshell_script : string :=
  "var a={x:1};lang_display_mapping:"
    ++ render_mapping [("c", "C"); ("cpp", "C++"); ("java8", "Java 8")] ++ ",foo:{}".

(** HackerRank with the challenge [master/fp-hello-world], whose model
    has the given [status] and lists the languages [cpp] and
    [brainfuck], and with the script of the display names. *)
Definition hackerrank_languages_world (status : json) : Env :=
  two_session_env
    [("GET https://www.hackerrank.com/rest/contests/master/challenges/fp-hello-world",
      ok_response "https://www.hackerrank.com/rest/contests/master/challenges/fp-hello-world"
        "model");
     ("GET " ++ HackerRankProblem.codeshell_url,
      ok_response HackerRankProblem.codeshell_url codeshell_script)]
    [("model",
      JObj [("status", status);
            ("model", JObj [("slug", JStr "fp-hello-world");
                            ("languages", JArr [JStr "cpp"; JStr "brainfuck"])])])]
    [].

(** The page of a Codeforces problem as a signed-in session sees it,
    with the submission form and its two languages. *)
Definition codeforces_problem_page : node :=
  Tag "[document]" []
    [Tag "html" []
       [Tag "body" []
          [Tag "form" [("class", "submitForm")]
             [Tag "select" [("name", "programTypeId")]
                [Tag "option" [("value", "54")] [NavigableString "GNU G++17 7.3.0"];
                 Tag "option" [("value", "31"); ("selected", "selected")]
                   [NavigableString "Python 3.9.1"]]]]]].

Definition codeforces_languages_world : Env :=
  table_env
    [("GET https://codeforces.com/contest/538/problem/H",
      ok_response "https://codeforces.com/contest/538/problem/H" "problem page")]
    []
    [("problem page", codeforces_problem_page)].

(** The Aizu Online Judge answering the question who is signed in with
    the given status. *)
Definition aoj_self_world (status : Z) : Env :=
  table_env
    [("GET https://judgeapi.u-aizu.ac.jp/self",
      mkResponse status "https://judgeapi.u-aizu.ac.jp/self" (encode "self") "self")]
    [] [].

(** ** Pages of Anarchy Golf *)

(** The page of a problem whose input is empty and whose output is one
    line, with the headings that carry no sample around them. *)
Definition golf_page : node :=
  Tag "[document]" []
    [Tag "h1" [] [NavigableString "hello world"];
     Tag "h2" [] [NavigableString "Sample input:"];
     NavigableString LF;
     Tag "p" [] [NavigableString "*NOTHING*"];
     Tag "h2" [] [NavigableString "Sample output:"];
     NavigableString LF;
     Tag "pre" [] [NavigableString (LF ++ "Hello, world!" ++ LF)];
     Tag "h2" [] [NavigableString "Statistics"];
     Tag "p" [] [NavigableString "12 submissions"]].

Definition golf_world : Env :=
  table_env
    [("GET http://golf.shinh.org/p.rb?hello+world",
      ok_response "http://golf.shinh.org/p.rb?hello+world" "page")]
    []
    [("page", golf_page)].

(** The same problem on a page that writes the empty input as a [p]
    with nothing in it. *)
Definition golf_empty_paragraph_page : node :=
  Tag "[document]" []
    [Tag "h2" [] [NavigableString "Sample input:"];
     NavigableString LF;
     Tag "p" [] [];
     Tag "h2" [] [NavigableString "Sample output:"];
     NavigableString LF;
     Tag "pre" [] [NavigableString (LF ++ "Hello, world!" ++ LF)]].

Definition golf_empty_paragraph_world : Env :=
  table_env
    [("GET http://golf.shinh.org/p.rb?hello+world",
      ok_response "http://golf.shinh.org/p.rb?hello+world" "page")]
    []
    [("page", golf_empty_paragraph_page)].

(** The heading of a recognized sample: the first child of the [h2] is a
    text that reads [Sample input] or [Sample output] up to its colon. *)
Definition recognized (tag : occurrence) : option string :=
  match occ_node tag with
  | Tag _ _ ((NavigableString name0 | Comment name0) :: _) =>
      if str_in_list (AnarchyGolfProblem.heading name0) AnarchyGolfProblem.sample_headings
      then Some (AnarchyGolfProblem.heading name0)
      else None
  | _ => None
  end.

(** The headings of a page that announce a sample, in page order. *)
Definition sample_h2s (h2s : list occurrence) : list occurrence :=
  filter (fun o => match recognized o with Some _ => true | None => false end) h2s.


(* ================================================================== *)
(** * Part II: theorems *)
(* ================================================================== *)

(** ** Characters *)

(** Decides a closed fact about one character by running through all 256. *)
Ltac all_chars c :=
  destruct c as [[] [] [] [] [] [] [] []]; vm_compute; try reflexivity;
  try discriminate; intuition congruence.

Lemma upper_char_fixes_upper c : is_upper c = true -> upper_char c = c.
Proof. all_chars c. Qed.

Lemma upper_char_fixes_digit c : is_digit c = true -> upper_char c = c.
Proof. all_chars c. Qed.

Lemma upper_char_is_upper c : is_lower c = true -> is_upper (upper_char c) = true.
Proof. all_chars c. Qed.

Lemma upper_char_idempotent c : upper_char (upper_char c) = upper_char c.
Proof. all_chars c. Qed.

Lemma upper_in_ascii_uppercase c :
  is_upper c = true -> has_char c ascii_uppercase = true.
Proof. all_chars c. Qed.

Lemma alpha_upper_in_ascii_uppercase c :
  is_alpha c = true -> has_char (upper_char c) ascii_uppercase = true.
Proof. all_chars c. Qed.

Lemma digit19_in_digits c :
  is_digit19 c = true -> has_char c CodeforcesProblem.digits = true.
Proof. all_chars c. Qed.

Lemma digit19_is_digit c : is_digit19 c = true -> is_digit c = true.
Proof. all_chars c. Qed.

Lemma upper_is_alpha c : is_upper c = true -> is_alpha c = true.
Proof. all_chars c. Qed.

Lemma alpha_not_zero c : is_alpha c = true -> Ascii.eqb c "0" = false.
Proof. all_chars c. Qed.

Lemma upper_alpha_not_zero c : is_alpha c = true -> Ascii.eqb (upper_char c) "0" = false.
Proof. all_chars c. Qed.

Lemma digit_not_slash c : is_digit c = true -> Ascii.eqb c "/" = false.
Proof. all_chars c. Qed.

(** ** Strings *)

Lemma append_assoc (a b c : string) : (a ++ b) ++ c = a ++ (b ++ c).
Proof. induction a as [|x a IH]; simpl; [reflexivity | now rewrite IH]. Qed.

Lemma append_empty_r (a : string) : a ++ "" = a.
Proof. induction a as [|x a IH]; simpl; [reflexivity | now rewrite IH]. Qed.

Lemma str_forallb_app p a b :
  str_forallb p (a ++ b) = str_forallb p a && str_forallb p b.
Proof.
  induction a as [|x a IH]; simpl; [reflexivity|].
  now rewrite IH, andb_assoc.
Qed.

Lemma str_forallb_impl (p q : ascii -> bool) s :
  (forall c, p c = true -> q c = true) ->
  str_forallb p s = true -> str_forallb q s = true.
Proof.
  intros Hpq. induction s as [|x s IH]; simpl; [reflexivity|].
  intros H. apply andb_true_iff in H. destruct H as [Hx Hs].
  now rewrite (Hpq _ Hx), (IH Hs).
Qed.

Lemma str_filter_all p s : str_forallb p s = true -> str_filter p s = s.
Proof.
  induction s as [|x s IH]; simpl; [reflexivity|].
  intros H. apply andb_true_iff in H. destruct H as [Hx Hs].
  now rewrite Hx, (IH Hs).
Qed.

Lemma has_char_none p c s :
  p c = false -> str_forallb p s = true -> has_char c s = false.
Proof.
  intros Hc. induction s as [|x s IH]; simpl; [reflexivity|].
  intros H. apply andb_true_iff in H. destruct H as [Hx Hs].
  rewrite (IH Hs), orb_false_r.
  destruct (Ascii.eqb_spec x c) as [->|]; [congruence | reflexivity].
Qed.

Lemma has_char_app c a b : has_char c (a ++ b) = has_char c a || has_char c b.
Proof.
  induction a as [|x a IH]; simpl; [reflexivity|].
  now rewrite IH, orb_assoc.
Qed.

Lemma partition_absent c s : has_char c s = false -> partition c s = None.
Proof.
  induction s as [|x s IH]; simpl; [reflexivity|].
  intros H. apply orb_false_iff in H. destruct H as [Hx Hs].
  now rewrite Hx, (IH Hs).
Qed.

Lemma partition_first c a b :
  has_char c a = false -> partition c (a ++ String c b) = Some (a, b).
Proof.
  induction a as [|x a IH]; simpl.
  - intros _. now rewrite Ascii.eqb_refl.
  - intros H. apply orb_false_iff in H. destruct H as [Hx Ha].
    now rewrite Hx, (IH Ha).
Qed.

Lemma span_all p a : str_forallb p a = true -> span p a = (a, "").
Proof.
  induction a as [|x a IH]; simpl; [reflexivity|].
  intros H. apply andb_true_iff in H. destruct H as [Hx Ha].
  now rewrite Hx, (IH Ha).
Qed.

Lemma span_stop p a c b :
  str_forallb p a = true -> p c = false ->
  span p (a ++ String c b) = (a, String c b).
Proof.
  intros Ha Hc. induction a as [|x a IH]; simpl.
  - now rewrite Hc.
  - simpl in Ha. apply andb_true_iff in Ha. destruct Ha as [Hx Ha].
    now rewrite Hx, (IH Ha).
Qed.

Lemma strip_prefix_app p s : strip_prefix p (p ++ s) = Some s.
Proof.
  induction p as [|x p IH]; simpl; [reflexivity|].
  now rewrite Ascii.eqb_refl.
Qed.

Lemma re_plus_stop cls a c b :
  a <> "" -> str_forallb cls a = true -> cls c = false ->
  re_plus cls (a ++ String c b) = Some (a, String c b).
Proof.
  intros Hne Ha Hc. unfold re_plus. rewrite (span_stop _ _ _ _ Ha Hc).
  destruct a; [congruence | reflexivity].
Qed.

Lemma re_plus_all cls a :
  a <> "" -> str_forallb cls a = true -> re_plus cls a = Some (a, "").
Proof.
  intros Hne Ha. unfold re_plus. rewrite (span_all _ _ Ha).
  destruct a; [congruence | reflexivity].
Qed.

Lemma str_map_fixes (f : ascii -> ascii) p s :
  (forall c, p c = true -> f c = c) ->
  str_forallb p s = true -> str_map f s = s.
Proof.
  intros Hf. induction s as [|x s IH]; simpl; [reflexivity|].
  intros H. apply andb_true_iff in H. destruct H as [Hx Hs].
  now rewrite (Hf _ Hx), (IH Hs).
Qed.

(** ** Decimal text of an integer *)

Lemma string_of_uint_digits d :
  str_forallb is_digit (NilEmpty.string_of_uint d) = true.
Proof. induction d; simpl; auto. Qed.

Lemma string_of_uint_nonempty d : d <> Nil -> NilEmpty.string_of_uint d <> "".
Proof. destruct d; simpl; congruence. Qed.

Lemma to_int_nonneg z :
  (0 <= z)%Z -> exists d, d <> Nil /\ Z.to_int z = Pos d /\ Z.of_uint d = z.
Proof.
  intros Hz. destruct z as [|p|p]; [| |lia].
  - exists (D0 Nil). repeat split; congruence.
  - exists (Pos.to_uint p). repeat split.
    + apply DecimalPos.Unsigned.to_uint_nonnil.
    + unfold Z.of_uint. now rewrite DecimalPos.Unsigned.of_to.
Qed.

Lemma str_of_int_shape z :
  (0 <= z)%Z ->
  str_of_int z <> "" /\ str_forallb is_digit (str_of_int z) = true
  /\ int_of_str (str_of_int z) = OK z.
Proof.
  intros Hz. destruct (to_int_nonneg z Hz) as (d & Hd & Hto & Hof).
  unfold str_of_int. rewrite Hto. simpl.
  assert (E : NilZero.string_of_uint d = NilEmpty.string_of_uint d)
    by (destruct d; [congruence | reflexivity ..]).
  rewrite E.
  pose proof (string_of_uint_nonempty d Hd) as Hne.
  pose proof (string_of_uint_digits d) as Hdig.
  repeat split; auto.
  unfold int_of_str. rewrite Hdig, NilEmpty.usu, Hof.
  destruct (NilEmpty.string_of_uint d); [congruence | reflexivity].
Qed.

(** ** [urlparse] on URLs of the shape [scheme://host/path?query#fragment] *)

Lemma path_char_is_url_char c : path_char c = true -> url_char c = true.
Proof. all_chars c. Qed.

Lemma host_char_is_url_char c : host_char c = true -> url_char c = true.
Proof. all_chars c. Qed.

Lemma query_char_is_url_char c : query_char c = true -> url_char c = true.
Proof. all_chars c. Qed.

Lemma digit_is_path_char c : is_digit c = true -> path_char c = true.
Proof. all_chars c. Qed.

Lemma alnum_is_path_char c : is_alnum c = true -> path_char c = true.
Proof. all_chars c. Qed.

Lemma word_is_path_char c : is_word c = true -> path_char c = true.
Proof. all_chars c. Qed.

Lemma word_is_query_char c : is_word c = true -> query_char c = true.
Proof. all_chars c. Qed.

Lemma slug_is_path_char c : HackerRankProblem.slug_char c = true -> path_char c = true.
Proof. all_chars c. Qed.

Lemma lstrip_by_keeps p c s : p c = false -> lstrip_by p (String c s) = String c s.
Proof. intros H. simpl. now rewrite H. Qed.

Lemma split_scheme_found sch r :
  match sch with String c0 _ => is_alpha c0 | EmptyString => false end = true ->
  str_forallb scheme_char sch = true ->
  split_scheme (sch ++ String ":" r) = (lower sch, r).
Proof.
  destruct sch as [|c0 s]; [discriminate|]. intros Ha Hs.
  unfold split_scheme. cbn [append]. rewrite Ha.
  change (String c0 (s ++ String ":" r)) with (String c0 s ++ String ":" r).
  rewrite (partition_first ":" _ _ (has_char_none scheme_char ":" _ eq_refl Hs)).
  now rewrite Hs.
Qed.

Lemma urlsplit_after_scheme sch rest :
  sch = "http" \/ sch = "https" ->
  str_forallb url_char rest = true ->
  urlsplit (sch ++ "://" ++ rest) =
    let (loc, url) := span (fun c => negb (netloc_delim c)) rest in
    if xorb (has_char "[" loc) (has_char "]" loc) then Raise ValueError
    else
      let (url, frag) := split_once "#" url in
      let (url, qry) := split_once "?" url in
      OK (sch, loc, url, qry, frag).
Proof.
  intros Hsch Hrest. unfold urlsplit.
  assert (H1 : lstrip_by is_c0_or_space (sch ++ "://" ++ rest) = sch ++ "://" ++ rest)
    by (destruct Hsch; subst sch; apply lstrip_by_keeps; reflexivity).
  assert (H2 : remove_unsafe (sch ++ "://" ++ rest) = sch ++ "://" ++ rest).
  { apply str_filter_all. fold url_char. rewrite !str_forallb_app, Hrest.
    destruct Hsch; subst sch; reflexivity. }
  assert (H3 : split_scheme (sch ++ "://" ++ rest) = (sch, "//" ++ rest)).
  { change (sch ++ "://" ++ rest) with (sch ++ String ":" ("//" ++ rest)).
    rewrite split_scheme_found; destruct Hsch; subst sch; reflexivity. }
  rewrite H1, H2, H3. unfold split_netloc.
  rewrite (strip_prefix_app "//" rest). reflexivity.
Qed.

Lemma host_span host p' tl :
  str_forallb host_char host = true ->
  span (fun c => negb (netloc_delim c)) (host ++ String "/" p' ++ tl)
  = (host, String "/" p' ++ tl).
Proof.
  intros Hh. cbn [append]. apply span_stop; [|reflexivity].
  revert Hh. apply str_forallb_impl. intros c. all_chars c.
Qed.

Lemma host_no_bracket host :
  str_forallb host_char host = true ->
  xorb (has_char "[" host) (has_char "]" host) = false.
Proof.
  intros Hh.
  rewrite (has_char_none host_char "[" host eq_refl Hh).
  now rewrite (has_char_none host_char "]" host eq_refl Hh).
Qed.

(** A URL with a path only. *)
Lemma urlparse_path sch host p' :
  sch = "http" \/ sch = "https" ->
  str_forallb host_char host = true ->
  str_forallb path_char p' = true ->
  urlparse (sch ++ "://" ++ host ++ String "/" p')
  = OK (mkParse sch host (String "/" p') "" "" "").
Proof.
  intros Hsch Hh Hp.
  assert (Hp1 : str_forallb path_char (String "/" p') = true) by (simpl; now rewrite Hp).
  unfold urlparse. rewrite (urlsplit_after_scheme sch _ Hsch).
  2:{ rewrite str_forallb_app.
      rewrite (str_forallb_impl _ _ _ host_char_is_url_char Hh).
      now rewrite (str_forallb_impl _ _ _ path_char_is_url_char Hp1). }
  rewrite <- (append_empty_r (String "/" p')) at 1.
  rewrite (host_span host p' "" Hh), (host_no_bracket host Hh).
  rewrite append_empty_r.
  unfold split_once.
  rewrite (partition_absent "#" _ (has_char_none path_char "#" _ eq_refl Hp1)).
  rewrite (partition_absent "?" _ (has_char_none path_char "?" _ eq_refl Hp1)).
  rewrite (has_char_none path_char ";" _ eq_refl Hp1), andb_false_r.
  destruct Hsch; subst sch; reflexivity.
Qed.

(** A URL with a path and a query. *)
Lemma urlparse_path_query sch host p' q :
  sch = "http" \/ sch = "https" ->
  str_forallb host_char host = true ->
  str_forallb path_char p' = true ->
  str_forallb query_char q = true ->
  urlparse (sch ++ "://" ++ host ++ String "/" p' ++ String "?" q)
  = OK (mkParse sch host (String "/" p') "" q "").
Proof.
  intros Hsch Hh Hp Hq.
  assert (Hp1 : str_forallb path_char (String "/" p') = true) by (simpl; now rewrite Hp).
  unfold urlparse. rewrite (urlsplit_after_scheme sch _ Hsch).
  2:{ rewrite !str_forallb_app.
      rewrite (str_forallb_impl _ _ _ host_char_is_url_char Hh).
      rewrite (str_forallb_impl _ _ _ path_char_is_url_char Hp1).
      simpl. now rewrite (str_forallb_impl _ _ _ query_char_is_url_char Hq). }
  rewrite (host_span host p' _ Hh), (host_no_bracket host Hh).
  unfold split_once.
  rewrite (partition_absent "#").
  2:{ rewrite has_char_app, (has_char_none path_char "#" _ eq_refl Hp1). simpl.
      apply (has_char_none query_char "#" _ eq_refl Hq). }
  rewrite (partition_first "?" _ _ (has_char_none path_char "?" _ eq_refl Hp1)).
  rewrite (has_char_none path_char ";" _ eq_refl Hp1), andb_false_r.
  destruct Hsch; subst sch; reflexivity.
Qed.

(** A URL with a path and a fragment. *)
Lemma urlparse_path_fragment sch host p' f :
  sch = "http" \/ sch = "https" ->
  str_forallb host_char host = true ->
  str_forallb path_char p' = true ->
  str_forallb url_char f = true ->
  urlparse (sch ++ "://" ++ host ++ String "/" p' ++ String "#" f)
  = OK (mkParse sch host (String "/" p') "" "" f).
Proof.
  intros Hsch Hh Hp Hf.
  assert (Hp1 : str_forallb path_char (String "/" p') = true) by (simpl; now rewrite Hp).
  unfold urlparse. rewrite (urlsplit_after_scheme sch _ Hsch).
  2:{ rewrite !str_forallb_app.
      rewrite (str_forallb_impl _ _ _ host_char_is_url_char Hh).
      rewrite (str_forallb_impl _ _ _ path_char_is_url_char Hp1).
      simpl. now rewrite Hf. }
  rewrite (host_span host p' _ Hh), (host_no_bracket host Hh).
  unfold split_once.
  rewrite (partition_first "#" _ _ (has_char_none path_char "#" _ eq_refl Hp1)).
  rewrite (partition_absent "?" _ (has_char_none path_char "?" _ eq_refl Hp1)).
  rewrite (has_char_none path_char ";" _ eq_refl Hp1), andb_false_r.
  destruct Hsch; subst sch; reflexivity.
Qed.

(** ** Round trips through the canonical URL *)

Lemma str_in_list_In s l : str_in_list s l = true -> In s l.
Proof.
  unfold str_in_list. intros H. apply existsb_exists in H.
  destruct H as (x & Hx & E). apply String.eqb_eq in E. now subst.
Qed.

Lemma eqb_empty_false s : negb (s =? "") = true -> s <> "".
Proof. destruct s; [discriminate | congruence]. Qed.

Section RoundTrips.

Variable normpath : string -> string.

Lemma anarchygolf_problem_roundtrip (p : AnarchyGolfProblem.t) :
  AnarchyGolfProblem.canonical p = true ->
  normpath (url_path (AnarchyGolfProblem.get_url p)) = url_path (AnarchyGolfProblem.get_url p) ->
  AnarchyGolfProblem.from_url normpath (AnarchyGolfProblem.get_url p) = OK (Some p).
Proof.
  destruct p as [id]. unfold AnarchyGolfProblem.canonical, AnarchyGolfProblem.get_url.
  cbn [AnarchyGolfProblem.problem_id]. intros Hc Hnp.
  apply andb_true_iff in Hc. destruct Hc as [Hne Hq].
  assert (Hparse : urlparse ("http://golf.shinh.org/p.rb?" ++ id)
                   = OK (mkParse "http" "golf.shinh.org" "/p.rb" "" id "")).
  { apply (urlparse_path_query "http" "golf.shinh.org" "p.rb" id); auto. }
  unfold url_path in Hnp. rewrite Hparse in Hnp. cbn [path] in Hnp.
  unfold AnarchyGolfProblem.from_url. rewrite Hparse.
  cbn [bind scheme netloc path query]. rewrite Hnp, Hne. reflexivity.
Qed.


Lemma hackerrank_problem_roundtrip (p : HackerRankProblem.t) :
  HackerRankProblem.canonical p = true ->
  normpath (url_path (HackerRankProblem.get_url p)) = url_path (HackerRankProblem.get_url p) ->
  HackerRankProblem.from_url normpath (HackerRankProblem.get_url p) = OK (Some p).
Proof.
  destruct p as [cs ch]. unfold HackerRankProblem.canonical, HackerRankProblem.slug.
  cbn [HackerRankProblem.contest_slug HackerRankProblem.challenge_slug].
  intros Hc Hnp. apply andb_true_iff in Hc. destruct Hc as [Hcs Hch].
  apply andb_true_iff in Hcs. destruct Hcs as [Hcs0 Hcs].
  apply andb_true_iff in Hch. destruct Hch as [Hch0 Hch].
  apply eqb_empty_false in Hcs0. apply eqb_empty_false in Hch0.
  pose proof (str_forallb_impl _ _ _ slug_is_path_char Hcs) as Pcs.
  pose proof (str_forallb_impl _ _ _ slug_is_path_char Hch) as Pch.
  revert Hnp. unfold HackerRankProblem.get_url, HackerRankProblem.from_url, url_path.
  cbn [HackerRankProblem.contest_slug HackerRankProblem.challenge_slug].
  destruct (String.eqb_spec cs "master") as [->|Hm].
  - assert (Hparse : urlparse ("https://www.hackerrank.com/challenges/" ++ ch)
                     = OK (mkParse "https" "www.hackerrank.com" ("/challenges/" ++ ch) "" "" "")).
    { apply (urlparse_path "https" "www.hackerrank.com" ("challenges/" ++ ch)); auto. }
    rewrite Hparse. cbn [bind scheme netloc path]. intros ->.
    change (scheme_accepted _ && str_in_list _ hackerrank_hosts) with true.
    cbv iota.
    change (HackerRankProblem.re_contest_challenge ("/challenges/" ++ ch)) with (@None (string * string)).
    unfold HackerRankProblem.re_challenge.
    rewrite strip_prefix_app. cbv beta iota delta [obind].
    rewrite (re_plus_all _ _ Hch0 Hch). reflexivity.
  - assert (Hparse : urlparse ("https://www.hackerrank.com/contests/" ++ cs ++ "/challenges/" ++ ch)
                     = OK (mkParse "https" "www.hackerrank.com"
                             ("/contests/" ++ cs ++ "/challenges/" ++ ch) "" "" "")).
    { apply (urlparse_path "https" "www.hackerrank.com" ("contests/" ++ cs ++ "/challenges/" ++ ch)); auto.
      now rewrite !str_forallb_app, Pcs, Pch. }
    rewrite Hparse. cbn [bind scheme netloc path]. intros ->.
    change (scheme_accepted _ && str_in_list _ hackerrank_hosts) with true.
    cbv iota.
    unfold HackerRankProblem.re_contest_challenge.
    rewrite strip_prefix_app. cbv beta iota delta [obind].
    change (cs ++ "/challenges/" ++ ch) with (cs ++ String "/" ("challenges/" ++ ch)).
    rewrite (re_plus_stop _ cs "/" _ Hcs0 Hcs eq_refl).
    change (String "/" ("challenges/" ++ ch)) with ("/challenges/" ++ ch).
    rewrite strip_prefix_app. cbv beta iota delta [obind].
    rewrite (re_plus_all _ _ Hch0 Hch). reflexivity.
Qed.

Lemma split_on_absent c s : has_char c s = false -> split_on c s = [s].
Proof.
  induction s as [|x s IH]; simpl; [reflexivity|].
  intros H. apply orb_false_iff in H. destruct H as [Hx Hs].
  now rewrite Hx, (IH Hs).
Qed.

Lemma split_on_first c a b :
  has_char c a = false -> split_on c (a ++ String c b) = a :: split_on c b.
Proof.
  induction a as [|x a IH]; simpl.
  - intros _. now rewrite Ascii.eqb_refl.
  - intros H. apply orb_false_iff in H. destruct H as [Hx Ha].
    now rewrite Hx, (IH Ha).
Qed.

Lemma startswith_chars sub s :
  startswith sub s = true -> str_forallb (fun c => has_char c s) sub = true.
Proof.
  revert s. induction sub as [|x sub IH]; intros s; simpl; [reflexivity|].
  destruct s as [|y s]; [discriminate|].
  intros H. apply andb_true_iff in H. destruct H as [Hxy Hs].
  apply Ascii.eqb_eq in Hxy. subst y. simpl. rewrite Ascii.eqb_refl. simpl.
  apply IH in Hs. revert Hs. apply str_forallb_impl.
  intros c Hc. simpl. now rewrite Hc, orb_true_r.
Qed.

Lemma contains_chars sub s :
  contains sub s = true -> str_forallb (fun c => has_char c s) sub = true.
Proof.
  induction s as [|y s IH].
  - simpl. rewrite orb_false_r. apply startswith_chars.
  - cbn [contains]. intros H. apply orb_true_iff in H. destruct H as [H|H].
    + now apply startswith_chars.
    + apply IH in H. revert H. apply str_forallb_impl.
      intros c Hc. simpl. now rewrite Hc, orb_true_r.
Qed.

Lemma in_ascii_uppercase_is_upper c :
  has_char c ascii_uppercase = true -> is_upper c = true.
Proof. all_chars c. Qed.

Lemma uppercase_substring a :
  contains a ascii_uppercase = true -> str_forallb is_upper a = true.
Proof.
  intros H. apply contains_chars in H. revert H.
  apply str_forallb_impl, in_ascii_uppercase_is_upper.
Qed.

Lemma parse_qs_get_id pid :
  pid <> "" -> str_forallb is_word pid = true ->
  parse_qs_get ("id=" ++ pid) "id" = [pid].
Proof.
  intros Hne Hw. unfold parse_qs_get, parse_qsl.
  assert (Hamp : has_char "&" ("id=" ++ pid) = false).
  { rewrite has_char_app. apply (has_char_none is_word "&" _ eq_refl Hw). }
  rewrite (split_on_absent _ _ Hamp). cbn [parse_qsl_fields].
  change ("id=" ++ pid) with ("id" ++ String "=" pid).
  rewrite (partition_first "=" "id" pid eq_refl).
  assert (Hu : unquote (plus_to_space pid) = pid).
  { unfold plus_to_space.
    rewrite (str_map_fixes _ is_word pid); [|intros c; all_chars c|exact Hw].
    unfold unquote. now rewrite (has_char_none is_word "%" _ eq_refl Hw). }
  rewrite Hu. destruct pid; [congruence|]. reflexivity.
Qed.

Lemma aoj_problem_roundtrip (p : AOJProblem.t) :
  AOJProblem.canonical p = true ->
  normpath (url_path (AOJProblem.get_url p)) = url_path (AOJProblem.get_url p) ->
  AOJProblem.from_url normpath (AOJProblem.get_url p) = OK (Some p).
Proof.
  destruct p as [pid]. unfold AOJProblem.canonical, AOJProblem.get_url.
  cbn [AOJProblem.problem_id]. intros Hc Hnp.
  apply andb_true_iff in Hc. destruct Hc as [Hne Hw].
  apply eqb_empty_false in Hne.
  assert (Hparse : urlparse ("http://judge.u-aizu.ac.jp/onlinejudge/description.jsp?id=" ++ pid)
                   = OK (mkParse "http" "judge.u-aizu.ac.jp" "/onlinejudge/description.jsp"
                           "" ("id=" ++ pid) "")).
  { apply (urlparse_path_query "http" "judge.u-aizu.ac.jp" "onlinejudge/description.jsp"
             ("id=" ++ pid)); auto.
    rewrite str_forallb_app. simpl.
    apply (str_forallb_impl _ _ _ word_is_query_char Hw). }
  unfold url_path in Hnp. rewrite Hparse in Hnp. cbn [path] in Hnp.
  unfold AOJProblem.from_url. rewrite Hparse.
  cbn [bind scheme netloc path query]. rewrite Hnp, (parse_qs_get_id pid Hne Hw).
  reflexivity.
Qed.

Lemma re_for_index_accepts i :
  CodeforcesProblem.url_index i = true -> CodeforcesProblem.re_for_index i = Some i.
Proof.
  destruct i as [|c [|d [|e r]]]; cbn [CodeforcesProblem.url_index]; try discriminate.
  - intros H. cbn [CodeforcesProblem.re_for_index].
    destruct (Ascii.eqb c "0"); [reflexivity|]. cbn [orb andb] in *. now rewrite H.
  - intros H. apply andb_true_iff in H. destruct H as [Hc Hd].
    cbn [CodeforcesProblem.re_for_index].
    rewrite (alpha_not_zero c Hc), Hc, Hd. reflexivity.
Qed.

Lemma canonical_index_is_url_index i :
  CodeforcesProblem.canonical_index i = true -> CodeforcesProblem.url_index i = true.
Proof.
  destruct i as [|c [|d [|e r]]]; cbn; try discriminate.
  - intros H. now rewrite (upper_is_alpha c H), orb_true_r.
  - intros H. apply andb_true_iff in H. destruct H as [Hc Hd].
    now rewrite (upper_is_alpha c Hc), Hd.
Qed.

Lemma normalize_canonical_index i :
  CodeforcesProblem.canonical_index i = true -> CodeforcesProblem.normalize_index i = i.
Proof.
  unfold CodeforcesProblem.normalize_index.
  destruct i as [|c [|d [|e r]]]; cbn [CodeforcesProblem.canonical_index]; try discriminate.
  - intros H. cbn. rewrite (alpha_not_zero c (upper_is_alpha c H)).
    now rewrite (upper_char_fixes_upper c H).
  - intros H. apply andb_true_iff in H. destruct H as [Hc Hd]. cbn.
    rewrite (alpha_not_zero c (upper_is_alpha c Hc)). cbn.
    rewrite (upper_char_fixes_upper c Hc).
    now rewrite (upper_char_fixes_digit d (digit19_is_digit d Hd)).
Qed.

Lemma url_index_path_chars i :
  CodeforcesProblem.url_index i = true -> str_forallb path_char i = true.
Proof.
  destruct i as [|c [|d [|e r]]]; cbn [CodeforcesProblem.url_index]; try discriminate.
  - all_chars c.
  - intros H. apply andb_true_iff in H. destruct H as [Hc Hd]. cbn.
    rewrite (alnum_is_path_char c), (digit_is_path_char d (digit19_is_digit d Hd)); auto.
    unfold is_alnum. now rewrite Hc.
Qed.

(** The constructor accepts every index [from_url] builds. *)
Lemma cls_normalized_index n i kind co le st :
  CodeforcesProblem.url_index i = true ->
  str_in_list kind ["contest"; "gym"; "problemset"; "edu"] = true ->
  CodeforcesProblem.cls n (CodeforcesProblem.normalize_index i) (Some kind) co le st
  = OK (CodeforcesProblem.mk n (CodeforcesProblem.normalize_index i) kind co le st).
Proof.
  intros Hi Hk. unfold CodeforcesProblem.cls, CodeforcesProblem.normalize_index.
  cbn [kind_in infer_kind]. rewrite Hk.
  destruct i as [|c [|d [|e r]]]; cbn [CodeforcesProblem.url_index] in Hi; try discriminate.
  - destruct (Ascii.eqb_spec c "0") as [->|Hc0]; [reflexivity|].
    assert (Hc : is_alpha c = true).
    { destruct (Ascii.eqb c "0") eqn:E; [apply Ascii.eqb_eq in E; congruence | exact Hi]. }
    replace (String c "" =? "") with false by reflexivity.
    replace (String c "" =? "0") with false.
    2:{ symmetry. apply String.eqb_neq. congruence. }
    cbn -[has_char ascii_uppercase CodeforcesProblem.digits].
    now rewrite (alpha_upper_in_ascii_uppercase c Hc).
  - apply andb_true_iff in Hi. destruct Hi as [Hc Hd].
    replace (String c (String d "") =? "0") with false.
    2:{ symmetry. apply String.eqb_neq. congruence. }
    cbn -[has_char ascii_uppercase CodeforcesProblem.digits].
    rewrite (alpha_upper_in_ascii_uppercase c Hc).
    rewrite (upper_char_fixes_digit d (digit19_is_digit d Hd)).
    now rewrite (digit19_in_digits d Hd).
Qed.

Lemma re_contest_problem_accepts kind n i :
  n <> "" -> str_forallb is_digit n = true -> CodeforcesProblem.url_index i = true ->
  CodeforcesProblem.re_contest_problem kind ("/" ++ kind ++ "/" ++ n ++ "/problem/" ++ i)
  = Some (CodeforcesProblem.mkGroups n i None None None).
Proof.
  intros Hn Hd Hi. unfold CodeforcesProblem.re_contest_problem.
  replace ("/" ++ kind ++ "/" ++ n ++ "/problem/" ++ i)
    with (("/" ++ kind ++ "/") ++ n ++ "/problem/" ++ i).
  2:{ cbn [append]. now rewrite append_assoc. }
  rewrite strip_prefix_app. cbv beta iota delta [obind].
  change (n ++ "/problem/" ++ i) with (n ++ String "/" ("problem/" ++ i)).
  rewrite (re_plus_stop _ n "/" _ Hn Hd eq_refl).
  change (String "/" ("problem/" ++ i)) with ("/problem/" ++ i).
  rewrite strip_prefix_app, (re_for_index_accepts i Hi). reflexivity.
Qed.

Lemma re_problemset_accepts n i :
  n <> "" -> str_forallb is_digit n = true -> CodeforcesProblem.url_index i = true ->
  CodeforcesProblem.re_problemset ("/problemset/problem/" ++ n ++ "/" ++ i)
  = Some (CodeforcesProblem.mkGroups n i None None None).
Proof.
  intros Hn Hd Hi. unfold CodeforcesProblem.re_problemset.
  rewrite strip_prefix_app. cbv beta iota delta [obind].
  change (n ++ "/" ++ i) with (n ++ String "/" i).
  rewrite (re_plus_stop _ n "/" _ Hn Hd eq_refl).
  change (String "/" i) with ("/" ++ i).
  rewrite strip_prefix_app, (re_for_index_accepts i Hi). reflexivity.
Qed.

Lemma codeforces_host host :
  In host _CODEFORCES_DOMAINS ->
  str_forallb host_char host = true /\ str_in_list host _CODEFORCES_DOMAINS = true.
Proof.
  intros H. cbn in H. intuition (subst; split; reflexivity).
Qed.

(** [from_url] on a problem URL of kind [contest], [gym] or [problemset]:
    the index of the handle is the normalized index text. *)
Lemma codeforces_from_url_of_index sch host kind n i :
  sch = "http" \/ sch = "https" ->
  In host _CODEFORCES_DOMAINS ->
  In kind ["contest"; "problemset"; "gym"] ->
  n <> "" -> str_forallb is_digit n = true ->
  CodeforcesProblem.url_index i = true ->
  normpath (url_path (codeforces_problem_url sch host kind n i))
  = url_path (codeforces_problem_url sch host kind n i) ->
  CodeforcesProblem.from_url normpath (codeforces_problem_url sch host kind n i)
  = (z <- int_of_str n ;;
     OK (Some (CodeforcesProblem.mk z (CodeforcesProblem.normalize_index i) kind
                 None None None)))%result.
Proof.
  intros Hsch Hhost Hkind Hn Hd Hi.
  destruct (codeforces_host host Hhost) as [Hh Hin].
  pose proof (str_forallb_impl _ _ _ digit_is_path_char Hd) as Pn.
  pose proof (url_index_path_chars i Hi) as Pi.
  assert (Hsa : forall p, scheme_accepted (mkParse sch host p "" "" "") = true)
    by (intros p; destruct Hsch; subst sch; reflexivity).
  unfold CodeforcesProblem.from_url, url_path.
  cbn in Hkind. destruct Hkind as [<-|[<-|[<-|[]]]].
  - change (codeforces_problem_url sch host "contest" n i)
      with (sch ++ "://" ++ host ++ String "/" ("contest/" ++ n ++ "/problem/" ++ i)).
    rewrite (urlparse_path sch host ("contest/" ++ n ++ "/problem/" ++ i) Hsch Hh).
    2:{ now rewrite !str_forallb_app, Pn, Pi. }
    cbn [bind scheme netloc path]. intros ->. rewrite Hsa, Hin. cbv iota.
    unfold CodeforcesProblem.table. cbn [first_match andb].
    change (String "/" ("contest/" ++ n ++ "/problem/" ++ i))
      with ("/" ++ "contest" ++ "/" ++ n ++ "/problem/" ++ i).
    rewrite (re_contest_problem_accepts "contest" n i Hn Hd Hi).
    unfold CodeforcesProblem.of_match. cbn [CodeforcesProblem.g_contest CodeforcesProblem.g_index].
    change ("contest" =? "edu") with false. cbv iota.
    destruct (int_of_str n); [|reflexivity]. cbn [bind].
    rewrite cls_normalized_index; auto.
  - change (codeforces_problem_url sch host "problemset" n i)
      with (sch ++ "://" ++ host ++ String "/" ("problemset/problem/" ++ n ++ "/" ++ i)).
    rewrite (urlparse_path sch host ("problemset/problem/" ++ n ++ "/" ++ i) Hsch Hh).
    2:{ now rewrite !str_forallb_app, Pn, Pi. }
    cbn [bind scheme netloc path]. intros ->. rewrite Hsa, Hin. cbv iota.
    unfold CodeforcesProblem.table. cbn [first_match andb].
    change (CodeforcesProblem.re_contest_problem "contest"
              (String "/" ("problemset/problem/" ++ n ++ "/" ++ i)))
      with (@None CodeforcesProblem.groups).
    change (String "/" ("problemset/problem/" ++ n ++ "/" ++ i))
      with ("/problemset/problem/" ++ n ++ "/" ++ i).
    rewrite (re_problemset_accepts n i Hn Hd Hi).
    unfold CodeforcesProblem.of_match. cbn [CodeforcesProblem.g_contest CodeforcesProblem.g_index].
    change ("problemset" =? "edu") with false. cbv iota.
    destruct (int_of_str n); [|reflexivity]. cbn [bind].
    rewrite cls_normalized_index; auto.
  - change (codeforces_problem_url sch host "gym" n i)
      with (sch ++ "://" ++ host ++ String "/" ("gym/" ++ n ++ "/problem/" ++ i)).
    rewrite (urlparse_path sch host ("gym/" ++ n ++ "/problem/" ++ i) Hsch Hh).
    2:{ now rewrite !str_forallb_app, Pn, Pi. }
    cbn [bind scheme netloc path]. intros ->. rewrite Hsa, Hin. cbv iota.
    unfold CodeforcesProblem.table. cbn [first_match andb].
    change (CodeforcesProblem.re_contest_problem "contest"
              (String "/" ("gym/" ++ n ++ "/problem/" ++ i)))
      with (@None CodeforcesProblem.groups).
    change (CodeforcesProblem.re_problemset
              (String "/" ("gym/" ++ n ++ "/problem/" ++ i)))
      with (@None CodeforcesProblem.groups).
    change (String "/" ("gym/" ++ n ++ "/problem/" ++ i))
      with ("/" ++ "gym" ++ "/" ++ n ++ "/problem/" ++ i).
    rewrite (re_contest_problem_accepts "gym" n i Hn Hd Hi).
    unfold CodeforcesProblem.of_match. cbn [CodeforcesProblem.g_contest CodeforcesProblem.g_index].
    change ("gym" =? "edu") with false. cbv iota.
    destruct (int_of_str n); [|reflexivity]. cbn [bind].
    rewrite cls_normalized_index; auto.
Qed.

Lemma uint_of_digits s :
  str_forallb is_digit s = true -> exists d, NilEmpty.uint_of_string s = Some d.
Proof.
  induction s as [|c s IH]; simpl; [now exists Nil|].
  intros H. apply andb_true_iff in H. destruct H as [Hc Hs].
  destruct (IH Hs) as [d ->]. revert Hc.
  destruct c as [[] [] [] [] [] [] [] []]; vm_compute; try discriminate;
    intros _; eexists; reflexivity.
Qed.

Lemma int_of_str_digits s :
  s <> "" -> str_forallb is_digit s = true -> exists z, int_of_str s = OK z.
Proof.
  intros Hne Hd. destruct (uint_of_digits s Hd) as [d Hu].
  exists (Z.of_uint d). unfold int_of_str. rewrite Hd, Hu.
  destruct s; [congruence | reflexivity].
Qed.

Lemma re_edu_accepts co le st n i :
  str_forallb is_digit co = true -> str_forallb is_digit le = true ->
  str_forallb is_digit st = true -> str_forallb is_digit n = true ->
  CodeforcesProblem.url_index i = true ->
  CodeforcesProblem.re_edu
    ("/edu/course/" ++ co ++ "/lesson/" ++ le ++ "/" ++ st
       ++ "/practice/contest/" ++ n ++ "/problem/" ++ i)
  = Some (CodeforcesProblem.mkGroups n i (Some co) (Some le) (Some st)).
Proof.
  intros Hco Hle Hst Hn Hi. unfold CodeforcesProblem.re_edu, re_star.
  rewrite strip_prefix_app. cbv beta iota delta [obind].
  change (co ++ "/lesson/" ++ ?x) with (co ++ String "/" ("lesson/" ++ x)).
  rewrite (span_stop _ co "/" _ Hco eq_refl).
  change (String "/" ("lesson/" ++ ?x)) with ("/lesson/" ++ x).
  rewrite strip_prefix_app. cbv beta iota delta [obind].
  change (le ++ "/" ++ ?x) with (le ++ String "/" x).
  rewrite (span_stop _ le "/" _ Hle eq_refl).
  change (String "/" (st ++ ?x)) with ("/" ++ st ++ x).
  rewrite strip_prefix_app. cbv beta iota delta [obind].
  change (st ++ "/practice/contest/" ++ ?x) with (st ++ String "/" ("practice/contest/" ++ x)).
  rewrite (span_stop _ st "/" _ Hst eq_refl).
  change (String "/" ("practice/contest/" ++ ?x)) with ("/practice/contest/" ++ x).
  rewrite strip_prefix_app. cbv beta iota delta [obind].
  change (n ++ "/problem/" ++ i) with (n ++ String "/" ("problem/" ++ i)).
  rewrite (span_stop _ n "/" _ Hn eq_refl).
  change (String "/" ("problem/" ++ i)) with ("/problem/" ++ i).
  rewrite strip_prefix_app. cbv beta iota delta [obind].
  now rewrite (re_for_index_accepts i Hi).
Qed.

Lemma codeforces_problem_roundtrip (p : CodeforcesProblem.t) :
  CodeforcesProblem.canonical p = true ->
  (forall u, CodeforcesProblem.get_url p = OK u -> normpath (url_path u) = url_path u) ->
  (u <- CodeforcesProblem.get_url p ;; CodeforcesProblem.from_url normpath u)%result
  = OK (Some p).
Proof.
  destruct p as [cid idx kind co le st]. unfold CodeforcesProblem.canonical.
  cbn [CodeforcesProblem.contest_id CodeforcesProblem.index CodeforcesProblem.kind
       CodeforcesProblem.course CodeforcesProblem.lesson CodeforcesProblem.step].
  intros Hc Hnp. apply andb_true_iff in Hc. destruct Hc as [Hc Hk].
  apply andb_true_iff in Hc. destruct Hc as [Hcid Hidx].
  apply Z.leb_le in Hcid.
  destruct (str_of_int_shape cid Hcid) as (Hn0 & Hnd & Hni).
  pose proof (canonical_index_is_url_index idx Hidx) as Hui.
  pose proof (normalize_canonical_index idx Hidx) as Hnorm.
  destruct (String.eqb_spec kind "edu") as [->|Hedu].
  - apply andb_true_iff in Hk. destruct Hk as [Hk Hst].
    apply andb_true_iff in Hk. destruct Hk as [Hco Hle].
    destruct co as [co|]; [|discriminate]. destruct le as [le|]; [|discriminate].
    destruct st as [st|]; [|discriminate]. cbn [CodeforcesProblem.nonneg] in *.
    apply Z.leb_le in Hco, Hle, Hst.
    destruct (str_of_int_shape co Hco) as (_ & Hcod & Hcoi).
    destruct (str_of_int_shape le Hle) as (_ & Hled & Hlei).
    destruct (str_of_int_shape st Hst) as (_ & Hstd & Hsti).
    set (pth := "edu/course/" ++ str_of_int co ++ "/lesson/" ++ str_of_int le ++ "/"
                  ++ str_of_int st ++ "/practice/contest/" ++ str_of_int cid
                  ++ "/problem/" ++ idx).
    assert (Hget : CodeforcesProblem.get_url
                     (CodeforcesProblem.mk cid idx "edu" (Some co) (Some le) (Some st))
                   = OK ("https" ++ "://" ++ "codeforces.com" ++ String "/" pth))
      by reflexivity.
    assert (Hparse : urlparse ("https" ++ "://" ++ "codeforces.com" ++ String "/" pth)
                     = OK (mkParse "https" "codeforces.com" (String "/" pth) "" "" "")).
    { apply urlparse_path; auto. unfold pth. rewrite !str_forallb_app.
      rewrite (str_forallb_impl _ _ _ digit_is_path_char Hcod).
      rewrite (str_forallb_impl _ _ _ digit_is_path_char Hled).
      rewrite (str_forallb_impl _ _ _ digit_is_path_char Hstd).
      rewrite (str_forallb_impl _ _ _ digit_is_path_char Hnd).
      now rewrite (url_index_path_chars idx Hui). }
    specialize (Hnp _ Hget). unfold url_path in Hnp. rewrite Hparse in Hnp.
    cbn [path] in Hnp.
    rewrite Hget. cbn [bind]. unfold CodeforcesProblem.from_url. rewrite Hparse.
    cbn [bind scheme netloc path]. rewrite Hnp.
    change (scheme_accepted _ && str_in_list _ _CODEFORCES_DOMAINS) with true. cbv iota.
    unfold CodeforcesProblem.table. cbn [first_match].
    change (CodeforcesProblem.re_contest_problem "contest" (String "/" pth))
      with (@None CodeforcesProblem.groups).
    change (CodeforcesProblem.re_problemset (String "/" pth))
      with (@None CodeforcesProblem.groups).
    change (CodeforcesProblem.re_contest_problem "gym" (String "/" pth))
      with (@None CodeforcesProblem.groups).
    cbv iota.
    change (String "/" pth)
      with ("/edu/course/" ++ str_of_int co ++ "/lesson/" ++ str_of_int le ++ "/"
              ++ str_of_int st ++ "/practice/contest/" ++ str_of_int cid
              ++ "/problem/" ++ idx).
    rewrite (re_edu_accepts _ _ _ _ _ Hcod Hled Hstd Hnd Hui).
    unfold CodeforcesProblem.of_match.
    cbn [CodeforcesProblem.g_contest CodeforcesProblem.g_index CodeforcesProblem.g_course
         CodeforcesProblem.g_lesson CodeforcesProblem.g_step CodeforcesProblem.int_of_group].
    change ("edu" =? "edu") with true. cbv iota.
    rewrite Hni, Hcoi, Hlei, Hsti. cbn [bind].
    rewrite cls_normalized_index; auto. now rewrite Hnorm.
  - apply andb_true_iff in Hk. destruct Hk as [Hk Hst].
    apply andb_true_iff in Hk. destruct Hk as [Hk Hle].
    apply andb_true_iff in Hk. destruct Hk as [Hk Hco].
    destruct co; [discriminate|]. destruct le; [discriminate|]. destruct st; [discriminate|].
    apply str_in_list_In in Hk.
    assert (Hget : CodeforcesProblem.get_url (CodeforcesProblem.mk cid idx kind None None None)
                   = OK (codeforces_problem_url "https" "codeforces.com" kind
                           (str_of_int cid) idx)).
    { cbn in Hk. destruct Hk as [<-|[<-|[<-|[]]]]; reflexivity. }
    specialize (Hnp _ Hget). rewrite Hget. cbn [bind].
    rewrite codeforces_from_url_of_index; auto.
    + rewrite Hni. cbn [bind]. now rewrite Hnorm.
    + cbn. auto.
Qed.

Lemma codeforces_contest_roundtrip (c : CodeforcesContest.t) :
  CodeforcesContest.canonical c = true ->
  normpath (url_path (CodeforcesContest.get_url c)) = url_path (CodeforcesContest.get_url c) ->
  CodeforcesContest.from_url normpath (CodeforcesContest.get_url c) = OK (Some c).
Proof.
  destruct c as [cid kind]. unfold CodeforcesContest.canonical, CodeforcesContest.get_url.
  cbn [CodeforcesContest.contest_id CodeforcesContest.kind]. intros Hc Hnp.
  apply andb_true_iff in Hc. destruct Hc as [Hcid Hk].
  apply Z.leb_le in Hcid. apply str_in_list_In in Hk.
  destruct (str_of_int_shape cid Hcid) as (Hn0 & Hnd & Hni).
  pose proof (str_forallb_impl _ _ _ digit_is_path_char Hnd) as Pn.
  revert Hnp. unfold CodeforcesContest.from_url, url_path.
  cbn in Hk. destruct Hk as [<-|[<-|[]]].
  - change ("https://codeforces.com/" ++ "contest" ++ "/" ++ str_of_int cid)
      with ("https" ++ "://" ++ "codeforces.com" ++ String "/" ("contest/" ++ str_of_int cid)).
    rewrite (urlparse_path "https" "codeforces.com" ("contest/" ++ str_of_int cid)); auto.
    cbn [bind scheme netloc path]. intros ->.
    change (scheme_accepted _ && str_in_list _ _CODEFORCES_DOMAINS) with true. cbv iota.
    unfold CodeforcesContest.table. cbn [first_match].
    unfold CodeforcesContest.re_contest at 1.
    change (String "/" ("contest/" ++ str_of_int cid))
      with (("/" ++ "contest" ++ "/") ++ str_of_int cid).
    rewrite strip_prefix_app. cbv beta iota delta [obind].
    rewrite (re_plus_all _ _ Hn0 Hnd).
    unfold CodeforcesContest.of_match. rewrite Hni. reflexivity.
  - change ("https://codeforces.com/" ++ "gym" ++ "/" ++ str_of_int cid)
      with ("https" ++ "://" ++ "codeforces.com" ++ String "/" ("gym/" ++ str_of_int cid)).
    rewrite (urlparse_path "https" "codeforces.com" ("gym/" ++ str_of_int cid)); auto.
    cbn [bind scheme netloc path]. intros ->.
    change (scheme_accepted _ && str_in_list _ _CODEFORCES_DOMAINS) with true. cbv iota.
    unfold CodeforcesContest.table. cbn [first_match].
    change (CodeforcesContest.re_contest "contest" (String "/" ("gym/" ++ str_of_int cid)))
      with (@None string).
    cbv iota. unfold CodeforcesContest.re_contest.
    change (String "/" ("gym/" ++ str_of_int cid))
      with (("/" ++ "gym" ++ "/") ++ str_of_int cid).
    rewrite strip_prefix_app. cbv beta iota delta [obind].
    rewrite (re_plus_all _ _ Hn0 Hnd).
    unfold CodeforcesContest.of_match. rewrite Hni. reflexivity.
Qed.

(** [from_url] on an arena URL whose fragment ends in letters: the handle
    carries them in upper case. *)
Lemma aoj_arena_from_url arena l :
  str_forallb AOJArenaProblem.arena_char arena = true ->
  str_forallb is_alpha l = true ->
  contains (upper l) ascii_uppercase = true ->
  normpath (url_path (aoj_arena_url arena l)) = url_path (aoj_arena_url arena l) ->
  AOJArenaProblem.from_url normpath (aoj_arena_url arena l)
  = OK (Some (AOJArenaProblem.mk arena (upper l) None)).
Proof.
  intros Ha Hl Hup Hnp. unfold aoj_arena_url in *.
  assert (Hparse : urlparse ("https://onlinejudge.u-aizu.ac.jp/services/room.html#"
                             ++ arena ++ "/problems/" ++ l)
                   = OK (mkParse "https" "onlinejudge.u-aizu.ac.jp" "/services/room.html"
                           "" "" (arena ++ "/problems/" ++ l))).
  { apply (urlparse_path_fragment "https" "onlinejudge.u-aizu.ac.jp" "services/room.html"
             (arena ++ "/problems/" ++ l)); auto.
    rewrite !str_forallb_app.
    rewrite (str_forallb_impl AOJArenaProblem.arena_char url_char arena); auto.
    2:{ intros c. all_chars c. }
    rewrite (str_forallb_impl is_alpha url_char l); auto. intros c. all_chars c. }
  unfold url_path in Hnp. rewrite Hparse in Hnp. cbn [path] in Hnp.
  unfold AOJArenaProblem.from_url. rewrite Hparse.
  cbn [bind scheme netloc path fragment]. rewrite Hnp.
  change (scheme_accepted _ && _ && _) with true. cbv iota.
  change (arena ++ "/problems/" ++ l) with (arena ++ String "/" ("problems" ++ String "/" l)).
  rewrite (split_on_first "/" arena _
             (has_char_none AOJArenaProblem.arena_char "/" _ eq_refl Ha)).
  rewrite (split_on_first "/" "problems" l eq_refl).
  rewrite (split_on_absent "/" l (has_char_none is_alpha "/" _ eq_refl Hl)).
  change ("problems" =? "problems") with true. cbv iota.
  unfold AOJArenaProblem.cls. rewrite Hup. reflexivity.
Qed.

Lemma upper_is_alpha_all l : str_forallb is_upper l = true -> str_forallb is_alpha l = true.
Proof. apply str_forallb_impl, upper_is_alpha. Qed.

Lemma aoj_arena_problem_roundtrip (p : AOJArenaProblem.t) :
  AOJArenaProblem.canonical p = true ->
  normpath (url_path (AOJArenaProblem.get_url p)) = url_path (AOJArenaProblem.get_url p) ->
  AOJArenaProblem.from_url normpath (AOJArenaProblem.get_url p)
  = OK (Some (AOJArenaProblem.mk (AOJArenaProblem.arena_id p) (AOJArenaProblem.alphabet p) None)).
Proof.
  destruct p as [a l memo]. unfold AOJArenaProblem.canonical.
  cbn [AOJArenaProblem.arena_id AOJArenaProblem.alphabet]. intros Hc Hnp.
  apply andb_true_iff in Hc. destruct Hc as [Ha Hl].
  pose proof (uppercase_substring l Hl) as Hup.
  assert (Hfix : upper l = l) by (apply (str_map_fixes _ is_upper l upper_char_fixes_upper Hup)).
  change (AOJArenaProblem.get_url (AOJArenaProblem.mk a l memo)) with (aoj_arena_url a l) in *.
  rewrite (aoj_arena_from_url a l Ha (upper_is_alpha_all l Hup)); auto.
  - now rewrite Hfix.
  - now rewrite Hfix.
Qed.

Lemma services_roundtrip :
  AnarchyGolfService.from_url (AnarchyGolfService.get_url AnarchyGolfService.cls)
    = OK (Some AnarchyGolfService.cls)
  /\ AOJService.from_url (AOJService.get_url AOJService.cls) = OK (Some AOJService.cls)
  /\ CodeforcesService.from_url (CodeforcesService.get_url CodeforcesService.cls)
    = OK (Some CodeforcesService.cls)
  /\ HackerRankService.from_url (HackerRankService.get_url HackerRankService.cls)
    = OK (Some HackerRankService.cls).
Proof. repeat split; vm_compute; reflexivity. Qed.

End RoundTrips.

(** ** The instance [utils_normpath] keeps canonical paths *)

Lemma split_join comps :
  comps <> [] -> forallb normal_component comps = true ->
  split_on "/" (join "/" comps) = comps.
Proof.
  induction comps as [|x rest IH]; [congruence|]. intros _ H.
  cbn [forallb] in H. apply andb_true_iff in H. destruct H as [Hx Hrest].
  assert (Hslash : has_char "/" x = false).
  { unfold normal_component in Hx. apply andb_true_iff in Hx. destruct Hx as [_ Hx].
    now apply negb_true_iff in Hx. }
  destruct rest as [|y rest].
  - cbn [join]. now apply split_on_absent.
  - change (join "/" (x :: y :: rest)) with (x ++ String "/" (join "/" (y :: rest))).
    rewrite (split_on_first "/" x _ Hslash), IH; [reflexivity | congruence | exact Hrest].
Qed.

Lemma norm_comps_normal initial comps acc :
  forallb normal_component comps = true ->
  norm_comps initial comps acc = (List.rev acc ++ comps)%list.
Proof.
  revert acc. induction comps as [|x rest IH]; intros acc H; cbn [norm_comps].
  - now rewrite List.app_nil_r.
  - cbn [forallb] in H. apply andb_true_iff in H. destruct H as [Hx Hrest].
    unfold normal_component in Hx.
    apply andb_true_iff in Hx. destruct Hx as [Hx _].
    apply andb_true_iff in Hx. destruct Hx as [Hx Hdd].
    apply andb_true_iff in Hx. destruct Hx as [He Hd].
    apply negb_true_iff in He, Hd. rewrite He, Hd, Hdd. cbn [orb].
    rewrite (IH (x :: acc) Hrest). cbn [List.rev]. now rewrite <- List.app_assoc.
Qed.

Lemma utils_normpath_normal comps :
  comps <> [] -> forallb normal_component comps = true ->
  utils_normpath ("/" ++ join "/" comps) = "/" ++ join "/" comps.
Proof.
  intros Hne Hall.
  assert (Hfirst : startswith "/" (join "/" comps) = false).
  { destruct comps as [|x rest]; [congruence|].
    cbn [forallb] in Hall. apply andb_true_iff in Hall. destruct Hall as [Hx _].
    unfold normal_component in Hx.
    apply andb_true_iff in Hx. destruct Hx as [Hx Hs].
    apply andb_true_iff in Hx. destruct Hx as [Hx _].
    apply andb_true_iff in Hx. destruct Hx as [He _].
    destruct x as [|c x]; [discriminate|].
    apply negb_true_iff in Hs. cbn [has_char] in Hs.
    apply orb_false_iff in Hs. destruct Hs as [Hc _].
    destruct rest; cbn [join append startswith]; rewrite Ascii.eqb_sym, Hc; reflexivity. }
  assert (Hpos : posixpath_normpath ("/" ++ join "/" comps) = "/" ++ join "/" comps).
  { unfold posixpath_normpath. cbn [append].
    change (startswith "/" (String "/" (join "/" comps))) with true.
    change (startswith "//" (String "/" (join "/" comps)))
      with (startswith "/" (join "/" comps)).
    rewrite Hfirst. cbn [andb]. cbv iota.
    change (split_on "/" (String "/" (join "/" comps)))
      with ("" :: split_on "/" (join "/" comps)).
    rewrite (split_join comps Hne Hall). cbn [norm_comps String.eqb orb].
    rewrite (norm_comps_normal true comps [] Hall). reflexivity. }
  unfold utils_normpath. rewrite Hpos. cbn [append].
  change (startswith "//" (String "/" (join "/" comps)))
    with (startswith "/" (join "/" comps)).
  now rewrite Hfirst.
Qed.

Lemma normal_of_class (p : ascii -> bool) s :
  p "/"%char = false -> p "."%char = false ->
  s <> "" -> str_forallb p s = true -> normal_component s = true.
Proof.
  intros Hslash Hdot Hne Hall. unfold normal_component.
  rewrite (has_char_none p "/" s Hslash Hall).
  destruct s as [|c r]; [congruence|].
  cbn [str_forallb] in Hall. apply andb_true_iff in Hall. destruct Hall as [Hc _].
  assert (Hcd : Ascii.eqb c "." = false).
  { destruct (Ascii.eqb_spec c ".") as [->|]; [congruence | reflexivity]. }
  cbn [String.eqb]. rewrite Hcd. reflexivity.
Qed.

Lemma canonical_index_alnum i :
  CodeforcesProblem.canonical_index i = true ->
  i <> "" /\ str_forallb is_alnum i = true.
Proof.
  destruct i as [|c [|d [|e r]]]; cbn [CodeforcesProblem.canonical_index]; try discriminate.
  - intros H. split; [congruence|]. cbn. rewrite andb_true_r. revert H. all_chars c.
  - intros H. apply andb_true_iff in H. destruct H as [Hc Hd]. split; [congruence|].
    cbn. rewrite andb_true_r. apply andb_true_iff. split.
    + revert Hc. clear. all_chars c.
    + revert Hd. clear. all_chars d.
Qed.

Lemma OK_inj {A : Type} (a b : A) : OK a = OK b -> a = b.
Proof. now intros [= ->]. Qed.

Lemma digit_is_alnum c : is_digit c = true -> is_alnum c = true.
Proof. all_chars c. Qed.

Lemma normal_number z : (0 <= z)%Z -> normal_component (str_of_int z) = true.
Proof.
  intros Hz. destruct (str_of_int_shape z Hz) as (Hne & Hd & _).
  apply (normal_of_class is_digit); auto.
Qed.

(** Every canonical URL has a path the instance [utils_normpath] keeps:
    the assumption the round trips make on [utils.normpath] holds of it. *)
Lemma utils_normpath_keeps_canonical_urls :
  (forall p, AnarchyGolfProblem.canonical p = true ->
     keeps_path utils_normpath (AnarchyGolfProblem.get_url p))
  /\ (forall p, HackerRankProblem.canonical p = true ->
        keeps_path utils_normpath (HackerRankProblem.get_url p))
  /\ (forall p, AOJProblem.canonical p = true ->
        keeps_path utils_normpath (AOJProblem.get_url p))
  /\ (forall p, AOJArenaProblem.canonical p = true ->
        keeps_path utils_normpath (AOJArenaProblem.get_url p))
  /\ (forall c, CodeforcesContest.canonical c = true ->
        keeps_path utils_normpath (CodeforcesContest.get_url c))
  /\ (forall p u, CodeforcesProblem.canonical p = true ->
        CodeforcesProblem.get_url p = OK u -> keeps_path utils_normpath u).
Proof.
  unfold keeps_path, url_path. repeat apply conj.
  - intros [id] Hc. unfold AnarchyGolfProblem.canonical in Hc.
    cbn [AnarchyGolfProblem.problem_id] in Hc.
    apply andb_true_iff in Hc. destruct Hc as [_ Hq].
    unfold AnarchyGolfProblem.get_url. cbn [AnarchyGolfProblem.problem_id].
    change ("http://golf.shinh.org/p.rb?" ++ id)
      with ("http" ++ "://" ++ "golf.shinh.org" ++ String "/" "p.rb" ++ String "?" id).
    rewrite urlparse_path_query; auto.
  - intros [cs ch] Hc. unfold HackerRankProblem.canonical, HackerRankProblem.slug in Hc.
    cbn [HackerRankProblem.contest_slug HackerRankProblem.challenge_slug] in Hc.
    apply andb_true_iff in Hc. destruct Hc as [Hcs Hch].
    apply andb_true_iff in Hcs. destruct Hcs as [Hcs0 Hcs].
    apply andb_true_iff in Hch. destruct Hch as [Hch0 Hch].
    apply eqb_empty_false in Hcs0. apply eqb_empty_false in Hch0.
    pose proof (str_forallb_impl _ _ _ slug_is_path_char Hcs) as Pcs.
    pose proof (str_forallb_impl _ _ _ slug_is_path_char Hch) as Pch.
    pose proof (normal_of_class _ cs eq_refl eq_refl Hcs0 Hcs) as Ncs.
    pose proof (normal_of_class _ ch eq_refl eq_refl Hch0 Hch) as Nch.
    unfold HackerRankProblem.get_url.
    cbn [HackerRankProblem.contest_slug HackerRankProblem.challenge_slug].
    destruct (cs =? "master").
    + change ("https://www.hackerrank.com/challenges/" ++ ch)
        with ("https" ++ "://" ++ "www.hackerrank.com" ++ String "/" ("challenges/" ++ ch)).
      rewrite urlparse_path; auto. cbn [path].
      apply (utils_normpath_normal ["challenges"; ch]); [discriminate|].
      cbn [forallb]. now rewrite Nch.
    + change ("https://www.hackerrank.com/contests/" ++ cs ++ "/challenges/" ++ ch)
        with ("https" ++ "://" ++ "www.hackerrank.com"
                ++ String "/" ("contests/" ++ cs ++ "/challenges/" ++ ch)).
      rewrite urlparse_path; auto.
      2:{ now rewrite !str_forallb_app, Pcs, Pch. }
      cbn [path].
      apply (utils_normpath_normal ["contests"; cs; "challenges"; ch]); [discriminate|].
      cbn [forallb]. now rewrite Ncs, Nch.
  - intros [pid] Hc. unfold AOJProblem.canonical in Hc. cbn [AOJProblem.problem_id] in Hc.
    apply andb_true_iff in Hc. destruct Hc as [_ Hw].
    unfold AOJProblem.get_url. cbn [AOJProblem.problem_id].
    change ("http://judge.u-aizu.ac.jp/onlinejudge/description.jsp?id=" ++ pid)
      with ("http" ++ "://" ++ "judge.u-aizu.ac.jp"
              ++ String "/" "onlinejudge/description.jsp" ++ String "?" ("id=" ++ pid)).
    rewrite urlparse_path_query; auto.
    rewrite str_forallb_app. simpl. apply (str_forallb_impl _ _ _ word_is_query_char Hw).
  - intros [a l memo] Hc. unfold AOJArenaProblem.canonical in Hc.
    cbn [AOJArenaProblem.arena_id AOJArenaProblem.alphabet] in Hc.
    apply andb_true_iff in Hc. destruct Hc as [Ha Hl].
    pose proof (uppercase_substring l Hl) as Hup.
    unfold AOJArenaProblem.get_url. cbn [AOJArenaProblem.arena_id AOJArenaProblem.alphabet].
    change ("https://onlinejudge.u-aizu.ac.jp/services/room.html#" ++ a ++ "/problems/" ++ l)
      with ("https" ++ "://" ++ "onlinejudge.u-aizu.ac.jp"
              ++ String "/" "services/room.html" ++ String "#" (a ++ "/problems/" ++ l)).
    rewrite urlparse_path_fragment; auto.
    rewrite !str_forallb_app.
    rewrite (str_forallb_impl AOJArenaProblem.arena_char url_char a); auto.
    2:{ intros c. all_chars c. }
    rewrite (str_forallb_impl is_upper url_char l); auto. intros c. all_chars c.
  - intros [cid kind] Hc. unfold CodeforcesContest.canonical in Hc.
    cbn [CodeforcesContest.contest_id CodeforcesContest.kind] in Hc.
    apply andb_true_iff in Hc. destruct Hc as [Hcid Hk].
    apply Z.leb_le in Hcid. apply str_in_list_In in Hk.
    destruct (str_of_int_shape cid Hcid) as (Hn0 & Hnd & _).
    pose proof (str_forallb_impl _ _ _ digit_is_path_char Hnd) as Pn.
    pose proof (normal_number cid Hcid) as Nn.
    unfold CodeforcesContest.get_url.
    cbn [CodeforcesContest.contest_id CodeforcesContest.kind].
    cbn in Hk. destruct Hk as [<-|[<-|[]]].
    + change ("https://codeforces.com/" ++ "contest" ++ "/" ++ str_of_int cid)
        with ("https" ++ "://" ++ "codeforces.com" ++ String "/" ("contest/" ++ str_of_int cid)).
      rewrite urlparse_path; auto. cbn [path].
      apply (utils_normpath_normal ["contest"; str_of_int cid]); [discriminate|].
      cbn [forallb]. now rewrite Nn.
    + change ("https://codeforces.com/" ++ "gym" ++ "/" ++ str_of_int cid)
        with ("https" ++ "://" ++ "codeforces.com" ++ String "/" ("gym/" ++ str_of_int cid)).
      rewrite urlparse_path; auto. cbn [path].
      apply (utils_normpath_normal ["gym"; str_of_int cid]); [discriminate|].
      cbn [forallb]. now rewrite Nn.
  - intros [cid idx kind co le st] u Hc Hget. unfold CodeforcesProblem.canonical in Hc.
    cbn [CodeforcesProblem.contest_id CodeforcesProblem.index CodeforcesProblem.kind
         CodeforcesProblem.course CodeforcesProblem.lesson CodeforcesProblem.step] in Hc.
    apply andb_true_iff in Hc. destruct Hc as [Hc Hk].
    apply andb_true_iff in Hc. destruct Hc as [Hcid Hidx].
    apply Z.leb_le in Hcid.
    destruct (str_of_int_shape cid Hcid) as (Hn0 & Hnd & _).
    pose proof (str_forallb_impl _ _ _ digit_is_path_char Hnd) as Pn.
    pose proof (normal_number cid Hcid) as Nn.
    destruct (canonical_index_alnum idx Hidx) as [Hi0 Hia].
    pose proof (str_forallb_impl _ _ _ alnum_is_path_char Hia) as Pi.
    pose proof (normal_of_class _ idx eq_refl eq_refl Hi0 Hia) as Ni.
    revert Hget. unfold CodeforcesProblem.get_url.
    cbn [CodeforcesProblem.contest_id CodeforcesProblem.index CodeforcesProblem.kind
         CodeforcesProblem.course CodeforcesProblem.lesson CodeforcesProblem.step].
    destruct (String.eqb_spec kind "edu") as [->|Hedu].
    + apply andb_true_iff in Hk. destruct Hk as [Hk Hst].
      apply andb_true_iff in Hk. destruct Hk as [Hco Hle].
      destruct co as [co|]; [|discriminate]. destruct le as [le|]; [|discriminate].
      destruct st as [st|]; [|discriminate]. cbn [CodeforcesProblem.nonneg] in *.
      apply Z.leb_le in Hco, Hle, Hst.
      destruct (str_of_int_shape co Hco) as (_ & Hcod & _).
      destruct (str_of_int_shape le Hle) as (_ & Hled & _).
      destruct (str_of_int_shape st Hst) as (_ & Hstd & _).
      cbn [String.eqb Ascii.eqb Bool.eqb str_of_opt_int]. intros Hu. apply OK_inj in Hu. subst u.
      change ("https://codeforces.com/edu/course/" ++ ?x)
        with ("https" ++ "://" ++ "codeforces.com" ++ String "/" ("edu/course/" ++ x)).
      rewrite urlparse_path; auto.
      2:{ rewrite !str_forallb_app.
          rewrite (str_forallb_impl _ _ _ digit_is_path_char Hcod).
          rewrite (str_forallb_impl _ _ _ digit_is_path_char Hled).
          rewrite (str_forallb_impl _ _ _ digit_is_path_char Hstd).
          now rewrite Pn, Pi. }
      cbn [path].
      apply (utils_normpath_normal
               ["edu"; "course"; str_of_int co; "lesson"; str_of_int le; str_of_int st;
                "practice"; "contest"; str_of_int cid; "problem"; idx]); [discriminate|].
      cbn [forallb].
      now rewrite (normal_number co Hco), (normal_number le Hle), (normal_number st Hst),
        Nn, Ni.
    + apply andb_true_iff in Hk. destruct Hk as [Hk _].
      apply andb_true_iff in Hk. destruct Hk as [Hk _].
      apply andb_true_iff in Hk. destruct Hk as [Hk _].
      apply str_in_list_In in Hk. cbn in Hk.
      destruct Hk as [<-|[<-|[<-|[]]]]; cbn [String.eqb Ascii.eqb Bool.eqb]; intros Hu; apply OK_inj in Hu; subst u.
      * change ("https://codeforces.com/contest/" ++ ?x)
          with ("https" ++ "://" ++ "codeforces.com" ++ String "/" ("contest/" ++ x)).
        rewrite urlparse_path; auto.
        2:{ now rewrite !str_forallb_app, Pn, Pi. }
        cbn [path].
        apply (utils_normpath_normal ["contest"; str_of_int cid; "problem"; idx]);
          [discriminate|]. cbn [forallb]. now rewrite Nn, Ni.
      * change ("https://codeforces.com/problemset/problem/" ++ ?x)
          with ("https" ++ "://" ++ "codeforces.com" ++ String "/" ("problemset/problem/" ++ x)).
        rewrite urlparse_path; auto.
        2:{ now rewrite !str_forallb_app, Pn, Pi. }
        cbn [path].
        apply (utils_normpath_normal ["problemset"; "problem"; str_of_int cid; idx]);
          [discriminate|]. cbn [forallb]. now rewrite Nn, Ni.
      * change ("https://codeforces.com/gym/" ++ ?x)
          with ("https" ++ "://" ++ "codeforces.com" ++ String "/" ("gym/" ++ x)).
        rewrite urlparse_path; auto.
        2:{ now rewrite !str_forallb_app, Pn, Pi. }
        cbn [path].
        apply (utils_normpath_normal ["gym"; str_of_int cid; "problem"; idx]);
          [discriminate|]. cbn [forallb]. now rewrite Nn, Ni.
Qed.

(** With the instance [utils_normpath] the round trip holds of every
    canonical handle outright. *)
Corollary canonical_handles_roundtrip :
  (forall p, AnarchyGolfProblem.canonical p = true ->
     AnarchyGolfProblem.from_url utils_normpath (AnarchyGolfProblem.get_url p) = OK (Some p))
  /\ (forall p, HackerRankProblem.canonical p = true ->
        HackerRankProblem.from_url utils_normpath (HackerRankProblem.get_url p) = OK (Some p))
  /\ (forall p, AOJProblem.canonical p = true ->
        AOJProblem.from_url utils_normpath (AOJProblem.get_url p) = OK (Some p))
  /\ (forall p, AOJArenaProblem.canonical p = true ->
        AOJArenaProblem.from_url utils_normpath (AOJArenaProblem.get_url p)
        = OK (Some (AOJArenaProblem.mk (AOJArenaProblem.arena_id p)
                      (AOJArenaProblem.alphabet p) None)))
  /\ (forall c, CodeforcesContest.canonical c = true ->
        CodeforcesContest.from_url utils_normpath (CodeforcesContest.get_url c) = OK (Some c))
  /\ (forall p, CodeforcesProblem.canonical p = true ->
        (u <- CodeforcesProblem.get_url p ;; CodeforcesProblem.from_url utils_normpath u)%result
        = OK (Some p)).
Proof.
  destruct utils_normpath_keeps_canonical_urls as (Kag & Khr & Kaoj & Karena & Kcc & Kcp).
  repeat apply conj; intros p Hp.
  - apply anarchygolf_problem_roundtrip; [exact Hp | exact (Kag p Hp)].
  - apply hackerrank_problem_roundtrip; [exact Hp | exact (Khr p Hp)].
  - apply aoj_problem_roundtrip; [exact Hp | exact (Kaoj p Hp)].
  - apply aoj_arena_problem_roundtrip; [exact Hp | exact (Karena p Hp)].
  - apply codeforces_contest_roundtrip; [exact Hp | exact (Kcc p Hp)].
  - apply codeforces_problem_roundtrip; [exact Hp|].
    intros u Hu. exact (Kcp p u Hp Hu).
Qed.

(** ** Claims on URLs and identities *)

(** C9.  A [CodeforcesContest] or [CodeforcesProblem] constructed without
    an explicit kind gets the kind inferred from its numeric id, [contest]
    below 100000 and [gym] from there on, and [get_url] embeds exactly
    that kind in the URL. *)
Theorem codeforces_kind_inferred_from_id
  (contest_id : Z) (index : string) (course lesson step : option Z) :
  CodeforcesProblem.valid_index index = true ->
  let kind := if (contest_id <? 100000)%Z then "contest" else "gym" in
  CodeforcesContest.cls contest_id None = OK (CodeforcesContest.mk contest_id kind)
  /\ CodeforcesContest.get_url (CodeforcesContest.mk contest_id kind)
     = "https://codeforces.com/" ++ kind ++ "/" ++ str_of_int contest_id
  /\ CodeforcesProblem.cls contest_id index None course lesson step
     = OK (CodeforcesProblem.mk contest_id index kind course lesson step)
  /\ CodeforcesProblem.get_url
       (CodeforcesProblem.mk contest_id index kind course lesson step)
     = OK ("https://codeforces.com/" ++ kind ++ "/" ++ str_of_int contest_id
             ++ "/problem/" ++ index).
Proof.
  intros Hv kind.
  assert (Hcls : CodeforcesProblem.cls contest_id index None course lesson step
                 = OK (CodeforcesProblem.mk contest_id index kind course lesson step)).
  { unfold CodeforcesProblem.cls. cbn [kind_in infer_kind]. fold kind.
    destruct index as [|c [|d [|e r]]]; cbn [CodeforcesProblem.valid_index] in Hv;
      try discriminate.
    - cbn -[has_char ascii_uppercase]. now rewrite Hv.
    - apply andb_true_iff in Hv. destruct Hv as [Hc Hd].
      cbn -[has_char ascii_uppercase CodeforcesProblem.digits]. now rewrite Hc, Hd. }
  repeat split; auto.
  subst kind. unfold CodeforcesProblem.get_url. cbn [CodeforcesProblem.kind
    CodeforcesProblem.contest_id CodeforcesProblem.index].
  destruct (contest_id <? 100000)%Z; reflexivity.
Qed.

Lemma codeforces_kind_inferred_from_id_witness :
  CodeforcesProblem.valid_index "H" = true
  /\ CodeforcesContest.cls 538 None = OK (CodeforcesContest.mk 538 "contest")
  /\ CodeforcesProblem.cls 101021 "H" None None None None
     = OK (CodeforcesProblem.mk 101021 "H" "gym" None None None)
  /\ CodeforcesProblem.get_url (CodeforcesProblem.mk 101021 "H" "gym" None None None)
     = OK "https://codeforces.com/gym/101021/problem/H".
Proof.
  split; [reflexivity|].
  destruct (codeforces_kind_inferred_from_id 538 "H" None None None eq_refl)
    as (H1 & _).
  destruct (codeforces_kind_inferred_from_id 101021 "H" None None None eq_refl)
    as (_ & _ & H3 & H4).
  split; [exact H1 | split; [exact H3 | exact H4]].
Defined.

Lemma upper_url_index i :
  CodeforcesProblem.url_index i = true -> i <> "0" ->
  CodeforcesProblem.url_index (upper i) = true
  /\ CodeforcesProblem.normalize_index i = upper i
  /\ CodeforcesProblem.normalize_index (upper i) = upper i.
Proof.
  unfold CodeforcesProblem.normalize_index.
  destruct i as [|c [|d [|e r]]]; cbn [CodeforcesProblem.url_index]; try discriminate.
  - intros H H0.
    assert (Hc : is_alpha c = true).
    { destruct (Ascii.eqb c "0") eqn:E; [|exact H].
      apply Ascii.eqb_eq in E. subst c. congruence. }
    cbn [upper str_map CodeforcesProblem.url_index].
    replace (String c "" =? "0") with false
      by (symmetry; apply String.eqb_neq; congruence).
    replace (String (upper_char c) "" =? "0") with false.
    2:{ symmetry. apply String.eqb_neq. intros [= E].
        pose proof (upper_alpha_not_zero c Hc) as N. rewrite E in N. discriminate. }
    rewrite upper_char_idempotent. repeat split.
    revert Hc. clear. all_chars c.
  - intros H _. apply andb_true_iff in H. destruct H as [Hc Hd].
    cbn [upper str_map CodeforcesProblem.url_index].
    rewrite (upper_char_fixes_digit d (digit19_is_digit d Hd)), Hd.
    rewrite !upper_char_idempotent.
    rewrite (upper_char_fixes_digit d (digit19_is_digit d Hd)).
    assert (N : forall a, (String a (String d "") =? "0") = false)
      by (intros a; apply String.eqb_neq; congruence).
    rewrite !N. repeat split. rewrite andb_true_r. revert Hc. clear. all_chars c.
Qed.

Lemma int_of_str_OK n z :
  int_of_str n = OK z -> n <> "" /\ str_forallb is_digit n = true.
Proof.
  unfold int_of_str. destruct n as [|c r]; [discriminate|].
  destruct (str_forallb is_digit (String c r)); [|discriminate].
  intros _. split; congruence.
Qed.

(** C10.  [CodeforcesProblem.from_url] normalizes the index of the URL
    many-to-one: the index text [0] resolves to [A] and letters are put in
    upper case, so [.../problem/0], [.../problem/a] and [.../problem/A]
    resolve to equal identities; [AOJArenaProblem.from_url] puts the
    letter of the fragment in upper case in the same way. *)
Theorem from_url_normalizes_index (normpath : string -> string) :
  (forall sch host kind n z,
      sch = "http" \/ sch = "https" ->
      In host _CODEFORCES_DOMAINS ->
      In kind ["contest"; "problemset"; "gym"] ->
      int_of_str n = OK z ->
      (forall i, In i ["0"; "a"; "A"] ->
                 keeps_path normpath (codeforces_problem_url sch host kind n i)) ->
      forall i, In i ["0"; "a"; "A"] ->
        CodeforcesProblem.from_url normpath (codeforces_problem_url sch host kind n i)
        = OK (Some (CodeforcesProblem.mk z "A" kind None None None)))
  /\ (forall sch host kind n z i,
      sch = "http" \/ sch = "https" ->
      In host _CODEFORCES_DOMAINS ->
      In kind ["contest"; "problemset"; "gym"] ->
      int_of_str n = OK z ->
      CodeforcesProblem.url_index i = true -> i <> "0" ->
      keeps_path normpath (codeforces_problem_url sch host kind n i) ->
      keeps_path normpath (codeforces_problem_url sch host kind n (upper i)) ->
      CodeforcesProblem.from_url normpath (codeforces_problem_url sch host kind n i)
      = OK (Some (CodeforcesProblem.mk z (upper i) kind None None None))
      /\ CodeforcesProblem.from_url normpath
           (codeforces_problem_url sch host kind n (upper i))
         = OK (Some (CodeforcesProblem.mk z (upper i) kind None None None)))
  /\ (forall arena c,
        str_forallb AOJArenaProblem.arena_char arena = true ->
        is_alpha c = true ->
        keeps_path normpath (aoj_arena_url arena (String c "")) ->
        keeps_path normpath (aoj_arena_url arena (String (upper_char c) "")) ->
        AOJArenaProblem.from_url normpath (aoj_arena_url arena (String c ""))
        = OK (Some (AOJArenaProblem.mk arena (String (upper_char c) "") None))
        /\ AOJArenaProblem.from_url normpath (aoj_arena_url arena (String (upper_char c) ""))
           = OK (Some (AOJArenaProblem.mk arena (String (upper_char c) "") None))).
Proof.
  assert (Hgen : forall sch host kind n z i,
            sch = "http" \/ sch = "https" ->
            In host _CODEFORCES_DOMAINS ->
            In kind ["contest"; "problemset"; "gym"] ->
            int_of_str n = OK z ->
            CodeforcesProblem.url_index i = true ->
            keeps_path normpath (codeforces_problem_url sch host kind n i) ->
            CodeforcesProblem.from_url normpath (codeforces_problem_url sch host kind n i)
            = OK (Some (CodeforcesProblem.mk z (CodeforcesProblem.normalize_index i) kind
                          None None None))).
  { intros sch host kind n z i Hsch Hhost Hkind Hz Hi Hnp.
    destruct (int_of_str_OK n z Hz) as [Hn Hd].
    rewrite (codeforces_from_url_of_index normpath sch host kind n i); auto.
    now rewrite Hz. }
  split; [|split].
  - intros sch host kind n z Hsch Hhost Hkind Hz Hnp i Hi.
    rewrite (Hgen sch host kind n z i); auto.
    + cbn in Hi. destruct Hi as [<-|[<-|[<-|[]]]]; reflexivity.
    + cbn in Hi. destruct Hi as [<-|[<-|[<-|[]]]]; reflexivity.
  - intros sch host kind n z i Hsch Hhost Hkind Hz Hi H0 Hnp1 Hnp2.
    destruct (upper_url_index i Hi H0) as (Hu & N1 & N2).
    split.
    + rewrite (Hgen sch host kind n z i); auto. congruence.
    + rewrite (Hgen sch host kind n z (upper i)); auto. congruence.
  - intros arena c Ha Hc Hnp1 Hnp2.
    assert (Hcont : contains (String (upper_char c) "") ascii_uppercase = true).
    { revert Hc. clear. all_chars c. }
    split.
    + rewrite (aoj_arena_from_url normpath arena (String c "")); auto.
      cbn. now rewrite Hc.
    + rewrite (aoj_arena_from_url normpath arena (String (upper_char c) "")); auto.
      * cbn [upper str_map]. now rewrite upper_char_idempotent.
      * cbn. rewrite andb_true_r. revert Hc. clear. all_chars c.
      * cbn [upper str_map]. now rewrite upper_char_idempotent.
Qed.

Lemma from_url_normalizes_index_witness :
  (forall i, In i ["0"; "a"; "A"] ->
     CodeforcesProblem.from_url utils_normpath
       (codeforces_problem_url "https" "codeforces.com" "contest" "1000" i)
     = OK (Some (CodeforcesProblem.mk 1000 "A" "contest" None None None)))
  /\ CodeforcesProblem.from_url utils_normpath
       (codeforces_problem_url "http" "m1.codeforces.com" "gym" "101021" "f2")
     = OK (Some (CodeforcesProblem.mk 101021 "F2" "gym" None None None))
  /\ AOJArenaProblem.from_url utils_normpath (aoj_arena_url "RitsCamp19Day2" "a")
     = OK (Some (AOJArenaProblem.mk "RitsCamp19Day2" "A" None)).
Proof.
  destruct (from_url_normalizes_index utils_normpath) as (Hzero & Hupper & Harena).
  split; [|split].
  - apply Hzero.
    + right; reflexivity.
    + left; reflexivity.
    + left; reflexivity.
    + reflexivity.
    + intros i Hi. cbn in Hi. destruct Hi as [<-|[<-|[<-|[]]]]; reflexivity.
  - apply (Hupper "http" "m1.codeforces.com" "gym" "101021" 101021%Z "f2").
    + left; reflexivity.
    + right; left; reflexivity.
    + right; right; left; reflexivity.
    + reflexivity.
    + reflexivity.
    + discriminate.
    + reflexivity.
    + reflexivity.
  - apply (Harena "RitsCamp19Day2" "a"%char); reflexivity.
Defined.

(** C1 (as amended).  For every handle whose identity fields have the
    shape of the canonical URL, [from_url] applied to the string [get_url]
    returns yields a handle with the same identity fields, provided
    [utils.normpath] leaves the path of that URL unchanged.  The shapes
    are: a non-empty fragment-free id for Anarchy Golf, non-empty
    [[0-9A-Za-z-]] slugs for HackerRank, a non-empty word for an AOJ
    problem, a slash-free arena id for an AOJ arena problem, a natural
    number as contest id and, for a Codeforces problem, an index made of
    an uppercase letter and possibly a digit from 1 to 9 with the course
    coordinates present exactly for kind [edu].  The service handles have
    no fields and round-trip as they are. *)
Theorem from_url_get_url_roundtrip (normpath : string -> string) :
  (AnarchyGolfService.from_url (AnarchyGolfService.get_url AnarchyGolfService.cls)
     = OK (Some AnarchyGolfService.cls)
   /\ AOJService.from_url (AOJService.get_url AOJService.cls) = OK (Some AOJService.cls)
   /\ CodeforcesService.from_url (CodeforcesService.get_url CodeforcesService.cls)
     = OK (Some CodeforcesService.cls)
   /\ HackerRankService.from_url (HackerRankService.get_url HackerRankService.cls)
     = OK (Some HackerRankService.cls))
  /\ (forall p, AnarchyGolfProblem.canonical p = true ->
        keeps_path normpath (AnarchyGolfProblem.get_url p) ->
        AnarchyGolfProblem.from_url normpath (AnarchyGolfProblem.get_url p) = OK (Some p))
  /\ (forall p, HackerRankProblem.canonical p = true ->
        keeps_path normpath (HackerRankProblem.get_url p) ->
        HackerRankProblem.from_url normpath (HackerRankProblem.get_url p) = OK (Some p))
  /\ (forall p, AOJProblem.canonical p = true ->
        keeps_path normpath (AOJProblem.get_url p) ->
        AOJProblem.from_url normpath (AOJProblem.get_url p) = OK (Some p))
  /\ (forall p, AOJArenaProblem.canonical p = true ->
        keeps_path normpath (AOJArenaProblem.get_url p) ->
        AOJArenaProblem.from_url normpath (AOJArenaProblem.get_url p)
        = OK (Some (AOJArenaProblem.mk (AOJArenaProblem.arena_id p)
                      (AOJArenaProblem.alphabet p) None)))
  /\ (forall c, CodeforcesContest.canonical c = true ->
        keeps_path normpath (CodeforcesContest.get_url c) ->
        CodeforcesContest.from_url normpath (CodeforcesContest.get_url c) = OK (Some c))
  /\ (forall p, CodeforcesProblem.canonical p = true ->
        (forall u, CodeforcesProblem.get_url p = OK u -> keeps_path normpath u) ->
        (u <- CodeforcesProblem.get_url p ;; CodeforcesProblem.from_url normpath u)%result
        = OK (Some p)).
Proof.
  split; [exact services_roundtrip|].
  split; [exact (anarchygolf_problem_roundtrip normpath)|].
  split; [exact (hackerrank_problem_roundtrip normpath)|].
  split; [exact (aoj_problem_roundtrip normpath)|].
  split; [exact (aoj_arena_problem_roundtrip normpath)|].
  split; [exact (codeforces_contest_roundtrip normpath)|].
  exact (codeforces_problem_roundtrip normpath).
Qed.

Lemma from_url_get_url_roundtrip_witness :
  AnarchyGolfProblem.from_url utils_normpath
      (AnarchyGolfProblem.get_url (AnarchyGolfProblem.cls "The+B+Programming+Language"))
    = OK (Some (AnarchyGolfProblem.cls "The+B+Programming+Language"))
  /\ HackerRankProblem.from_url utils_normpath
      (HackerRankProblem.get_url (HackerRankProblem.cls "master" "fp-hello-world"))
    = OK (Some (HackerRankProblem.cls "master" "fp-hello-world"))
  /\ AOJProblem.from_url utils_normpath (AOJProblem.get_url (AOJProblem.cls "DSL_1_A"))
    = OK (Some (AOJProblem.cls "DSL_1_A"))
  /\ AOJArenaProblem.from_url utils_normpath
      (AOJArenaProblem.get_url (AOJArenaProblem.mk "RitsCamp19Day2" "A" None))
    = OK (Some (AOJArenaProblem.mk "RitsCamp19Day2" "A" None))
  /\ CodeforcesContest.from_url utils_normpath
      (CodeforcesContest.get_url (CodeforcesContest.mk 101021 "gym"))
    = OK (Some (CodeforcesContest.mk 101021 "gym"))
  /\ (u <- CodeforcesProblem.get_url
             (CodeforcesProblem.mk 269100 "A" "edu" (Some 2%Z) (Some 2%Z) (Some 1%Z)) ;;
      CodeforcesProblem.from_url utils_normpath u)%result
    = OK (Some (CodeforcesProblem.mk 269100 "A" "edu" (Some 2%Z) (Some 2%Z) (Some 1%Z))).
Proof.
  destruct (from_url_get_url_roundtrip utils_normpath)
    as (_ & Hag & Hhr & Haoj & Harena & Hcc & Hcp).
  split; [apply Hag; reflexivity|].
  split; [apply Hhr; reflexivity|].
  split; [apply Haoj; reflexivity|].
  split; [apply (Harena (AOJArenaProblem.mk "RitsCamp19Day2" "A" None)); reflexivity|].
  split; [apply Hcc; reflexivity|].
  apply Hcp; [reflexivity|].
  intros u Hu. vm_compute in Hu. injection Hu as <-. reflexivity.
Defined.

(** C1 as stated fails: handles that satisfy every precondition of their
    constructor but lie outside the canonical shape resolve to [None]
    (an empty Anarchy Golf id, a slug with an underscore, an arena id
    with a slash, a Codeforces index [A0], a negative contest id). *)
Lemma roundtrip_fails_on_constructible_handles :
  AnarchyGolfProblem.from_url utils_normpath
      (AnarchyGolfProblem.get_url (AnarchyGolfProblem.cls "")) = OK None
  /\ HackerRankProblem.from_url utils_normpath
      (HackerRankProblem.get_url (HackerRankProblem.cls "week_of_code" "x")) = OK None
  /\ (self <- AOJArenaProblem.cls "a/b" "A" ;;
      AOJArenaProblem.from_url utils_normpath (AOJArenaProblem.get_url self))%result
     = OK None
  /\ (self <- CodeforcesProblem.cls 1 "A0" (Some "contest") None None None ;;
      u <- CodeforcesProblem.get_url self ;;
      CodeforcesProblem.from_url utils_normpath u)%result = OK None
  /\ (self <- CodeforcesContest.cls (-5) (Some "contest") ;;
      CodeforcesContest.from_url utils_normpath (CodeforcesContest.get_url self))%result
     = OK None.
Proof. repeat split; vm_compute; reflexivity. Qed.

(** ** Claims on the HackerRank downloads *)

(** C3 (as amended).  For [HackerRankProblem], [download_sample_cases]
    delegates to [download_system_cases]: for every problem, session and
    transport, and after any history of requests, both make the same
    requests and return the same result. *)
Theorem hackerrank_sample_download_delegates
  (E : Env) (self : HackerRankProblem.t) (session : option (Session E)) (h : History E) :
  HackerRankProblem.download_sample_cases E self session h
  = HackerRankProblem.download_system_cases E self session h.
Proof. reflexivity. Qed.

(** C3 as stated fails: no problem, session, transport or history makes
    the two downloads of a [HackerRankProblem] differ. *)
Lemma hackerrank_downloads_never_differ :
  ~ (exists (E : Env) (self : HackerRankProblem.t) (session : option (Session E))
            (h : History E),
        HackerRankProblem.download_sample_cases E self session h
        <> HackerRankProblem.download_system_cases E self session h).
Proof.
  intros (E & self & session & h & Hne). apply Hne.
  unfold HackerRankProblem.download_sample_cases. reflexivity.
Qed.

(** C4 (as amended).  [HackerRankProblem.download_system_cases] makes one
    request.  A failure of the transport itself reaches the caller as it
    is; a reply with a failure status (400 to 599) other than 403 reaches
    the caller as the [HTTPError] of that reply, raised by
    [raise_for_status]; a reply with status 403 never reaches the caller
    as the transport's error: when its body is UTF-8 it is turned into
    [SampleParseError("Access Denied. ...")], and when its body is not,
    decoding it for the log raises the decoding error. *)
Theorem hackerrank_system_cases_errors
  (E : Env) (self : HackerRankProblem.t) (session : option (Session E)) (h : History E) :
  let s := session_or_default E session in
  let req := GET (HackerRankProblem.rest_url self ++ "/download_testcases") in
  let h' := (h ++ [(s, req)])%list in
  (forall e, send E h s req = Raise e ->
     HackerRankProblem.download_system_cases E self session h = (Raise e, h'))
  /\ (forall resp, send E h s req = OK resp ->
        is_error_status resp = true -> status_code resp <> 403%Z ->
        HackerRankProblem.download_system_cases E self session h
        = (Raise (HTTPError resp), h'))
  /\ (forall resp, send E h s req = OK resp ->
        status_code resp = 403%Z -> valid_utf8 [] (content resp) = true ->
        HackerRankProblem.download_system_cases E self session h
        = (Raise (SampleParseError HackerRankProblem.access_denied), h'))
  /\ (forall resp, send E h s req = OK resp ->
        status_code resp = 403%Z -> valid_utf8 [] (content resp) = false ->
        HackerRankProblem.download_system_cases E self session h
        = (Raise UnicodeDecodeError, h')).
Proof.
  intros s req h'.
  unfold HackerRankProblem.download_system_cases, bindIO, utils_request.
  fold s. fold req. fold h'. cbn [andb].
  split; [|split; [|split]].
  - intros e He. now rewrite He.
  - intros resp Hs Herr Hne. rewrite Hs.
    apply Z.eqb_neq in Hne. rewrite Hne.
    unfold raise_for_status. rewrite Herr. reflexivity.
  - intros resp Hs H403 Hdec. rewrite Hs.
    apply Z.eqb_eq in H403. rewrite H403.
    unfold lift, decode_utf8. rewrite Hdec. reflexivity.
  - intros resp Hs H403 Hdec. rewrite Hs.
    apply Z.eqb_eq in H403. rewrite H403.
    unfold lift, decode_utf8. rewrite Hdec. reflexivity.
Qed.

Lemma hackerrank_system_cases_errors_witness :
  fst (HackerRankProblem.download_system_cases (hackerrank_download_world 404)
         (HackerRankProblem.cls "master" "fp-hello-world") None [])
  = Raise (HTTPError
             (mkResponse 404 "https://www.hackerrank.com/rest/contests/master/challenges/fp-hello-world/download_testcases"
                (encode "denied") "denied")).
Proof.
  destruct (hackerrank_system_cases_errors (hackerrank_download_world 404)
              (HackerRankProblem.cls "master" "fp-hello-world") None [])
    as (_ & H & _).
  rewrite (H _ eq_refl eq_refl); [reflexivity | discriminate].
Defined.

(** C4 as stated fails: a reply with the failure status 403 does not reach
    the caller as the transport's error but as a [SampleParseError]. *)
Lemma hackerrank_403_is_not_propagated :
  is_error_status
    (mkResponse 403 "https://www.hackerrank.com/rest/contests/master/challenges/fp-hello-world/download_testcases"
       (encode "denied") "denied") = true
  /\ fst (HackerRankProblem.download_system_cases (hackerrank_download_world 403)
            (HackerRankProblem.cls "master" "fp-hello-world") None [])
     = Raise (SampleParseError "Access Denied. Did you set your User-Agent?").
Proof. split; vm_compute; reflexivity. Qed.

(** ** Claims on submissions *)




(** ** Claims on the samples of Anarchy Golf *)

Lemma skip_blank_stops blanks nxt following text :
  forallb blank blanks = true ->
  node_truthy nxt = true -> node_string nxt = Some text -> strip text <> "" ->
  AnarchyGolfProblem.skip_blank (blanks ++ nxt :: following)%list = OK (Some nxt).
Proof.
  intros Hb Ht Hs Hne. induction blanks as [|b blanks IH]; simpl.
  - rewrite Ht, Hs. apply String.eqb_neq in Hne. now rewrite Hne.
  - simpl in Hb. apply andb_true_iff in Hb. destruct Hb as [Hb Hbs].
    unfold blank in Hb. apply andb_true_iff in Hb. destruct Hb as [Hbt Hbstr].
    rewrite Hbt. destruct (node_string b) as [s|]; [|discriminate].
    rewrite Hbstr. now apply IH.
Qed.

Lemma added_samples_app E (a b : list occurrence) :
  AnarchyGolfProblem.added_samples E (a ++ b)%list
  = (x <- AnarchyGolfProblem.added_samples E a ;;
     y <- AnarchyGolfProblem.added_samples E b ;;
     OK (x ++ y)%list)%result.
Proof.
  induction a as [|o a IH]; cbn [List.app AnarchyGolfProblem.added_samples bind].
  - destruct (AnarchyGolfProblem.added_samples E b); reflexivity.
  - destruct (AnarchyGolfProblem._parse_sample_tag E o) as [it|e]; [|reflexivity].
    cbn [bind]. rewrite IH.
    destruct (AnarchyGolfProblem.added_samples E a) as [x|e];
      destruct (AnarchyGolfProblem.added_samples E b) as [y|e'];
      destruct it as [[s name]|]; reflexivity.
Qed.

(** C5: the code at the failing inputs.  A recognized heading whose next
    sibling that is not blank is a [p] yields the empty content only
    when that [p] holds one text: the scan calls [.string.strip()] on
    every sibling it meets, the [p] included.  For a [p] with nothing in
    it, for a [p] with a [br] beside its text, and for a [br] before the
    [p], [.string] is [None] and the parse raises [AttributeError]; the
    download of a page with such a [p] raises it too and returns no
    fragment at all, the sample of the other heading included. *)
Theorem empty_paragraph_raises :
  AnarchyGolfProblem._parse_sample_tag (table_env [] [] [])
    (golf_heading "Sample input:" [NavigableString LF; Tag "p" [] []])
  = Raise AttributeError
  /\ AnarchyGolfProblem._parse_sample_tag (table_env [] [] [])
       (golf_heading "Sample input:"
          [NavigableString LF; Tag "p" [] [NavigableString "*NOTHING*"; Tag "br" [] []]])
     = Raise AttributeError
  /\ AnarchyGolfProblem._parse_sample_tag (table_env [] [] [])
       (golf_heading "Sample input:"
          [Tag "br" [] []; Tag "p" [] [NavigableString "*NOTHING*"]])
     = Raise AttributeError
  /\ AnarchyGolfProblem.download_sample_cases golf_empty_paragraph_world
       (AnarchyGolfProblem.cls "hello+world") None []
     = (Raise AttributeError, [(tt, GET "http://golf.shinh.org/p.rb?hello+world")])
  /\ AnarchyGolfProblem._parse_sample_tag (table_env [] [] [])
       (golf_heading "Sample input:"
          [NavigableString LF; Tag "p" [] [NavigableString "*NOTHING*"]])
     = OK (Some ("", "Sample input")).
Proof. repeat split; vm_compute; reflexivity. Qed.

(** C6: the code at the failing inputs.  A recognized heading followed by
    a block that is neither [pre] nor [p] makes the parse read the
    variable [s] that no branch has bound, an [UnboundLocalError]; a
    heading with nothing after it, or followed by a tag without a single
    text, makes it an [AttributeError].  None of these is a
    content-extraction error. *)
Theorem parse_sample_tag_unrelated_exceptions :
  AnarchyGolfProblem._parse_sample_tag (table_env [] [] [])
    (golf_heading "Sample input:"
       [NavigableString (String "010" ""); Tag "div" [] [NavigableString "1 2"]])
  = Raise UnboundLocalError
  /\ AnarchyGolfProblem._parse_sample_tag (table_env [] [] [])
       (golf_heading "Sample output:" [NavigableString (String "010" "")])
     = Raise AttributeError
  /\ AnarchyGolfProblem._parse_sample_tag (table_env [] [] [])
       (golf_heading "Sample output:"
          [Tag "table" [] [Tag "tr" [] []; Tag "tr" [] []]])
     = Raise AttributeError.
Proof. repeat split; vm_compute; reflexivity. Qed.

(** ** Claims on the Aizu Online Judge *)





Lemma encode_json_string v bytes :
  encode_json v = OK bytes -> exists s, v = JStr s /\ bytes = encode s.
Proof.
  destruct v; cbn [encode_json]; try discriminate.
  intros [= <-]. eexists. split; reflexivity.
Qed.

Lemma api_sample_carries E i sample tc :
  AOJProblem.api_sample E i sample = OK tc -> carries sample tc.
Proof.
  unfold AOJProblem.api_sample, carries.
  destruct (getitem sample "serial") as [serial|e]; [|discriminate]. cbn [bind].
  destruct (getitem sample "in") as [input|e]; [|discriminate]. cbn [bind].
  destruct (encode_json input) as [ibytes|e] eqn:Hi; [|discriminate]. cbn [bind].
  destruct (getitem sample "out") as [output|e]; [|discriminate]. cbn [bind].
  destruct (encode_json output) as [obytes|e] eqn:Ho; [|discriminate]. cbn [bind].
  intros [= <-]. cbn [input_data output_data].
  destruct (encode_json_string _ _ Hi) as (si & -> & ->).
  destruct (encode_json_string _ _ Ho) as (so & -> & ->).
  exists si, so. repeat split; reflexivity.
Qed.

Lemma api_samples_carry E i samples cases :
  AOJProblem.api_samples E i samples = OK cases -> Forall2 carries samples cases.
Proof.
  revert i cases. induction samples as [|sample rest IH]; intros i cases;
    cbn [AOJProblem.api_samples].
  - intros [= <-]. constructor.
  - destruct (AOJProblem.api_sample E i sample) as [tc|e] eqn:Htc; [|discriminate].
    cbn [bind].
    destruct (AOJProblem.api_samples E (S i) rest) as [more|e] eqn:Hmore; [|discriminate].
    cbn [bind]. intros [= <-].
    constructor; [exact (api_sample_carries E i sample tc Htc) | exact (IH _ _ Hmore)].
Qed.

Lemma html_added_samples_content E pres content label :
  In (content, label) (AOJProblem.added_samples E pres) ->
  exists pre,
    In pre pres /\ AOJProblem.sample_heading pre = Some label
    /\ content = encode (textfile E (lstrip (parse_content E (occ_node pre)))).
Proof.
  induction pres as [|pre rest IH]; cbn [AOJProblem.added_samples]; [intros []|].
  destruct (AOJProblem.sample_heading pre) as [l|] eqn:Hh.
  - intros [[= <- <-]|Hin].
    + exists pre. repeat split; [now left | exact Hh].
    + destruct (IH Hin) as (p & Hp & Hl & Hc). exists p. repeat split; auto. now right.
  - intros Hin. destruct (IH Hin) as (p & Hp & Hl & Hc). exists p.
    repeat split; auto. now right.
Qed.

(** C8 (as amended).  On the official-API path of
    [AOJProblem.download_sample_cases] every test case carries the [in]
    and [out] texts of its sample, encoded and otherwise untouched.  On
    the HTML-fallback path every content given to the zipper is the text
    of a labelled [pre] with its leading white space stripped
    ([str.lstrip]: every leading character [str.isspace] holds, the
    spaces beyond ASCII included) and passed through [utils.textfile],
    then encoded; the download returns what the zipper makes of these. *)
Theorem aoj_sample_contents
  (E : Env) (self : AOJProblem.t) (session : option (Session E)) (h : History E) :
  let s := session_or_default E session in
  let api := GET ("https://judgedat.u-aizu.ac.jp/testcases/samples/"
                    ++ AOJProblem.problem_id self) in
  let description := GET ("https://judgeapi.u-aizu.ac.jp/resources/descriptions/ja/"
                            ++ AOJProblem.problem_id self) in
  let h1 := (h ++ [(s, api)])%list in
  let h2 := (h1 ++ [(s, description)])%list in
  (forall resp reply samples cases,
      send E h s api = OK resp -> is_error_status resp = false ->
      json_loads E (text resp) = OK reply -> iterate reply = OK samples ->
      AOJProblem.api_samples E 0 samples = OK cases -> cases <> [] ->
      AOJProblem.download_sample_cases E self session h = (OK cases, h1)
      /\ Forall2 carries samples cases)
  /\ (forall resp reply samples resp2 reply2 html,
        send E h s api = OK resp -> is_error_status resp = false ->
        json_loads E (text resp) = OK reply -> iterate reply = OK samples ->
        AOJProblem.api_samples E 0 samples = OK [] ->
        send E h1 s description = OK resp2 -> is_error_status resp2 = false ->
        json_loads E (text resp2) = OK reply2 ->
        getitem reply2 "html" = OK (JStr html) ->
        let pres := find_all "pre" (BeautifulSoup E html) in
        AOJProblem.download_sample_cases E self session h
        = (OK (SampleZipper_get E (AOJProblem.added_samples E pres)), h2)
        /\ forall content label,
            In (content, label) (AOJProblem.added_samples E pres) ->
            exists pre,
              In pre pres /\ AOJProblem.sample_heading pre = Some label
              /\ content = encode (textfile E (lstrip (parse_content E (occ_node pre))))).
Proof.
  intros s api description h1 h2. split.
  - intros resp reply samples cases Hsend Hok Hreply Hiter Hcases Hne.
    split; [|exact (api_samples_carry E 0 samples cases Hcases)].
    unfold AOJProblem.download_sample_cases, bindIO, utils_request, lift, ret.
    cbv zeta. fold s. fold api. rewrite Hsend, Hok. cbn [andb].
    rewrite Hreply, Hiter, Hcases. fold h1.
    destruct cases; [congruence | reflexivity].
  - intros resp reply samples resp2 reply2 html Hsend Hok Hreply Hiter Hcases
      Hsend2 Hok2 Hreply2 Hhtml pres.
    split; [|apply html_added_samples_content].
    unfold AOJProblem.download_sample_cases, bindIO, utils_request, lift, ret.
    cbv zeta. fold s. fold api. rewrite Hsend, Hok. cbn [andb].
    rewrite Hreply, Hiter, Hcases. fold h1. fold description.
    rewrite Hsend2, Hok2. cbn [andb]. rewrite Hreply2, Hhtml.
    cbn [AOJProblem.soup_of]. reflexivity.
Qed.

Lemma aoj_sample_contents_witness :
  AOJProblem.download_sample_cases aoj_api_world (AOJProblem.cls "2256") None []
  = (OK [mkTestCase "sample-1" "1" (encode "  1 2") "1" (encode "3")],
     [(tt, GET "https://judgedat.u-aizu.ac.jp/testcases/samples/2256")])
  /\ fst (AOJProblem.download_sample_cases aoj_html_world (AOJProblem.cls "2256") None [])
     = OK (SampleZipper_get aoj_html_world
             (AOJProblem.added_samples aoj_html_world (find_all "pre" description_page))).
Proof.
  split.
  - destruct (aoj_sample_contents aoj_api_world (AOJProblem.cls "2256") None [])
      as [Hapi _].
    destruct (Hapi _ _ _ [mkTestCase "sample-1" "1" (encode "  1 2") "1" (encode "3")]
                eq_refl eq_refl eq_refl eq_refl eq_refl) as [H _].
    + discriminate.
    + exact H.
  - destruct (aoj_sample_contents aoj_html_world (AOJProblem.cls "2256") None [])
      as [_ Hhtml].
    destruct (Hhtml _ _ _ _ _ "<h3>...</h3>"
                eq_refl eq_refl eq_refl eq_refl eq_refl eq_refl eq_refl eq_refl eq_refl)
      as [H _].
    rewrite H. reflexivity.
Defined.

(** C8 as stated fails on the HTML-fallback path: the [pre] of the first
    sample holds ["  1 2"], the test case returned holds ["1 2"] and a
    line feed; the two leading spaces are gone, which is more than a
    normalization of newlines. *)
Lemma aoj_html_sample_loses_leading_space :
  parse_content aoj_html_world (Tag "pre" [] [NavigableString "  1 2"]) = "  1 2"
  /\ fst (AOJProblem.download_sample_cases aoj_html_world (AOJProblem.cls "2256") None [])
     = OK [mkTestCase "sample-1" "Sample Input" (encode ("1 2" ++ LF))
             "Sample Output" (encode ("3" ++ LF))]
  /\ without_newlines ("1 2" ++ LF) <> without_newlines "  1 2".
Proof.
  split; [reflexivity|]. split; [vm_compute; reflexivity|].
  vm_compute. discriminate.
Qed.

(* ================================================================== *)
(** * Part III: further properties of the adapters *)
(* ================================================================== *)

(** ** White space

    [str.lstrip] and [str.strip] take the ideographic space (U+3000) and
    the no-break space (U+00A0) with the ASCII white space around
    them, and leave a character that only shares its first byte with
    one of them. *)

Lemma strip_unicode_white_space :
  lstrip (String (ascii_of_nat 227) (String (ascii_of_nat 128) (String (ascii_of_nat 128)
            (String (ascii_of_nat 194) (String (ascii_of_nat 160) "  1 2")))))
  = "1 2"
  /\ strip (String "009" (String (ascii_of_nat 194) (String (ascii_of_nat 160)
              ("1 2" ++ String (ascii_of_nat 227) (String (ascii_of_nat 128)
                          (String (ascii_of_nat 128) LF))))))
     = "1 2"
  /\ lstrip (String (ascii_of_nat 227) (String (ascii_of_nat 128) (String (ascii_of_nat 129) "1")))
     = String (ascii_of_nat 227) (String (ascii_of_nat 128) (String (ascii_of_nat 129) "1")).
Proof. repeat split; vm_compute; reflexivity. Qed.

(** ** What [urlparse] returns *)

Lemma str_filter_forallb p s : str_forallb p (str_filter p s) = true.
Proof.
  induction s as [|c s IH]; simpl; [reflexivity|].
  destruct (p c) eqn:Hc; simpl; [now rewrite Hc|exact IH].
Qed.

Lemma partition_spec c s h t :
  partition c s = Some (h, t) -> s = h ++ String c t /\ has_char c h = false.
Proof.
  revert h. induction s as [|a s IH]; intros h; simpl; [discriminate|].
  destruct (Ascii.eqb_spec a c) as [->|Hac].
  - intros [= <- <-]. split; reflexivity.
  - destruct (partition c s) as [[h' t']|]; [|discriminate].
    intros [= <- <-]. destruct (IH h' eq_refl) as [-> Hh]. split; [reflexivity|].
    simpl. rewrite Hh, orb_false_r. now apply Ascii.eqb_neq.
Qed.

Lemma span_spec p s h t :
  span p s = (h, t) -> s = h ++ t /\ str_forallb p h = true.
Proof.
  revert h. induction s as [|a s IH]; intros h; simpl.
  - intros [= <- <-]. split; reflexivity.
  - destruct (p a) eqn:Ha.
    + destruct (span p s) as [h' t']. intros [= <- <-].
      destruct (IH h' eq_refl) as [-> Hh]. split; [reflexivity|].
      simpl. now rewrite Ha, Hh.
    + intros [= <- <-]. split; reflexivity.
Qed.

Lemma strip_prefix_spec p s r : strip_prefix p s = Some r -> s = p ++ r.
Proof.
  revert s. induction p as [|a p IH]; intros s; simpl.
  - now intros [= ->].
  - destruct s as [|b s]; [discriminate|].
    destruct (Ascii.eqb_spec a b) as [->|]; [|discriminate].
    intros H. now rewrite (IH s H).
Qed.

Lemma re_plus_spec cls s run rest :
  re_plus cls s = Some (run, rest) ->
  s = run ++ rest /\ run <> "" /\ str_forallb cls run = true.
Proof.
  unfold re_plus. destruct (span cls s) as [h t] eqn:Hs.
  destruct (span_spec cls s h t Hs) as [-> Hh].
  destruct h; [discriminate|]. intros [= <- <-]. repeat split; [congruence | exact Hh].
Qed.

Lemma lstrip_by_forallb p q s :
  str_forallb q s = true -> str_forallb q (lstrip_by p s) = true.
Proof.
  induction s as [|a s IH]; simpl; [reflexivity|].
  intros H. destruct (p a); [|exact H].
  apply andb_true_iff in H. now apply IH.
Qed.

Lemma split_once_forallb q c s h t :
  split_once c s = (h, t) -> str_forallb q s = true ->
  str_forallb q h = true /\ str_forallb q t = true.
Proof.
  unfold split_once. destruct (partition c s) as [[h' t']|] eqn:Hp.
  - intros [= <- <-] Hq. destruct (partition_spec c s h' t' Hp) as [-> _].
    rewrite str_forallb_app in Hq. apply andb_true_iff in Hq. destruct Hq as [Hh Ht].
    simpl in Ht. apply andb_true_iff in Ht. now destruct Ht.
  - intros [= <- <-] Hq. split; [exact Hq | reflexivity].
Qed.

Lemma split_once_head_lacks c s h t :
  split_once c s = (h, t) -> t <> "" -> has_char c h = false.
Proof.
  unfold split_once. destruct (partition c s) as [[h' t']|] eqn:Hp.
  - intros [= <- <-] _. now destruct (partition_spec c s h' t' Hp).
  - intros [= <- <-]. congruence.
Qed.

Lemma split_scheme_forallb q u sch rest :
  split_scheme u = (sch, rest) -> str_forallb q u = true -> str_forallb q rest = true.
Proof.
  unfold split_scheme. destruct u as [|c0 u']; [now intros [= <- <-]|].
  destruct (is_alpha c0); [|now intros [= <- <-]].
  destruct (partition ":" (String c0 u')) as [[s r]|] eqn:Hp; [|now intros [= <- <-]].
  destruct (str_forallb scheme_char s); [|now intros [= <- <-]].
  intros [= <- <-] Hq. destruct (partition_spec _ _ _ _ Hp) as [E _]. rewrite E in Hq.
  rewrite str_forallb_app in Hq. apply andb_true_iff in Hq. destruct Hq as [_ Ht].
  simpl in Ht. apply andb_true_iff in Ht. now destruct Ht.
Qed.

Lemma split_netloc_forallb q u loc rest :
  split_netloc u = (loc, rest) -> str_forallb q u = true -> str_forallb q rest = true.
Proof.
  unfold split_netloc. destruct (strip_prefix "//" u) as [r|] eqn:Hp.
  - intros Hs Hq. rewrite (strip_prefix_spec _ _ _ Hp) in Hq.
    rewrite str_forallb_app in Hq. apply andb_true_iff in Hq. destruct Hq as [_ Hr].
    destruct (span_spec _ _ _ _ Hs) as [E _]. rewrite E, str_forallb_app in Hr.
    apply andb_true_iff in Hr. now destruct Hr.
  - now intros [= <- <-].
Qed.

(** The query [urlparse] returns holds no ['#'], TAB, CR or LF, and the
    fragment no TAB, CR or LF. *)
Lemma urlparse_query_fragment url r :
  urlparse url = OK r ->
  str_forallb query_char (query r) = true /\ str_forallb url_char (fragment r) = true.
Proof.
  unfold urlparse. destruct (urlsplit url) as [[[[[sch loc] p] qry] frag]|e] eqn:Hs;
    [|discriminate].
  assert (Hgoal : str_forallb query_char qry = true /\ str_forallb url_char frag = true).
  { revert Hs. unfold urlsplit.
    set (u0 := remove_unsafe (lstrip_by is_c0_or_space url)).
    assert (H0 : str_forallb url_char u0 = true) by apply str_filter_forallb.
    destruct (split_scheme u0) as [sch' u1] eqn:H1.
    pose proof (split_scheme_forallb _ _ _ _ H1 H0) as Hu1.
    destruct (split_netloc u1) as [loc' u2] eqn:H2.
    pose proof (split_netloc_forallb _ _ _ _ H2 Hu1) as Hu2.
    destruct (xorb _ _); [discriminate|].
    destruct (split_once "#" u2) as [u3 frag'] eqn:H3.
    destruct (split_once_forallb _ _ _ _ _ H3 Hu2) as [Hu3 Hfrag].
    destruct (split_once "?" u3) as [u4 qry'] eqn:H4.
    destruct (split_once_forallb _ _ _ _ _ H4 Hu3) as [_ Hqry].
    intros [= _ _ _ <- <-]. split; [|exact Hfrag].
    destruct qry' as [|qc qr] eqn:Eq; [reflexivity|]. rewrite <- Eq in *.
    assert (Hno : has_char "#" qry' = false).
    { unfold split_once in H3, H4.
      destruct (partition "?" u3) as [[a b]|] eqn:Hp4.
      - injection H4 as <- <-. destruct (partition_spec _ _ _ _ Hp4) as [E4 _].
        destruct (partition "#" u2) as [[a3 b3]|] eqn:Hp3.
        + injection H3 as <- <-. destruct (partition_spec _ _ _ _ Hp3) as [_ N3].
          rewrite E4, has_char_app in N3. apply orb_false_iff in N3. destruct N3 as [_ N3].
          simpl in N3. exact N3.
        + injection H3 as <- <-.
          assert (N3 : has_char "#" u2 = false).
          { clear -Hp3. induction u2 as [|x u IH]; simpl in *; [reflexivity|].
            destruct (Ascii.eqb x "#"); [discriminate|].
            destruct (partition "#" u) as [[? ?]|]; [discriminate|]. now apply IH. }
          rewrite E4, has_char_app in N3. apply orb_false_iff in N3. destruct N3 as [_ N3].
          simpl in N3. exact N3.
      - injection H4 as <- <-. subst. discriminate. }
    clear -Hqry Hno. induction qry' as [|x q IH]; simpl in *; [reflexivity|].
    apply andb_true_iff in Hqry. destruct Hqry as [Hx Hq].
    apply orb_false_iff in Hno. destruct Hno as [Nx Nq].
    rewrite (IH Hq Nq), andb_true_r. unfold query_char. rewrite Hx, Nx. reflexivity. }
  destruct (str_in_list sch uses_params && has_char ";" p).
  - destruct (splitparams p). now intros [= <-].
  - now intros [= <-].
Qed.

(** ** Every handle [from_url] returns is canonical *)

Lemma int_of_str_nonneg s z : int_of_str s = OK z -> (0 <= z)%Z.
Proof.
  unfold int_of_str. destruct s as [|c r]; [discriminate|].
  destruct (str_forallb is_digit (String c r)); [|discriminate].
  destruct (NilEmpty.uint_of_string (String c r)) as [d|]; [|discriminate].
  intros [= <-]. unfold Z.of_uint. apply N2Z.is_nonneg.
Qed.

Lemma nonempty_eqb s : s <> "" -> negb (s =? "") = true.
Proof. destruct s; [congruence | reflexivity]. Qed.

Lemma str_in_list_of_In s l : In s l -> str_in_list s l = true.
Proof.
  intros H. unfold str_in_list. apply existsb_exists. exists s. split; [exact H|].
  apply String.eqb_refl.
Qed.

Section Soundness.

Variable normpath : string -> string.

(** X1.  Whatever URL [AnarchyGolfProblem.from_url] resolves, the id of
    the handle is the non-empty query of the URL, on the host
    [golf.shinh.org] and an accepted scheme; it holds no ['#'], TAB, CR
    or LF, so the handle is canonical and its own [get_url] resolves
    back to it. *)
Theorem anarchygolf_from_url_sound (url : string) (p : AnarchyGolfProblem.t) :
  AnarchyGolfProblem.from_url normpath url = OK (Some p) ->
  (exists r, urlparse url = OK r /\ scheme_accepted r = true
             /\ netloc r = "golf.shinh.org"
             /\ AnarchyGolfProblem.problem_id p = query r)
  /\ AnarchyGolfProblem.canonical p = true
  /\ (keeps_path normpath (AnarchyGolfProblem.get_url p) ->
      AnarchyGolfProblem.from_url normpath (AnarchyGolfProblem.get_url p) = OK (Some p)).
Proof.
  unfold AnarchyGolfProblem.from_url. intros H.
  destruct (urlparse url) as [r|e] eqn:Hr; [|discriminate]. cbn [bind] in H.
  destruct (scheme_accepted r) eqn:Hs; [|discriminate].
  destruct (netloc r =? "golf.shinh.org") eqn:Hn; [|discriminate].
  destruct (normpath (path r) =? "/p.rb"); [|discriminate].
  destruct (negb (query r =? "")) eqn:Hq; [|discriminate].
  cbn [andb] in H. injection H as <-.
  assert (Hc : AnarchyGolfProblem.canonical (AnarchyGolfProblem.cls (query r)) = true).
  { unfold AnarchyGolfProblem.canonical. cbn [AnarchyGolfProblem.problem_id].
    rewrite Hq. now destruct (urlparse_query_fragment url r Hr) as [-> _]. }
  split; [|split; [exact Hc|]].
  - exists r. repeat split; auto. now apply String.eqb_eq.
  - intros Hk. now apply anarchygolf_problem_roundtrip.
Qed.

Lemma re_contest_challenge_sound p g1 g2 :
  HackerRankProblem.re_contest_challenge p = Some (g1, g2) ->
  HackerRankProblem.slug g1 = true /\ HackerRankProblem.slug g2 = true.
Proof.
  unfold HackerRankProblem.re_contest_challenge, obind, HackerRankProblem.slug.
  destruct (strip_prefix "/contests/" p) as [r1|]; [|discriminate].
  destruct (re_plus HackerRankProblem.slug_char r1) as [[a r2]|] eqn:H1; [|discriminate].
  destruct (strip_prefix "/challenges/" r2) as [r3|]; [|discriminate].
  destruct (re_plus HackerRankProblem.slug_char r3) as [[b r4]|] eqn:H2; [|discriminate].
  destruct (HackerRankProblem.re_problem_end r4); [|discriminate].
  intros [= <- <-].
  destruct (re_plus_spec _ _ _ _ H1) as (_ & Na & Ha).
  destruct (re_plus_spec _ _ _ _ H2) as (_ & Nb & Hb).
  now rewrite Ha, Hb, (nonempty_eqb a Na), (nonempty_eqb b Nb).
Qed.

Lemma re_challenge_sound p g1 :
  HackerRankProblem.re_challenge p = Some g1 -> HackerRankProblem.slug g1 = true.
Proof.
  unfold HackerRankProblem.re_challenge, obind, HackerRankProblem.slug.
  destruct (strip_prefix "/challenges/" p) as [r1|]; [|discriminate].
  destruct (re_plus HackerRankProblem.slug_char r1) as [[a r2]|] eqn:H1; [|discriminate].
  destruct (HackerRankProblem.re_problem_end r2); [|discriminate].
  intros [= <-]. destruct (re_plus_spec _ _ _ _ H1) as (_ & Na & Ha).
  now rewrite Ha, (nonempty_eqb a Na).
Qed.

(** X2.  Whatever URL [HackerRankProblem.from_url] resolves, on either
    host, both slugs of the handle are non-empty runs of [[0-9A-Za-z-]]
    (the contest slug is [master] for a URL without a contest), so the
    handle is canonical and its own [get_url] resolves back to it. *)
Theorem hackerrank_from_url_sound (url : string) (p : HackerRankProblem.t) :
  HackerRankProblem.from_url normpath url = OK (Some p) ->
  (exists r, urlparse url = OK r /\ scheme_accepted r = true
             /\ In (netloc r) hackerrank_hosts)
  /\ HackerRankProblem.canonical p = true
  /\ (keeps_path normpath (HackerRankProblem.get_url p) ->
      HackerRankProblem.from_url normpath (HackerRankProblem.get_url p) = OK (Some p)).
Proof.
  unfold HackerRankProblem.from_url. intros H.
  destruct (urlparse url) as [r|e] eqn:Hr; [|discriminate]. cbn [bind] in H.
  destruct (scheme_accepted r) eqn:Hs; [|discriminate].
  destruct (str_in_list (netloc r) hackerrank_hosts) eqn:Hn; [|discriminate].
  cbn [andb] in H.
  assert (Hc : HackerRankProblem.canonical p = true).
  { unfold HackerRankProblem.canonical.
    destruct (HackerRankProblem.re_contest_challenge (normpath (path r)))
      as [[g1 g2]|] eqn:H1.
    - injection H as <-. destruct (re_contest_challenge_sound _ _ _ H1) as [S1 S2].
      cbn [HackerRankProblem.contest_slug HackerRankProblem.challenge_slug].
      now rewrite S1, S2.
    - destruct (HackerRankProblem.re_challenge (normpath (path r))) as [g1|] eqn:H2;
        [|discriminate].
      injection H as <-.
      cbn [HackerRankProblem.contest_slug HackerRankProblem.challenge_slug].
      now rewrite (re_challenge_sound _ _ H2). }
  split; [|split; [exact Hc|]].
  - exists r. repeat split; auto. now apply str_in_list_In.
  - intros Hk. now apply hackerrank_problem_roundtrip.
Qed.

End Soundness.

Lemma anarchygolf_from_url_sound_witness :
  AnarchyGolfProblem.canonical (AnarchyGolfProblem.cls "hello+world?x") = true
  /\ AnarchyGolfProblem.from_url utils_normpath
       (AnarchyGolfProblem.get_url (AnarchyGolfProblem.cls "hello+world?x"))
     = OK (Some (AnarchyGolfProblem.cls "hello+world?x")).
Proof.
  destruct (anarchygolf_from_url_sound utils_normpath
              "https://golf.shinh.org//./p.rb?hello+world?x#top"
              (AnarchyGolfProblem.cls "hello+world?x") eq_refl) as (_ & Hc & Hr).
  split; [exact Hc | apply Hr; reflexivity].
Defined.

Lemma hackerrank_from_url_sound_witness :
  HackerRankProblem.canonical (HackerRankProblem.cls "master" "fp-hello-world") = true
  /\ HackerRankProblem.from_url utils_normpath
       (HackerRankProblem.get_url (HackerRankProblem.cls "master" "fp-hello-world"))
     = OK (Some (HackerRankProblem.cls "master" "fp-hello-world")).
Proof.
  destruct (hackerrank_from_url_sound utils_normpath
              "http://hackerrank.com/challenges/fp-hello-world/problem/"
              (HackerRankProblem.cls "master" "fp-hello-world") eq_refl) as (_ & Hc & Hr).
  split; [exact Hc | apply Hr; reflexivity].
Defined.

Lemma re_for_index_sound s i :
  CodeforcesProblem.re_for_index s = Some i -> CodeforcesProblem.url_index i = true.
Proof.
  unfold CodeforcesProblem.re_for_index. destruct s as [|c r]; [discriminate|].
  destruct (Ascii.eqb c "0" && at_end r) eqn:H0.
  - intros [= <-]. apply andb_true_iff in H0. destruct H0 as [H0 _].
    cbn. now rewrite H0.
  - destruct (is_alpha c) eqn:Hc; [|discriminate].
    destruct r as [|d r'].
    + intros [= <-]. cbn. now rewrite Hc, orb_true_r.
    + destruct (is_digit19 d && at_end r') eqn:Hd.
      * intros [= <-]. apply andb_true_iff in Hd. destruct Hd as [Hd _].
        cbn. now rewrite Hc, Hd.
      * destruct (at_end (String d r')); [|discriminate].
        intros [= <-]. cbn. now rewrite Hc, orb_true_r.
Qed.

Lemma normalize_index_canonical i :
  CodeforcesProblem.url_index i = true ->
  CodeforcesProblem.canonical_index (CodeforcesProblem.normalize_index i) = true.
Proof.
  intros Hi. destruct (String.eqb_spec i "0") as [->|Hne]; [reflexivity|].
  destruct (upper_url_index i Hi Hne) as (_ & -> & _).
  destruct i as [|c [|d [|e r]]]; cbn [CodeforcesProblem.url_index] in Hi; try discriminate.
  - assert (Hc : is_alpha c = true).
    { destruct (Ascii.eqb c "0") eqn:E; [|exact Hi].
      apply Ascii.eqb_eq in E. subst c. congruence. }
    cbn. revert Hc. clear. all_chars c.
  - apply andb_true_iff in Hi. destruct Hi as [Hc Hd]. cbn.
    rewrite (upper_char_fixes_digit d (digit19_is_digit d Hd)), Hd, andb_true_r.
    revert Hc. clear. all_chars c.
Qed.

Lemma cls_result n i kind co le st p :
  CodeforcesProblem.cls n i (Some kind) co le st = OK p ->
  p = CodeforcesProblem.mk n i kind co le st.
Proof.
  unfold CodeforcesProblem.cls.
  repeat match goal with |- context [if ?b then _ else Raise _] => destruct b end;
    try discriminate.
  now intros [= <-].
Qed.

Lemma of_match_plain_sound kind c i h :
  In kind ["contest"; "problemset"; "gym"] ->
  CodeforcesProblem.url_index i = true ->
  CodeforcesProblem.of_match kind (CodeforcesProblem.mkGroups c i None None None)
  = OK (Some h) ->
  CodeforcesProblem.canonical h = true.
Proof.
  intros Hk Hi. unfold CodeforcesProblem.of_match.
  cbn [CodeforcesProblem.g_contest CodeforcesProblem.g_index].
  assert (Hedu : (kind =? "edu") = false).
  { cbn in Hk. destruct Hk as [<-|[<-|[<-|[]]]]; reflexivity. }
  rewrite Hedu. destruct (int_of_str c) as [n|e] eqn:Hn; [|discriminate]. cbn [bind].
  destruct (CodeforcesProblem.cls n _ (Some kind) None None None) as [self|e] eqn:Hc;
    [|discriminate].
  cbn [bind]. intros [= <-]. rewrite (cls_result _ _ _ _ _ _ _ Hc).
  unfold CodeforcesProblem.canonical.
  cbn [CodeforcesProblem.contest_id CodeforcesProblem.index CodeforcesProblem.kind
       CodeforcesProblem.course CodeforcesProblem.lesson CodeforcesProblem.step
       CodeforcesProblem.is_none].
  rewrite Hedu, (normalize_index_canonical i Hi), (str_in_list_of_In _ _ Hk).
  apply int_of_str_nonneg in Hn. apply Z.leb_le in Hn. now rewrite Hn.
Qed.

Lemma of_match_edu_sound c i co le st h :
  CodeforcesProblem.url_index i = true ->
  CodeforcesProblem.of_match "edu"
    (CodeforcesProblem.mkGroups c i (Some co) (Some le) (Some st)) = OK (Some h) ->
  CodeforcesProblem.canonical h = true.
Proof.
  intros Hi. unfold CodeforcesProblem.of_match.
  cbn [CodeforcesProblem.g_contest CodeforcesProblem.g_index CodeforcesProblem.g_course
       CodeforcesProblem.g_lesson CodeforcesProblem.g_step CodeforcesProblem.int_of_group].
  change ("edu" =? "edu") with true. cbv iota.
  destruct (int_of_str c) as [n|e] eqn:Hn; [|discriminate]. cbn [bind].
  destruct (int_of_str co) as [nco|e] eqn:Hco; [|discriminate]. cbn [bind].
  destruct (int_of_str le) as [nle|e] eqn:Hle; [|discriminate]. cbn [bind].
  destruct (int_of_str st) as [nst|e] eqn:Hst; [|discriminate]. cbn [bind].
  destruct (CodeforcesProblem.cls n _ (Some "edu") _ _ _) as [self|e] eqn:Hc;
    [|discriminate].
  cbn [bind]. intros [= <-]. rewrite (cls_result _ _ _ _ _ _ _ Hc).
  unfold CodeforcesProblem.canonical.
  cbn [CodeforcesProblem.contest_id CodeforcesProblem.index CodeforcesProblem.kind
       CodeforcesProblem.course CodeforcesProblem.lesson CodeforcesProblem.step
       CodeforcesProblem.nonneg].
  change ("edu" =? "edu") with true. cbv iota.
  rewrite (normalize_index_canonical i Hi).
  apply int_of_str_nonneg in Hn, Hco, Hle, Hst.
  apply Z.leb_le in Hn, Hco, Hle, Hst. now rewrite Hn, Hco, Hle, Hst.
Qed.

Lemma codeforces_table_sound path h :
  first_match CodeforcesProblem.table path CodeforcesProblem.of_match = OK (Some h) ->
  CodeforcesProblem.canonical h = true.
Proof.
  unfold CodeforcesProblem.table. cbn [first_match].
  destruct (CodeforcesProblem.re_contest_problem "contest" path) as [m|] eqn:H1.
  { revert H1. unfold CodeforcesProblem.re_contest_problem, obind.
    destruct (strip_prefix _ path) as [r1|]; [|discriminate].
    destruct (re_plus is_digit r1) as [[c r2]|]; [|discriminate].
    destruct (strip_prefix "/problem/" r2) as [r3|]; [|discriminate].
    destruct (CodeforcesProblem.re_for_index r3) as [i|] eqn:Hi; [|discriminate].
    intros [= <-]. apply of_match_plain_sound; [now left | exact (re_for_index_sound _ _ Hi)]. }
  destruct (CodeforcesProblem.re_problemset path) as [m|] eqn:H2.
  { revert H2. unfold CodeforcesProblem.re_problemset, obind.
    destruct (strip_prefix _ path) as [r1|]; [|discriminate].
    destruct (re_plus is_digit r1) as [[c r2]|]; [|discriminate].
    destruct (strip_prefix "/" r2) as [r3|]; [|discriminate].
    destruct (CodeforcesProblem.re_for_index r3) as [i|] eqn:Hi; [|discriminate].
    intros [= <-]. apply of_match_plain_sound;
      [right; now left | exact (re_for_index_sound _ _ Hi)]. }
  destruct (CodeforcesProblem.re_contest_problem "gym" path) as [m|] eqn:H3.
  { revert H3. unfold CodeforcesProblem.re_contest_problem, obind.
    destruct (strip_prefix _ path) as [r1|]; [|discriminate].
    destruct (re_plus is_digit r1) as [[c r2]|]; [|discriminate].
    destruct (strip_prefix "/problem/" r2) as [r3|]; [|discriminate].
    destruct (CodeforcesProblem.re_for_index r3) as [i|] eqn:Hi; [|discriminate].
    intros [= <-]. apply of_match_plain_sound;
      [right; right; now left | exact (re_for_index_sound _ _ Hi)]. }
  destruct (CodeforcesProblem.re_edu path) as [m|] eqn:H4; [|discriminate].
  revert H4. unfold CodeforcesProblem.re_edu, obind, re_star.
  destruct (strip_prefix _ path) as [r1|]; [|discriminate].
  destruct (span is_digit r1) as [co r2].
  destruct (strip_prefix "/lesson/" r2) as [r3|]; [|discriminate].
  destruct (span is_digit r3) as [le r4].
  destruct (strip_prefix "/" r4) as [r5|]; [|discriminate].
  destruct (span is_digit r5) as [st r6].
  destruct (strip_prefix "/practice/contest/" r6) as [r7|]; [|discriminate].
  destruct (span is_digit r7) as [c r8].
  destruct (strip_prefix "/problem/" r8) as [r9|]; [|discriminate].
  destruct (CodeforcesProblem.re_for_index r9) as [i|] eqn:Hi; [|discriminate].
  intros [= <-]. apply of_match_edu_sound. exact (re_for_index_sound _ _ Hi).
Qed.

Section SoundnessCodeforces.

Variable normpath : string -> string.

(** X3.  Whatever URL [CodeforcesProblem.from_url] resolves, on any of the
    four hosts, the handle has a natural number as contest id, an index
    made of an uppercase letter and possibly a digit from 1 to 9, the
    kind of the pattern that matched, and the course coordinates exactly
    for kind [edu]; so it is canonical and its own [get_url] resolves
    back to it. *)
Theorem codeforces_problem_from_url_sound (url : string) (p : CodeforcesProblem.t) :
  CodeforcesProblem.from_url normpath url = OK (Some p) ->
  (exists r, urlparse url = OK r /\ scheme_accepted r = true
             /\ In (netloc r) _CODEFORCES_DOMAINS)
  /\ CodeforcesProblem.canonical p = true
  /\ ((forall u, CodeforcesProblem.get_url p = OK u -> keeps_path normpath u) ->
      (u <- CodeforcesProblem.get_url p ;; CodeforcesProblem.from_url normpath u)%result
      = OK (Some p)).
Proof.
  unfold CodeforcesProblem.from_url. intros H.
  destruct (urlparse url) as [r|e] eqn:Hr; [|discriminate]. cbn [bind] in H.
  destruct (scheme_accepted r) eqn:Hs; [|discriminate].
  destruct (str_in_list (netloc r) _CODEFORCES_DOMAINS) eqn:Hn; [|discriminate].
  cbn [andb] in H. pose proof (codeforces_table_sound _ _ H) as Hc.
  split; [|split; [exact Hc|]].
  - exists r. repeat split; auto. now apply str_in_list_In.
  - intros Hk. now apply codeforces_problem_roundtrip.
Qed.

(** X4.  Whatever URL [CodeforcesContest.from_url] resolves, the handle
    has a natural number as id and the kind [contest] or [gym] of the
    pattern that matched, so it is canonical and its own [get_url]
    resolves back to it. *)
Theorem codeforces_contest_from_url_sound (url : string) (c : CodeforcesContest.t) :
  CodeforcesContest.from_url normpath url = OK (Some c) ->
  (exists r, urlparse url = OK r /\ scheme_accepted r = true
             /\ In (netloc r) _CODEFORCES_DOMAINS)
  /\ CodeforcesContest.canonical c = true
  /\ (keeps_path normpath (CodeforcesContest.get_url c) ->
      CodeforcesContest.from_url normpath (CodeforcesContest.get_url c) = OK (Some c)).
Proof.
  unfold CodeforcesContest.from_url. intros H.
  destruct (urlparse url) as [r|e] eqn:Hr; [|discriminate]. cbn [bind] in H.
  destruct (scheme_accepted r) eqn:Hs; [|discriminate].
  destruct (str_in_list (netloc r) _CODEFORCES_DOMAINS) eqn:Hn; [|discriminate].
  cbn [andb] in H.
  assert (Hc : CodeforcesContest.canonical c = true).
  { revert H. unfold CodeforcesContest.table. cbn [first_match].
    assert (Hrow : forall kind g1,
              In kind ["contest"; "gym"] ->
              CodeforcesContest.of_match kind g1 = OK (Some c) ->
              CodeforcesContest.canonical c = true).
    { intros kind g1 Hk. unfold CodeforcesContest.of_match.
      destruct (int_of_str g1) as [n|e] eqn:Hg; [|discriminate]. cbn [bind].
      unfold CodeforcesContest.cls. cbn [kind_in infer_kind].
      rewrite (str_in_list_of_In _ _ Hk). cbn [bind]. intros [= <-].
      unfold CodeforcesContest.canonical.
      cbn [CodeforcesContest.contest_id CodeforcesContest.kind].
      rewrite (str_in_list_of_In _ _ Hk).
      apply int_of_str_nonneg in Hg. apply Z.leb_le in Hg. now rewrite Hg. }
    destruct (CodeforcesContest.re_contest "contest" _) as [g1|].
    - apply Hrow. now left.
    - destruct (CodeforcesContest.re_contest "gym" _) as [g1|]; [|discriminate].
      apply Hrow. right. now left. }
  split; [|split; [exact Hc|]].
  - exists r. repeat split; auto. now apply str_in_list_In.
  - intros Hk. now apply codeforces_contest_roundtrip.
Qed.

End SoundnessCodeforces.

Lemma codeforces_problem_from_url_sound_witness :
  CodeforcesProblem.canonical (CodeforcesProblem.mk 700 "B" "problemset" None None None) = true
  /\ (u <- CodeforcesProblem.get_url
             (CodeforcesProblem.mk 700 "B" "problemset" None None None) ;;
      CodeforcesProblem.from_url utils_normpath u)%result
     = OK (Some (CodeforcesProblem.mk 700 "B" "problemset" None None None)).
Proof.
  destruct (codeforces_problem_from_url_sound utils_normpath
              "http://m2.codeforces.com/problemset/problem/0700/b/"
              (CodeforcesProblem.mk 700 "B" "problemset" None None None) eq_refl)
    as (_ & Hc & Hr).
  split; [exact Hc|]. apply Hr.
  intros u Hu. vm_compute in Hu. injection Hu as <-. reflexivity.
Defined.

Lemma codeforces_contest_from_url_sound_witness :
  CodeforcesContest.canonical (CodeforcesContest.mk 101021 "gym") = true
  /\ CodeforcesContest.from_url utils_normpath
       (CodeforcesContest.get_url (CodeforcesContest.mk 101021 "gym"))
     = OK (Some (CodeforcesContest.mk 101021 "gym")).
Proof.
  destruct (codeforces_contest_from_url_sound utils_normpath
              "https://codeforces.com/gym/101021/problem/A"
              (CodeforcesContest.mk 101021 "gym") eq_refl) as (_ & Hc & Hr).
  split; [exact Hc | apply Hr; reflexivity].
Defined.

(** ** What [split] returns *)

Lemma split_on_nonempty c s : split_on c s <> [].
Proof.
  destruct s as [|a r]; simpl; [discriminate|].
  destruct (Ascii.eqb a c); [discriminate|].
  destruct (split_on c r); discriminate.
Qed.

Lemma split_on_pieces (p : ascii -> bool) c s :
  str_forallb p s = true ->
  forallb (fun f => str_forallb p f && negb (has_char c f)) (split_on c s) = true.
Proof.
  induction s as [|a r IH]; [reflexivity|].
  cbn [str_forallb split_on]. intros H. apply andb_true_iff in H. destruct H as [Ha Hr].
  specialize (IH Hr). destruct (Ascii.eqb a c) eqn:E.
  - cbn [forallb str_forallb has_char negb andb]. exact IH.
  - destruct (split_on c r) as [|h t]; [cbn; now rewrite Ha, E|].
    cbn [forallb] in *. apply andb_true_iff in IH. destruct IH as [Hh Ht].
    cbn [str_forallb has_char]. rewrite Ha, E, Ht. cbn [andb orb]. now rewrite Hh.
Qed.

Section SoundnessArena.

Variable normpath : string -> string.

(** X5.  Whatever URL of ASCII characters [AOJArenaProblem.from_url]
    resolves, the handle has an arena id without a slash and, as its
    letter, the uppercased last part of the fragment, a substring of
    the uppercase alphabet; its memo slot is empty; so it is canonical
    and its own [get_url] resolves back to it. *)
Theorem aoj_arena_from_url_sound (url : string) (p : AOJArenaProblem.t) :
  ascii_text url = true ->
  AOJArenaProblem.from_url normpath url = OK (Some p) ->
  (exists r, urlparse url = OK r /\ scheme_accepted r = true
             /\ netloc r = "onlinejudge.u-aizu.ac.jp"
             /\ exists l, split_on "/" (fragment r)
                          = [AOJArenaProblem.arena_id p; "problems"; l]
                          /\ AOJArenaProblem.alphabet p = upper l)
  /\ AOJArenaProblem._problem_id p = None
  /\ AOJArenaProblem.canonical p = true
  /\ (keeps_path normpath (AOJArenaProblem.get_url p) ->
      AOJArenaProblem.from_url normpath (AOJArenaProblem.get_url p) = OK (Some p)).
Proof.
  unfold AOJArenaProblem.from_url. intros _ H.
  destruct (urlparse url) as [r|e] eqn:Hr; [|discriminate]. cbn [bind] in H.
  destruct (scheme_accepted r) eqn:Hs; [|discriminate].
  destruct (String.eqb_spec (netloc r) "onlinejudge.u-aizu.ac.jp") as [Hn|]; [|discriminate].
  cbn [andb] in H.
  destruct (normpath (path r) =? "/services/room.html"); [|discriminate].
  pose proof (split_on_pieces url_char "/" (fragment r)
                (proj2 (urlparse_query_fragment url r Hr))) as Hp.
  destruct (split_on "/" (fragment r)) as [|f0 [|f1 [|f2 [|f3 t]]]] eqn:Hf; try discriminate.
  destruct (String.eqb_spec f1 "problems") as [->|]; [|discriminate].
  unfold AOJArenaProblem.cls in H.
  destruct (contains (upper f2) ascii_uppercase) eqn:Hup; [|discriminate].
  cbn [bind] in H. injection H as <-.
  assert (Hc : AOJArenaProblem.canonical (AOJArenaProblem.mk f0 (upper f2) None) = true).
  { unfold AOJArenaProblem.canonical.
    cbn [AOJArenaProblem.arena_id AOJArenaProblem.alphabet]. rewrite Hup, andb_true_r.
    cbn [forallb] in Hp. apply andb_true_iff in Hp. destruct Hp as [Hp _].
    apply andb_true_iff in Hp. destruct Hp as [Hu Hno]. clear -Hu Hno.
    induction f0 as [|a f0 IH]; [reflexivity|].
    cbn [str_forallb has_char] in *. apply andb_true_iff in Hu. destruct Hu as [Ha Hu].
    rewrite negb_orb in Hno. apply andb_true_iff in Hno. destruct Hno as [Hna Hno].
    unfold AOJArenaProblem.arena_char at 1. rewrite Ha, Hna. cbn [andb]. now apply IH. }
  split; [|split; [reflexivity|split; [exact Hc|]]].
  - exists r. repeat split; auto. exists f2. split; [exact Hf | reflexivity].
  - intros Hk. exact (aoj_arena_problem_roundtrip normpath _ Hc Hk).
Qed.

(** X6.  An arena URL whose fragment ends in ASCII characters that are
    something else than letters of one run of the alphabet is not
    declined with [None]: the constructor's assertion fails and
    [from_url] raises. *)
Theorem aoj_arena_from_url_raises (arena l : string) :
  str_forallb AOJArenaProblem.arena_char arena = true ->
  str_forallb AOJArenaProblem.arena_char l = true ->
  ascii_text l = true ->
  contains (upper l) ascii_uppercase = false ->
  keeps_path normpath (aoj_arena_url arena l) ->
  AOJArenaProblem.from_url normpath (aoj_arena_url arena l) = Raise AssertionError.
Proof.
  intros Ha Hl _ Hup Hnp. unfold keeps_path, aoj_arena_url in *.
  assert (Hparse : urlparse ("https://onlinejudge.u-aizu.ac.jp/services/room.html#"
                             ++ arena ++ "/problems/" ++ l)
                   = OK (mkParse "https" "onlinejudge.u-aizu.ac.jp" "/services/room.html"
                           "" "" (arena ++ "/problems/" ++ l))).
  { apply (urlparse_path_fragment "https" "onlinejudge.u-aizu.ac.jp" "services/room.html"
             (arena ++ "/problems/" ++ l)); auto.
    rewrite !str_forallb_app.
    rewrite (str_forallb_impl AOJArenaProblem.arena_char url_char arena); auto.
    2:{ intros c. all_chars c. }
    rewrite (str_forallb_impl AOJArenaProblem.arena_char url_char l); auto.
    intros c. all_chars c. }
  unfold url_path in Hnp. rewrite Hparse in Hnp. cbn [path] in Hnp.
  unfold AOJArenaProblem.from_url. rewrite Hparse.
  cbn [bind scheme netloc path fragment]. rewrite Hnp.
  change (scheme_accepted _ && _ && _) with true. cbv iota.
  change (arena ++ "/problems/" ++ l) with (arena ++ String "/" ("problems" ++ String "/" l)).
  rewrite (split_on_first "/" arena _
             (has_char_none AOJArenaProblem.arena_char "/" _ eq_refl Ha)).
  rewrite (split_on_first "/" "problems" l eq_refl).
  rewrite (split_on_absent "/" l (has_char_none AOJArenaProblem.arena_char "/" _ eq_refl Hl)).
  change ("problems" =? "problems") with true. cbv iota.
  unfold AOJArenaProblem.cls. rewrite Hup. reflexivity.
Qed.

End SoundnessArena.

Lemma aoj_arena_from_url_sound_witness :
  AOJArenaProblem.canonical (AOJArenaProblem.mk "RitsCamp19Day2" "A" None) = true
  /\ AOJArenaProblem.from_url utils_normpath
       (AOJArenaProblem.get_url (AOJArenaProblem.mk "RitsCamp19Day2" "A" None))
     = OK (Some (AOJArenaProblem.mk "RitsCamp19Day2" "A" None)).
Proof.
  destruct (aoj_arena_from_url_sound utils_normpath
              "//onlinejudge.u-aizu.ac.jp/services/./room.html?x#RitsCamp19Day2/problems/a"
              (AOJArenaProblem.mk "RitsCamp19Day2" "A" None) eq_refl eq_refl)
    as (_ & _ & Hc & Hr).
  split; [exact Hc | apply Hr; reflexivity].
Defined.

Lemma aoj_arena_from_url_raises_witness :
  AOJArenaProblem.from_url utils_normpath
    "https://onlinejudge.u-aizu.ac.jp/services/room.html#RitsCamp19Day2/problems/1"
  = Raise AssertionError.
Proof.
  apply (aoj_arena_from_url_raises utils_normpath "RitsCamp19Day2" "1");
    reflexivity.
Defined.

(** ** Problems and their services *)

Section Dispatch.

Variable normpath : string -> string.

(** X7.  Every URL a problem or contest class resolves is a URL of its
    service: when [from_url] of the class returns a handle, [from_url]
    of the service of that handle returns the service. *)
Theorem problem_url_is_service_url (url : string) :
  (forall p, AnarchyGolfProblem.from_url normpath url = OK (Some p) ->
     AnarchyGolfService.from_url url = OK (Some (AnarchyGolfProblem.get_service p)))
  /\ (forall p, HackerRankProblem.from_url normpath url = OK (Some p) ->
        HackerRankService.from_url url = OK (Some (HackerRankProblem.get_service p)))
  /\ (forall p, AOJProblem.from_url normpath url = OK (Some p) ->
        AOJService.from_url url = OK (Some (AOJProblem.get_service p)))
  /\ (forall p, AOJArenaProblem.from_url normpath url = OK (Some p) ->
        AOJService.from_url url = OK (Some (AOJArenaProblem.get_service p)))
  /\ (forall p, CodeforcesProblem.from_url normpath url = OK (Some p) ->
        CodeforcesService.from_url url = OK (Some (CodeforcesProblem.get_service p)))
  /\ (forall c, CodeforcesContest.from_url normpath url = OK (Some c) ->
        CodeforcesService.from_url url = OK (Some (CodeforcesContest.get_service c))).
Proof.
  unfold AnarchyGolfProblem.from_url, AnarchyGolfService.from_url,
    HackerRankProblem.from_url, HackerRankService.from_url,
    AOJProblem.from_url, AOJArenaProblem.from_url, AOJService.from_url,
    CodeforcesProblem.from_url, CodeforcesContest.from_url, CodeforcesService.from_url.
  destruct (urlparse url) as [r|e]; cbn [bind].
  2:{ repeat split; intros p H; discriminate. }
  destruct (scheme_accepted r); cbn [andb].
  2:{ repeat split; intros p H; discriminate. }
  split; [|split; [|split; [|split; [|split]]]]; intros p.
  - destruct (netloc r =? "golf.shinh.org"); [reflexivity | discriminate].
  - destruct (str_in_list (netloc r) hackerrank_hosts); [reflexivity | discriminate].
  - unfold str_in_list. cbn [existsb].
    destruct (netloc r =? "judge.u-aizu.ac.jp"); [reflexivity|].
    destruct (netloc r =? "onlinejudge.u-aizu.ac.jp"); [reflexivity | discriminate].
  - unfold str_in_list. cbn [existsb].
    destruct (netloc r =? "onlinejudge.u-aizu.ac.jp");
      [now rewrite orb_true_r | discriminate].
  - destruct (str_in_list (netloc r) _CODEFORCES_DOMAINS); [reflexivity | discriminate].
  - destruct (str_in_list (netloc r) _CODEFORCES_DOMAINS); [reflexivity | discriminate].
Qed.

End Dispatch.

Lemma problem_url_is_service_url_witness :
  AOJService.from_url "https://onlinejudge.u-aizu.ac.jp/problems/0423" = OK (Some AOJService.cls)
  /\ CodeforcesService.from_url "https://codeforces.com/gym/101021/problem/A"
     = OK (Some CodeforcesService.cls).
Proof.
  destruct (problem_url_is_service_url utils_normpath
              "https://onlinejudge.u-aizu.ac.jp/problems/0423") as (_ & _ & Haoj & _).
  destruct (problem_url_is_service_url utils_normpath
              "https://codeforces.com/gym/101021/problem/A") as (_ & _ & _ & _ & Hcf & _).
  split.
  - exact (Haoj (AOJProblem.cls "0423") eq_refl).
  - exact (Hcf (CodeforcesProblem.mk 101021 "A" "gym" None None None) eq_refl).
Defined.

(** ** The contest of a Codeforces problem *)

Section ContestOfProblem.

Variable normpath : string -> string.

(** X8.  For a canonical [CodeforcesProblem] of kind [contest] or [gym],
    [get_contest] returns the contest of the same id and kind, and that is
    also what [CodeforcesContest.from_url] makes of the URL of the
    problem.  For the kinds [problemset] and [edu], [get_contest] fails
    its assertion and [CodeforcesContest.from_url] declines the URL of
    the problem with [None]. *)
Theorem codeforces_contest_of_problem (p : CodeforcesProblem.t) :
  CodeforcesProblem.canonical p = true ->
  (forall u, CodeforcesProblem.get_url p = OK u -> keeps_path normpath u) ->
  (In (CodeforcesProblem.kind p) ["contest"; "gym"] ->
   CodeforcesProblem.get_contest p
   = OK (CodeforcesContest.mk (CodeforcesProblem.contest_id p) (CodeforcesProblem.kind p))
   /\ (u <- CodeforcesProblem.get_url p ;; CodeforcesContest.from_url normpath u)%result
      = OK (Some (CodeforcesContest.mk (CodeforcesProblem.contest_id p)
                    (CodeforcesProblem.kind p))))
  /\ (In (CodeforcesProblem.kind p) ["problemset"; "edu"] ->
      CodeforcesProblem.get_contest p = Raise AssertionError
      /\ (u <- CodeforcesProblem.get_url p ;; CodeforcesContest.from_url normpath u)%result
         = OK None).
Proof.
  destruct p as [cid idx kind co le st]. unfold CodeforcesProblem.canonical, keeps_path.
  cbn [CodeforcesProblem.contest_id CodeforcesProblem.index CodeforcesProblem.kind
       CodeforcesProblem.course CodeforcesProblem.lesson CodeforcesProblem.step].
  intros Hc Hnp. apply andb_true_iff in Hc. destruct Hc as [Hc Hk].
  apply andb_true_iff in Hc. destruct Hc as [Hcid Hidx].
  apply Z.leb_le in Hcid.
  destruct (str_of_int_shape cid Hcid) as (Hn0 & Hnd & Hni).
  pose proof (str_forallb_impl _ _ _ digit_is_path_char Hnd) as Pn.
  pose proof (url_index_path_chars idx (canonical_index_is_url_index idx Hidx)) as Pi.
  assert (Hplain : forall k rest,
            In k ["contest"; "gym"] ->
            normpath (String "/" (k ++ "/" ++ str_of_int cid ++ String "/" rest))
            = String "/" (k ++ "/" ++ str_of_int cid ++ String "/" rest) ->
            first_match CodeforcesContest.table
              (normpath (String "/" (k ++ "/" ++ str_of_int cid ++ String "/" rest)))
              CodeforcesContest.of_match
            = OK (Some (CodeforcesContest.mk cid k))).
  { intros k rest Hin ->. unfold CodeforcesContest.table. cbn [first_match].
    cbn in Hin. destruct Hin as [<-|[<-|[]]].
    - unfold CodeforcesContest.re_contest at 1.
      change (String "/" ("contest" ++ "/" ++ str_of_int cid ++ String "/" rest))
        with (("/" ++ "contest" ++ "/") ++ str_of_int cid ++ String "/" rest).
      rewrite strip_prefix_app. cbv beta iota delta [obind].
      rewrite (re_plus_stop _ _ "/" _ Hn0 Hnd eq_refl).
      unfold CodeforcesContest.of_match. rewrite Hni. reflexivity.
    - change (CodeforcesContest.re_contest "contest"
                (String "/" ("gym" ++ "/" ++ str_of_int cid ++ String "/" rest)))
        with (@None string).
      cbv iota. unfold CodeforcesContest.re_contest.
      change (String "/" ("gym" ++ "/" ++ str_of_int cid ++ String "/" rest))
        with (("/" ++ "gym" ++ "/") ++ str_of_int cid ++ String "/" rest).
      rewrite strip_prefix_app. cbv beta iota delta [obind].
      rewrite (re_plus_stop _ _ "/" _ Hn0 Hnd eq_refl).
      unfold CodeforcesContest.of_match. rewrite Hni. reflexivity. }
  split.
  - intros Hin.
    assert (Hne : (kind =? "edu") = false)
      by (cbn in Hin; destruct Hin as [<-|[<-|[]]]; reflexivity).
    split.
    { unfold CodeforcesProblem.get_contest, CodeforcesContest.cls.
      cbn [CodeforcesProblem.kind CodeforcesProblem.contest_id kind_in infer_kind].
      cbn in Hin. destruct Hin as [<-|[<-|[]]]; reflexivity. }
    assert (Hget : CodeforcesProblem.get_url (CodeforcesProblem.mk cid idx kind co le st)
                   = OK ("https" ++ "://" ++ "codeforces.com"
                           ++ String "/" (kind ++ "/" ++ str_of_int cid
                                            ++ String "/" ("problem/" ++ idx)))).
    { cbn in Hin. destruct Hin as [<-|[<-|[]]]; reflexivity. }
    assert (Hparse : urlparse ("https" ++ "://" ++ "codeforces.com"
                                 ++ String "/" (kind ++ "/" ++ str_of_int cid
                                                  ++ String "/" ("problem/" ++ idx)))
                     = OK (mkParse "https" "codeforces.com"
                             (String "/" (kind ++ "/" ++ str_of_int cid
                                            ++ String "/" ("problem/" ++ idx))) "" "" "")).
    { apply urlparse_path; auto.
      cbn in Hin. destruct Hin as [<-|[<-|[]]].
      - change ("contest" ++ "/" ++ str_of_int cid ++ String "/" ("problem/" ++ idx))
          with ("contest/" ++ str_of_int cid ++ "/problem/" ++ idx).
        now rewrite !str_forallb_app, Pn, Pi.
      - change ("gym" ++ "/" ++ str_of_int cid ++ String "/" ("problem/" ++ idx))
          with ("gym/" ++ str_of_int cid ++ "/problem/" ++ idx).
        now rewrite !str_forallb_app, Pn, Pi. }
    specialize (Hnp _ Hget). unfold url_path in Hnp. rewrite Hparse in Hnp.
    cbn [path] in Hnp. rewrite Hget. cbn [bind].
    unfold CodeforcesContest.from_url. rewrite Hparse. cbn [bind scheme netloc path].
    change (scheme_accepted _ && str_in_list _ _CODEFORCES_DOMAINS) with true. cbv iota.
    now apply Hplain.
  - intros Hin. split.
    { unfold CodeforcesProblem.get_contest. cbn [CodeforcesProblem.kind].
      cbn in Hin. destruct Hin as [<-|[<-|[]]]; reflexivity. }
    cbn in Hin. destruct Hin as [<-|[<-|[]]].
    + assert (Hget : CodeforcesProblem.get_url
                       (CodeforcesProblem.mk cid idx "problemset" co le st)
                     = OK ("https" ++ "://" ++ "codeforces.com"
                             ++ String "/" ("problemset/problem/" ++ str_of_int cid
                                              ++ "/" ++ idx))) by reflexivity.
      assert (Hparse : urlparse ("https" ++ "://" ++ "codeforces.com"
                                   ++ String "/" ("problemset/problem/" ++ str_of_int cid
                                                    ++ "/" ++ idx))
                       = OK (mkParse "https" "codeforces.com"
                               (String "/" ("problemset/problem/" ++ str_of_int cid
                                              ++ "/" ++ idx)) "" "" "")).
      { apply urlparse_path; auto. now rewrite !str_forallb_app, Pn, Pi. }
      specialize (Hnp _ Hget). unfold url_path in Hnp. rewrite Hparse in Hnp.
      cbn [path] in Hnp. rewrite Hget. cbn [bind].
      unfold CodeforcesContest.from_url. rewrite Hparse. cbn [bind scheme netloc path].
      rewrite Hnp. reflexivity.
    + cbn [andb] in Hk.
      apply andb_true_iff in Hk. destruct Hk as [Hk Hst].
      apply andb_true_iff in Hk. destruct Hk as [Hco Hle].
      destruct co as [co|]; [|discriminate]. destruct le as [le|]; [|discriminate].
      destruct st as [st|]; [|discriminate]. cbn [CodeforcesProblem.nonneg] in *.
      apply Z.leb_le in Hco, Hle, Hst.
      destruct (str_of_int_shape co Hco) as (_ & Hcod & _).
      destruct (str_of_int_shape le Hle) as (_ & Hled & _).
      destruct (str_of_int_shape st Hst) as (_ & Hstd & _).
      set (pth := "edu/course/" ++ str_of_int co ++ "/lesson/" ++ str_of_int le ++ "/"
                    ++ str_of_int st ++ "/practice/contest/" ++ str_of_int cid
                    ++ "/problem/" ++ idx).
      assert (Hget : CodeforcesProblem.get_url
                       (CodeforcesProblem.mk cid idx "edu" (Some co) (Some le) (Some st))
                     = OK ("https" ++ "://" ++ "codeforces.com" ++ String "/" pth))
        by reflexivity.
      assert (Hparse : urlparse ("https" ++ "://" ++ "codeforces.com" ++ String "/" pth)
                       = OK (mkParse "https" "codeforces.com" (String "/" pth) "" "" "")).
      { apply urlparse_path; auto. unfold pth. rewrite !str_forallb_app.
        rewrite (str_forallb_impl _ _ _ digit_is_path_char Hcod).
        rewrite (str_forallb_impl _ _ _ digit_is_path_char Hled).
        rewrite (str_forallb_impl _ _ _ digit_is_path_char Hstd).
        now rewrite Pn, Pi. }
      specialize (Hnp _ Hget). unfold url_path in Hnp. rewrite Hparse in Hnp.
      cbn [path] in Hnp. rewrite Hget. cbn [bind].
      unfold CodeforcesContest.from_url. rewrite Hparse. cbn [bind scheme netloc path].
      rewrite Hnp. reflexivity.
Qed.

End ContestOfProblem.

Lemma codeforces_contest_of_problem_witness :
  CodeforcesProblem.get_contest (CodeforcesProblem.mk 101021 "A" "gym" None None None)
  = OK (CodeforcesContest.mk 101021 "gym")
  /\ CodeforcesContest.from_url utils_normpath "https://codeforces.com/gym/101021/problem/A"
     = OK (Some (CodeforcesContest.mk 101021 "gym")).
Proof.
  destruct (codeforces_contest_of_problem utils_normpath
              (CodeforcesProblem.mk 101021 "A" "gym" None None None) eq_refl) as [H _].
  - intros u Hu. vm_compute in Hu. injection Hu as <-. reflexivity.
  - destruct (H (or_intror (or_introl eq_refl))) as [Hc Hu]. split; [exact Hc|exact Hu].
Defined.

(** ** The URLs of one HackerRank challenge *)


Lemma slug_run_stops s suffix :
  HackerRankProblem.slug s = true ->
  In suffix [""; "/"; "/problem"; "/problem/"] ->
  re_plus HackerRankProblem.slug_char (s ++ suffix) = Some (s, suffix)
  /\ HackerRankProblem.re_problem_end suffix = true
  /\ str_forallb path_char suffix = true.
Proof.
  unfold HackerRankProblem.slug. intros Hs Hin.
  apply andb_true_iff in Hs. destruct Hs as [Hne Hs]. apply eqb_empty_false in Hne.
  cbn in Hin. destruct Hin as [<-|[<-|[<-|[<-|[]]]]].
  - rewrite append_empty_r. rewrite (re_plus_all _ _ Hne Hs). repeat split.
  - rewrite (re_plus_stop _ s "/" "" Hne Hs eq_refl). repeat split.
  - change "/problem" with (String "/" "problem").
    rewrite (re_plus_stop _ s "/" "problem" Hne Hs eq_refl). repeat split.
  - change "/problem/" with (String "/" "problem/").
    rewrite (re_plus_stop _ s "/" "problem/" Hne Hs eq_refl). repeat split.
Qed.

Section Aliases.

Variable normpath : string -> string.

(** X9.  On either host and with either scheme, a challenge URL may end
    in [/problem], in a slash or in both: the short form
    [/challenges/<slug>] resolves to the challenge of the contest
    [master], the long form [/contests/<contest>/challenges/<slug>] to the
    challenge of that contest, whatever the ending. *)
Theorem hackerrank_url_aliases (sch host c s suffix : string) :
  sch = "http" \/ sch = "https" ->
  In host hackerrank_hosts ->
  HackerRankProblem.slug c = true -> HackerRankProblem.slug s = true ->
  In suffix [""; "/"; "/problem"; "/problem/"] ->
  keeps_path normpath (sch ++ "://" ++ host ++ "/challenges/" ++ s ++ suffix) ->
  keeps_path normpath
    (sch ++ "://" ++ host ++ "/contests/" ++ c ++ "/challenges/" ++ s ++ suffix) ->
  HackerRankProblem.from_url normpath (sch ++ "://" ++ host ++ "/challenges/" ++ s ++ suffix)
  = OK (Some (HackerRankProblem.cls "master" s))
  /\ HackerRankProblem.from_url normpath
       (sch ++ "://" ++ host ++ "/contests/" ++ c ++ "/challenges/" ++ s ++ suffix)
     = OK (Some (HackerRankProblem.cls c s)).
Proof.
  intros Hsch Hhost Hc Hs Hsuf.
  destruct (slug_run_stops s suffix Hs Hsuf) as (Hrun & Hend & Psuf).
  assert (Hh : str_forallb host_char host = true
               /\ str_in_list host hackerrank_hosts = true).
  { cbn in Hhost. destruct Hhost as [<-|[<-|[]]]; split; reflexivity. }
  destruct Hh as [Hh Hin].
  assert (Hsa : forall p, scheme_accepted (mkParse sch host p "" "" "") = true)
    by (intros p; destruct Hsch; subst sch; reflexivity).
  unfold HackerRankProblem.slug in Hc, Hs.
  apply andb_true_iff in Hc. destruct Hc as [Hc0 Hc]. apply eqb_empty_false in Hc0.
  apply andb_true_iff in Hs. destruct Hs as [Hs0 Hs].
  pose proof (str_forallb_impl _ _ _ slug_is_path_char Hc) as Pc.
  pose proof (str_forallb_impl _ _ _ slug_is_path_char Hs) as Ps.
  unfold keeps_path, url_path, HackerRankProblem.from_url.
  change (sch ++ "://" ++ host ++ "/challenges/" ++ s ++ suffix)
    with (sch ++ "://" ++ host ++ String "/" ("challenges/" ++ s ++ suffix)).
  change (sch ++ "://" ++ host ++ "/contests/" ++ c ++ "/challenges/" ++ s ++ suffix)
    with (sch ++ "://" ++ host
            ++ String "/" ("contests/" ++ c ++ "/challenges/" ++ s ++ suffix)).
  rewrite (urlparse_path sch host ("challenges/" ++ s ++ suffix) Hsch Hh).
  2:{ now rewrite !str_forallb_app, Ps, Psuf. }
  rewrite (urlparse_path sch host ("contests/" ++ c ++ "/challenges/" ++ s ++ suffix)
             Hsch Hh).
  2:{ now rewrite !str_forallb_app, Pc, Ps, Psuf. }
  cbn [bind scheme netloc path]. intros -> ->. rewrite !Hsa, Hin. cbn [andb].
  split.
  - change (HackerRankProblem.re_contest_challenge
              (String "/" ("challenges/" ++ s ++ suffix)))
      with (@None (string * string)).
    cbv iota. unfold HackerRankProblem.re_challenge.
    change (String "/" ("challenges/" ++ s ++ suffix))
      with ("/challenges/" ++ s ++ suffix).
    rewrite strip_prefix_app. cbv beta iota delta [obind].
    rewrite Hrun, Hend. reflexivity.
  - unfold HackerRankProblem.re_contest_challenge.
    change (String "/" ("contests/" ++ c ++ "/challenges/" ++ s ++ suffix))
      with ("/contests/" ++ c ++ String "/" ("challenges/" ++ s ++ suffix)).
    rewrite strip_prefix_app. cbv beta iota delta [obind].
    rewrite (re_plus_stop _ c "/" _ Hc0 Hc eq_refl).
    change (String "/" ("challenges/" ++ s ++ suffix))
      with ("/challenges/" ++ s ++ suffix).
    rewrite strip_prefix_app. cbv beta iota delta [obind].
    rewrite Hrun, Hend. reflexivity.
Qed.

End Aliases.

Lemma hackerrank_url_aliases_witness :
  HackerRankProblem.from_url utils_normpath
    "http://hackerrank.com/challenges/fp-hello-world/problem"
  = OK (Some (HackerRankProblem.cls "master" "fp-hello-world"))
  /\ HackerRankProblem.from_url utils_normpath
       "http://hackerrank.com/contests/hourrank-1/challenges/fp-hello-world/problem"
     = OK (Some (HackerRankProblem.cls "hourrank-1" "fp-hello-world")).
Proof.
  apply (hackerrank_url_aliases utils_normpath "http" "hackerrank.com" "hourrank-1"
           "fp-hello-world" "/problem");
    try reflexivity.
  - now left.
  - now left.
  - right. right. now left.
Defined.

(** ** The URLs of one Aizu Online Judge problem *)

Lemma re_section_accepts sec n rest :
  n <> "" -> str_forallb is_digit n = true ->
  In sec ["sources"; "library/" ++ n; "lesson/" ++ n] ->
  AOJProblem.re_section (sec ++ String "/" rest) = Some (String "/" rest)
  /\ str_forallb path_char sec = true.
Proof.
  intros Hn Hd Hin. pose proof (str_forallb_impl _ _ _ digit_is_path_char Hd) as Pn.
  cbn [In] in Hin. destruct Hin as [<-|[<-|[<-|[]]]].
  - split; reflexivity.
  - split; [|cbn; exact Pn]. unfold AOJProblem.re_section.
    change (strip_prefix "sources" (("library/" ++ n) ++ String "/" rest))
      with (@None string). cbv iota.
    change (("library/" ++ n) ++ String "/" rest)
      with ("library/" ++ n ++ String "/" rest).
    rewrite strip_prefix_app. unfold obind.
    now rewrite (re_plus_stop _ n "/" rest Hn Hd eq_refl).
  - split; [|cbn; exact Pn]. unfold AOJProblem.re_section.
    change (strip_prefix "sources" (("lesson/" ++ n) ++ String "/" rest))
      with (@None string). cbv iota.
    change (strip_prefix "library/" (("lesson/" ++ n) ++ String "/" rest))
      with (@None string). cbv iota.
    change (("lesson/" ++ n) ++ String "/" rest)
      with ("lesson/" ++ n ++ String "/" rest).
    rewrite strip_prefix_app. unfold obind.
    now rewrite (re_plus_stop _ n "/" rest Hn Hd eq_refl).
Qed.

Lemma unquote_word s :
  str_forallb is_word s = true -> unquote (plus_to_space s) = s.
Proof.
  intros Hw. unfold plus_to_space.
  rewrite (str_map_fixes _ is_word s); [|intros c; all_chars c|exact Hw].
  unfold unquote. now rewrite (has_char_none is_word "%" _ eq_refl Hw).
Qed.

(** One field [name=value] of a query string, both made of word
    characters and the value not empty. *)
Lemma parse_qsl_field name v rest :
  str_forallb is_word name = true -> v <> "" -> str_forallb is_word v = true ->
  parse_qsl_fields ((name ++ String "=" v) :: rest) = (name, v) :: parse_qsl_fields rest.
Proof.
  intros Hname Hne Hv. cbn [parse_qsl_fields].
  rewrite (partition_first "=" name v (has_char_none is_word "=" _ eq_refl Hname)).
  rewrite (unquote_word name Hname), (unquote_word v Hv).
  destruct v; [congruence | reflexivity].
Qed.

Section AOJUrls.

Variable normpath : string -> string.

(** X10.  Besides the address [get_url] gives, a problem of the Aizu
    Online Judge is found under [/problems/<id>] and under
    [/<area>/<section>/<a>/<b>/<id>] on the new host, where the area is
    [challenges] or [courses] and the section [sources], [library/<n>] or
    [lesson/<n>]: [from_url] resolves all of them to the problem of that
    id. *)
Theorem aoj_problem_urls_agree (pid area sec n a b : string) :
  AOJProblem.canonical (AOJProblem.cls pid) = true ->
  In area ["challenges"; "courses"] ->
  n <> "" -> str_forallb is_digit n = true ->
  In sec ["sources"; "library/" ++ n; "lesson/" ++ n] ->
  a <> "" -> str_forallb is_word a = true ->
  b <> "" -> str_forallb is_word b = true ->
  keeps_path normpath ("https://onlinejudge.u-aizu.ac.jp/problems/" ++ pid) ->
  keeps_path normpath ("https://onlinejudge.u-aizu.ac.jp/" ++ area ++ "/" ++ sec
                         ++ "/" ++ a ++ "/" ++ b ++ "/" ++ pid) ->
  AOJProblem.from_url normpath ("https://onlinejudge.u-aizu.ac.jp/problems/" ++ pid)
  = OK (Some (AOJProblem.cls pid))
  /\ AOJProblem.from_url normpath
       ("https://onlinejudge.u-aizu.ac.jp/" ++ area ++ "/" ++ sec
          ++ "/" ++ a ++ "/" ++ b ++ "/" ++ pid)
     = OK (Some (AOJProblem.cls pid)).
Proof.
  unfold AOJProblem.canonical. cbn [AOJProblem.problem_id].
  intros Hc Harea Hn Hd Hsec Ha0 Ha Hb0 Hb.
  apply andb_true_iff in Hc. destruct Hc as [Hp0 Hp]. apply eqb_empty_false in Hp0.
  pose proof (str_forallb_impl _ _ _ word_is_path_char Hp) as Pp.
  pose proof (str_forallb_impl _ _ _ word_is_path_char Ha) as Pa.
  pose proof (str_forallb_impl _ _ _ word_is_path_char Hb) as Pb.
  destruct (re_section_accepts sec n (a ++ "/" ++ b ++ "/" ++ pid) Hn Hd Hsec)
    as [Hsection Psec].
  assert (Parea : str_forallb path_char area = true)
    by (cbn in Harea; destruct Harea as [<-|[<-|[]]]; reflexivity).
  unfold keeps_path, url_path, AOJProblem.from_url.
  change ("https://onlinejudge.u-aizu.ac.jp/problems/" ++ pid)
    with ("https" ++ "://" ++ "onlinejudge.u-aizu.ac.jp" ++ String "/" ("problems/" ++ pid)).
  change ("https://onlinejudge.u-aizu.ac.jp/" ++ area ++ "/" ++ sec
            ++ "/" ++ a ++ "/" ++ b ++ "/" ++ pid)
    with ("https" ++ "://" ++ "onlinejudge.u-aizu.ac.jp"
            ++ String "/" (area ++ "/" ++ sec ++ "/" ++ a ++ "/" ++ b ++ "/" ++ pid)).
  rewrite (urlparse_path "https" "onlinejudge.u-aizu.ac.jp" ("problems/" ++ pid)); auto.
  rewrite (urlparse_path "https" "onlinejudge.u-aizu.ac.jp"
             (area ++ "/" ++ sec ++ "/" ++ a ++ "/" ++ b ++ "/" ++ pid)); auto.
  2:{ now rewrite !str_forallb_app, Parea, Psec, Pa, Pb, Pp. }
  cbn [bind scheme netloc path query]. intros -> ->.
  change (scheme_accepted ?r && ("onlinejudge.u-aizu.ac.jp" =? "judge.u-aizu.ac.jp") && ?x)
    with false.
  change (scheme_accepted ?r && ("onlinejudge.u-aizu.ac.jp" =? "onlinejudge.u-aizu.ac.jp"))
    with true.
  cbv iota. split.
  - change (AOJProblem.re_source_path (String "/" ("problems/" ++ pid)))
      with (@None string).
    cbv iota. unfold AOJProblem.re_problems_path.
    change (String "/" ("problems/" ++ pid)) with ("/problems/" ++ pid).
    rewrite strip_prefix_app. unfold obind.
    now rewrite (re_plus_all _ _ Hp0 Hp).
  - assert (Hm : AOJProblem.re_source_path
                   (String "/" (area ++ "/" ++ sec ++ "/" ++ a ++ "/" ++ b ++ "/" ++ pid))
                 = Some pid).
    { unfold AOJProblem.re_source_path.
      change (strip_prefix "/" (String "/" ?x)) with (Some x). unfold obind at 1.
      assert (Ha' : AOJProblem.re_area
                      (area ++ "/" ++ sec ++ "/" ++ a ++ "/" ++ b ++ "/" ++ pid)
                    = Some ("/" ++ sec ++ "/" ++ a ++ "/" ++ b ++ "/" ++ pid)).
      { cbn in Harea. destruct Harea as [<-|[<-|[]]]; reflexivity. }
      rewrite Ha'. unfold obind at 1.
      change (strip_prefix "/" ("/" ++ ?x)) with (Some x). unfold obind at 1.
      change (sec ++ "/" ++ a ++ "/" ++ b ++ "/" ++ pid)
        with (sec ++ String "/" (a ++ "/" ++ b ++ "/" ++ pid)).
      rewrite Hsection. unfold obind at 1.
      change (strip_prefix "/" (String "/" ?x)) with (Some x). unfold obind at 1.
      change (a ++ "/" ++ b ++ "/" ++ pid) with (a ++ String "/" (b ++ "/" ++ pid)).
      rewrite (re_plus_stop _ a "/" _ Ha0 Ha eq_refl). unfold obind at 1.
      change (strip_prefix "/" (String "/" ?x)) with (Some x). unfold obind at 1.
      change (b ++ "/" ++ pid) with (b ++ String "/" pid).
      rewrite (re_plus_stop _ b "/" _ Hb0 Hb eq_refl). unfold obind at 1.
      change (strip_prefix "/" (String "/" ?x)) with (Some x). unfold obind at 1.
      now rewrite (re_plus_all _ _ Hp0 Hp). }
    now rewrite Hm.
Qed.

(** X11.  On the address of the old host, the problem is the value of
    the one [id] parameter that has a value: other parameters do not
    matter, before or after it, and neither does an [id] field with no
    value, before or after it; but two [id] fields with a value make
    [from_url] decline the URL with [None], and so does a query whose
    only field is an [id] with no value. *)
Theorem aoj_description_needs_one_id (a b : string) :
  a <> "" -> str_forallb is_word a = true ->
  b <> "" -> str_forallb is_word b = true ->
  normpath "/onlinejudge/description.jsp" = "/onlinejudge/description.jsp" ->
  AOJProblem.from_url normpath
    ("http://judge.u-aizu.ac.jp/onlinejudge/description.jsp?id=" ++ a ++ "&lang=" ++ b)
  = OK (Some (AOJProblem.cls a))
  /\ AOJProblem.from_url normpath
       ("http://judge.u-aizu.ac.jp/onlinejudge/description.jsp?lang=" ++ b ++ "&id=" ++ a)
     = OK (Some (AOJProblem.cls a))
  /\ AOJProblem.from_url normpath
       ("http://judge.u-aizu.ac.jp/onlinejudge/description.jsp?id=" ++ a ++ "&id=" ++ b)
     = OK None
  /\ AOJProblem.from_url normpath
       "http://judge.u-aizu.ac.jp/onlinejudge/description.jsp?id="
     = OK None
  /\ AOJProblem.from_url normpath
       ("http://judge.u-aizu.ac.jp/onlinejudge/description.jsp?id=&id=" ++ a)
     = OK (Some (AOJProblem.cls a))
  /\ AOJProblem.from_url normpath
       ("http://judge.u-aizu.ac.jp/onlinejudge/description.jsp?id=" ++ a ++ "&id=")
     = OK (Some (AOJProblem.cls a)).
Proof.
  intros Ha0 Ha Hb0 Hb Hnp.
  pose proof (str_forallb_impl _ _ _ word_is_query_char Ha) as Qa.
  pose proof (str_forallb_impl _ _ _ word_is_query_char Hb) as Qb.
  assert (Hparse : forall q, str_forallb query_char q = true ->
            urlparse ("http://judge.u-aizu.ac.jp/onlinejudge/description.jsp?" ++ q)
            = OK (mkParse "http" "judge.u-aizu.ac.jp" "/onlinejudge/description.jsp"
                    "" q "")).
  { intros q Hq.
    apply (urlparse_path_query "http" "judge.u-aizu.ac.jp" "onlinejudge/description.jsp" q);
      auto. }
  assert (Hids : forall q ids,
            str_forallb query_char q = true -> parse_qs_get q "id" = ids ->
            AOJProblem.from_url normpath
              ("http://judge.u-aizu.ac.jp/onlinejudge/description.jsp?" ++ q)
            = OK (match ids with [x] => Some (AOJProblem.cls x) | _ => None end)).
  { intros q ids Hq Hget. unfold AOJProblem.from_url. rewrite (Hparse q Hq).
    cbn [bind scheme netloc path query]. rewrite Hnp, Hget.
    change (scheme_accepted ?r && ("judge.u-aizu.ac.jp" =? "judge.u-aizu.ac.jp")
            && ("/onlinejudge/description.jsp" =? "/onlinejudge/description.jsp"))
      with true.
    change (scheme_accepted ?r && ("judge.u-aizu.ac.jp" =? "onlinejudge.u-aizu.ac.jp"))
      with false.
    cbv iota. destruct ids as [|x [|y t]]; reflexivity. }
  assert (Hsplit : forall n1 v1 n2 v2,
            str_forallb is_word n1 = true -> v1 <> "" -> str_forallb is_word v1 = true ->
            str_forallb is_word n2 = true -> v2 <> "" -> str_forallb is_word v2 = true ->
            parse_qsl (n1 ++ String "=" v1 ++ String "&" (n2 ++ String "=" v2))
            = [(n1, v1); (n2, v2)]).
  { intros n1 v1 n2 v2 H1 H2 H3 H4 H5 H6. unfold parse_qsl.
    change (n1 ++ String "=" v1 ++ String "&" (n2 ++ String "=" v2))
      with (n1 ++ String "=" (v1 ++ String "&" (n2 ++ String "=" v2))).
    replace (n1 ++ String "=" (v1 ++ String "&" (n2 ++ String "=" v2)))
      with ((n1 ++ String "=" v1) ++ String "&" (n2 ++ String "=" v2)).
    2:{ rewrite append_assoc. reflexivity. }
    rewrite split_on_first.
    2:{ rewrite has_char_app. cbn [has_char].
        rewrite (has_char_none is_word "&" _ eq_refl H1).
        now rewrite (has_char_none is_word "&" _ eq_refl H3). }
    rewrite split_on_absent.
    2:{ rewrite has_char_app. cbn [has_char].
        rewrite (has_char_none is_word "&" _ eq_refl H4).
        now rewrite (has_char_none is_word "&" _ eq_refl H6). }
    rewrite parse_qsl_field; auto. rewrite parse_qsl_field; auto. }
  split; [|split; [|split; [|split; [|split]]]].
  - change ("http://judge.u-aizu.ac.jp/onlinejudge/description.jsp?id=" ++ a ++ "&lang=" ++ b)
      with ("http://judge.u-aizu.ac.jp/onlinejudge/description.jsp?"
              ++ ("id" ++ String "=" a ++ String "&" ("lang" ++ String "=" b))).
    rewrite (Hids _ [a]); [reflexivity| |].
    + change ("id" ++ String "=" a ++ String "&" ("lang" ++ String "=" b))
        with ("id=" ++ a ++ "&lang=" ++ b).
      now rewrite !str_forallb_app, Qa, Qb.
    + unfold parse_qs_get. rewrite Hsplit; auto.
  - change ("http://judge.u-aizu.ac.jp/onlinejudge/description.jsp?lang=" ++ b ++ "&id=" ++ a)
      with ("http://judge.u-aizu.ac.jp/onlinejudge/description.jsp?"
              ++ ("lang" ++ String "=" b ++ String "&" ("id" ++ String "=" a))).
    rewrite (Hids _ [a]); [reflexivity| |].
    + change ("lang" ++ String "=" b ++ String "&" ("id" ++ String "=" a))
        with ("lang=" ++ b ++ "&id=" ++ a).
      now rewrite !str_forallb_app, Qa, Qb.
    + unfold parse_qs_get. rewrite Hsplit; auto.
  - change ("http://judge.u-aizu.ac.jp/onlinejudge/description.jsp?id=" ++ a ++ "&id=" ++ b)
      with ("http://judge.u-aizu.ac.jp/onlinejudge/description.jsp?"
              ++ ("id" ++ String "=" a ++ String "&" ("id" ++ String "=" b))).
    rewrite (Hids _ [a; b]); [reflexivity| |].
    + change ("id" ++ String "=" a ++ String "&" ("id" ++ String "=" b))
        with ("id=" ++ a ++ "&id=" ++ b).
      now rewrite !str_forallb_app, Qa, Qb.
    + unfold parse_qs_get. rewrite Hsplit; auto.
  - change "http://judge.u-aizu.ac.jp/onlinejudge/description.jsp?id="
      with ("http://judge.u-aizu.ac.jp/onlinejudge/description.jsp?" ++ "id=").
    rewrite (Hids _ []); reflexivity.
  - change ("http://judge.u-aizu.ac.jp/onlinejudge/description.jsp?id=&id=" ++ a)
      with ("http://judge.u-aizu.ac.jp/onlinejudge/description.jsp?"
              ++ ("id=" ++ String "&" ("id" ++ String "=" a))).
    rewrite (Hids _ [a]); [reflexivity| |].
    + change ("id=" ++ String "&" ("id" ++ String "=" a)) with ("id=&id=" ++ a).
      now rewrite !str_forallb_app, Qa.
    + unfold parse_qs_get, parse_qsl.
      rewrite (split_on_first "&" "id=" _ eq_refl).
      rewrite split_on_absent.
      2:{ rewrite has_char_app. cbn [has_char].
          now rewrite (has_char_none is_word "&" _ eq_refl Ha). }
      change (parse_qsl_fields ("id=" :: ?r)) with (parse_qsl_fields r).
      rewrite parse_qsl_field; auto.
  - change ("http://judge.u-aizu.ac.jp/onlinejudge/description.jsp?id=" ++ a ++ "&id=")
      with ("http://judge.u-aizu.ac.jp/onlinejudge/description.jsp?"
              ++ ("id" ++ String "=" a ++ String "&" "id=")).
    rewrite (Hids _ [a]); [reflexivity| |].
    + change ("id" ++ String "=" a ++ String "&" "id=") with ("id=" ++ a ++ "&id=").
      now rewrite !str_forallb_app, Qa.
    + unfold parse_qs_get, parse_qsl.
      replace ("id" ++ String "=" a ++ String "&" "id=")
        with (("id" ++ String "=" a) ++ String "&" "id=").
      2:{ rewrite append_assoc. reflexivity. }
      rewrite split_on_first.
      2:{ rewrite has_char_app. cbn [has_char].
          now rewrite (has_char_none is_word "&" _ eq_refl Ha). }
      change (split_on "&" "id=") with ["id="].
      rewrite parse_qsl_field; auto.
Qed.

End AOJUrls.

Lemma aoj_problem_urls_agree_witness :
  AOJProblem.from_url utils_normpath "https://onlinejudge.u-aizu.ac.jp/problems/CGL_3_B"
  = OK (Some (AOJProblem.cls "CGL_3_B"))
  /\ AOJProblem.from_url utils_normpath
       "https://onlinejudge.u-aizu.ac.jp/courses/library/4/CGL/3/CGL_3_B"
     = OK (Some (AOJProblem.cls "CGL_3_B")).
Proof.
  apply (aoj_problem_urls_agree utils_normpath "CGL_3_B" "courses" "library/4" "4" "CGL" "3");
    try reflexivity; try discriminate.
  - right. now left.
  - right. now left.
Defined.

Lemma aoj_description_needs_one_id_witness :
  AOJProblem.from_url utils_normpath
    "http://judge.u-aizu.ac.jp/onlinejudge/description.jsp?id=DSL_1_A&lang=jp"
  = OK (Some (AOJProblem.cls "DSL_1_A"))
  /\ AOJProblem.from_url utils_normpath
       "http://judge.u-aizu.ac.jp/onlinejudge/description.jsp?id=DSL_1_A&id=jp"
     = OK None
  /\ AOJProblem.from_url utils_normpath
       "http://judge.u-aizu.ac.jp/onlinejudge/description.jsp?id=&id=DSL_1_A"
     = OK (Some (AOJProblem.cls "DSL_1_A"))
  /\ AOJProblem.from_url utils_normpath
       "http://judge.u-aizu.ac.jp/onlinejudge/description.jsp?id=DSL_1_A&id="
     = OK (Some (AOJProblem.cls "DSL_1_A")).
Proof.
  destruct (aoj_description_needs_one_id utils_normpath "DSL_1_A" "jp")
    as (H1 & _ & H3 & _ & H5 & H6); try reflexivity; try discriminate.
  split; [exact H1|]. split; [exact H3|]. split; [exact H5 | exact H6].
Defined.

(** ** The samples of an Anarchy Golf page *)

Lemma parse_sample_tag_name E tag s name :
  AnarchyGolfProblem._parse_sample_tag E tag = OK (Some (s, name)) ->
  In name AnarchyGolfProblem.sample_headings.
Proof.
  unfold AnarchyGolfProblem._parse_sample_tag.
  destruct (occ_node tag) as [| |tag_name attrs contents]; try discriminate.
  destruct (tag_name =? "h2"); [|discriminate]. cbn [bind].
  destruct contents as [|[name0|name0|nm at' inner] rest]; try discriminate.
  - destruct (str_in_list (AnarchyGolfProblem.heading name0)
                AnarchyGolfProblem.sample_headings) eqn:Hin; [|discriminate].
    destruct (AnarchyGolfProblem.skip_blank (next_siblings tag)) as [[nxt|]|e];
      try discriminate. cbn [bind].
    destruct (AnarchyGolfProblem.sample_text E nxt) as [[s'|]|e]; try discriminate.
    cbn [bind]. intros [= <- <-]. now apply str_in_list_In.
  - destruct (str_in_list (AnarchyGolfProblem.heading name0)
                AnarchyGolfProblem.sample_headings) eqn:Hin; [|discriminate].
    destruct (AnarchyGolfProblem.skip_blank (next_siblings tag)) as [[nxt|]|e];
      try discriminate. cbn [bind].
    destruct (AnarchyGolfProblem.sample_text E nxt) as [[s'|]|e]; try discriminate.
    cbn [bind]. intros [= <- <-]. now apply str_in_list_In.
  - destruct (AnarchyGolfProblem.has_colon_child inner); discriminate.
Qed.

Lemma golf_added_samples_names E h2s added :
  AnarchyGolfProblem.added_samples E h2s = OK added ->
  Forall (fun it => In (snd it) AnarchyGolfProblem.sample_headings) added
  /\ (List.length added <= List.length h2s)%nat.
Proof.
  revert added. induction h2s as [|h2 rest IH]; intros added;
    cbn [AnarchyGolfProblem.added_samples].
  - intros [= <-]. split; [constructor | apply Nat.le_refl].
  - destruct (AnarchyGolfProblem._parse_sample_tag E h2) as [it|e] eqn:Hit; [|discriminate].
    cbn [bind].
    destruct (AnarchyGolfProblem.added_samples E rest) as [more|e]; [|discriminate].
    cbn [bind]. destruct (IH more eq_refl) as [Hall Hlen].
    destruct it as [[s name]|]; intros [= <-]; cbn [List.length].
    + split; [|lia]. constructor; [|exact Hall].
      exact (parse_sample_tag_name E h2 s name Hit).
    + split; [exact Hall | lia].
Qed.

Lemma parse_sample_tag_recognized E tag r :
  AnarchyGolfProblem._parse_sample_tag E tag = OK r ->
  option_map snd r = recognized tag.
Proof.
  unfold AnarchyGolfProblem._parse_sample_tag, recognized.
  destruct (occ_node tag) as [| |tag_name attrs contents]; try discriminate.
  destruct (tag_name =? "h2"); [|discriminate]. cbn [bind].
  destruct contents as [|[name0|name0|nm at' inner] rest]; try discriminate.
  - destruct (str_in_list (AnarchyGolfProblem.heading name0)
                AnarchyGolfProblem.sample_headings) eqn:Hin; [|now intros [= <-]].
    destruct (AnarchyGolfProblem.skip_blank (next_siblings tag)) as [[nxt|]|e];
      try discriminate. cbn [bind].
    destruct (AnarchyGolfProblem.sample_text E nxt) as [[s'|]|e]; try discriminate.
    cbn [bind]. now intros [= <-].
  - destruct (str_in_list (AnarchyGolfProblem.heading name0)
                AnarchyGolfProblem.sample_headings) eqn:Hin; [|now intros [= <-]].
    destruct (AnarchyGolfProblem.skip_blank (next_siblings tag)) as [[nxt|]|e];
      try discriminate. cbn [bind].
    destruct (AnarchyGolfProblem.sample_text E nxt) as [[s'|]|e]; try discriminate.
    cbn [bind]. now intros [= <-].
  - destruct (AnarchyGolfProblem.has_colon_child inner); [discriminate|].
    now intros [= <-].
Qed.

Lemma golf_added_samples_page E h2s added :
  AnarchyGolfProblem.added_samples E h2s = OK added ->
  Forall2 (fun o it =>
             exists s, AnarchyGolfProblem._parse_sample_tag E o = OK (Some (s, snd it))
                       /\ fst it = encode s
                       /\ recognized o = Some (snd it))
    (sample_h2s h2s) added.
Proof.
  revert added. induction h2s as [|h2 rest IH]; intros added;
    cbn [AnarchyGolfProblem.added_samples].
  - intros [= <-]. constructor.
  - destruct (AnarchyGolfProblem._parse_sample_tag E h2) as [it|e] eqn:Hit; [|discriminate].
    cbn [bind].
    destruct (AnarchyGolfProblem.added_samples E rest) as [more|e]; [|discriminate].
    cbn [bind]. specialize (IH more eq_refl).
    pose proof (parse_sample_tag_recognized E h2 it Hit) as Hrec.
    unfold sample_h2s. cbn [filter]. fold (sample_h2s rest).
    destruct it as [[s name]|]; cbn [option_map snd] in Hrec; rewrite <- Hrec;
      intros [= <-].
    + constructor; [|exact IH]. exists s. cbn [fst snd]. auto.
    + exact IH.
Qed.

(** X12.  Whenever [AnarchyGolfProblem.download_sample_cases] returns, it
    has made exactly one request, a [GET] of the URL of the problem on
    the session in use, and the test cases are what the zipper makes of
    the fragments the loop added: one for each [h2] of the page whose
    first child is a text that reads [Sample input] or [Sample output]
    up to its colon, in page order and none for any other [h2]; the
    fragment of such a heading is the encoded text [_parse_sample_tag]
    returns for it, and its label is the heading without the colon and
    what follows it. *)
Theorem golf_download_labels
  (E : Env) (self : AnarchyGolfProblem.t) (session : option (Session E))
  (h h' : History E) (cases : list TestCase) :
  AnarchyGolfProblem.download_sample_cases E self session h = (OK cases, h') ->
  exists resp added,
    send E h (session_or_default E session) (GET (AnarchyGolfProblem.get_url self)) = OK resp
    /\ h' = (h ++ [(session_or_default E session,
                    GET (AnarchyGolfProblem.get_url self))])%list
    /\ cases = SampleZipper_get E added
    /\ Forall2 (fun o it =>
                  exists s, AnarchyGolfProblem._parse_sample_tag E o = OK (Some (s, snd it))
                            /\ fst it = encode s
                            /\ recognized o = Some (snd it)
                            /\ (snd it = "Sample input" \/ snd it = "Sample output"))
         (sample_h2s (find_all "h2" (BeautifulSoup E (text resp)))) added.
Proof.
  unfold AnarchyGolfProblem.download_sample_cases, bindIO, utils_request, lift, ret.
  cbv zeta.
  destruct (send E h _ _) as [resp|e] eqn:Hsend; [|discriminate].
  destruct (true && is_error_status resp); [discriminate|].
  destruct (AnarchyGolfProblem.added_samples E _) as [added|e] eqn:Hadd; [|discriminate].
  intros [= <- <-]. exists resp, added.
  repeat split; auto.
  pose proof (golf_added_samples_page E _ added Hadd) as Hall.
  revert Hall. apply Forall2_impl. intros o it (s & Hparse & Hfst & Hrec).
  exists s. repeat split; auto.
  pose proof (parse_sample_tag_name E o s (snd it) Hparse) as Hin.
  cbn in Hin. destruct Hin as [<-|[<-|[]]]; auto.
Qed.

Lemma skip_blank_app blanks rest :
  forallb blank blanks = true ->
  AnarchyGolfProblem.skip_blank (blanks ++ rest)%list = AnarchyGolfProblem.skip_blank rest.
Proof.
  intros Hb. induction blanks as [|b blanks IH]; [reflexivity|].
  cbn [List.app AnarchyGolfProblem.skip_blank].
  cbn [forallb] in Hb. apply andb_true_iff in Hb. destruct Hb as [Hb Hbs].
  unfold blank in Hb. apply andb_true_iff in Hb. destruct Hb as [Hbt Hbstr].
  rewrite Hbt. destruct (node_string b) as [s|]; [|discriminate].
  rewrite Hbstr. now apply IH.
Qed.

(** X29.  For [AnarchyGolfProblem.download_sample_cases], a [Sample input]
    or [Sample output] heading followed, after siblings whose text is
    white space, by a [p] tag that holds one text which is not white
    space (the site writes a placeholder there) yields a fragment with
    the explicit empty content: the parse returns it (not [None]), it is
    added to the zipper at its place among the other fragments, and the
    download returns what the zipper makes of the fragments with it. *)
Theorem empty_sample_is_added
  (E : Env) (tag : occurrence) (attrs : list (string * string)) (name0 : string)
  (rest blanks following : list node) (pattrs : list (string * string))
  (pcontents : list node) (placeholder : string) :
  occ_node tag = Tag "h2" attrs (NavigableString name0 :: rest) ->
  str_in_list (AnarchyGolfProblem.heading name0) AnarchyGolfProblem.sample_headings = true ->
  next_siblings tag = (blanks ++ Tag "p" pattrs pcontents :: following)%list ->
  forallb blank blanks = true ->
  node_string (Tag "p" pattrs pcontents) = Some placeholder ->
  strip placeholder <> "" ->
  AnarchyGolfProblem._parse_sample_tag E tag
  = OK (Some ("", AnarchyGolfProblem.heading name0))
  /\ (forall before after added_before added_after,
        AnarchyGolfProblem.added_samples E before = OK added_before ->
        AnarchyGolfProblem.added_samples E after = OK added_after ->
        AnarchyGolfProblem.added_samples E (before ++ tag :: after)%list
        = OK (added_before ++ ([], AnarchyGolfProblem.heading name0) :: added_after)%list
        /\ forall self session h resp,
            send E h (session_or_default E session)
              (GET (AnarchyGolfProblem.get_url self)) = OK resp ->
            is_error_status resp = false ->
            find_all "h2" (BeautifulSoup E (text resp)) = (before ++ tag :: after)%list ->
            fst (AnarchyGolfProblem.download_sample_cases E self session h)
            = OK (SampleZipper_get E
                    (added_before ++ ([], AnarchyGolfProblem.heading name0)
                       :: added_after)%list)).
Proof.
  intros Htag Hname Hsib Hblanks Hstr Hne.
  assert (Hparse : AnarchyGolfProblem._parse_sample_tag E tag
                   = OK (Some ("", AnarchyGolfProblem.heading name0))).
  { unfold AnarchyGolfProblem._parse_sample_tag. rewrite Htag.
    change ("h2" =? "h2") with true. cbv iota. rewrite Hname, Hsib.
    rewrite (skip_blank_stops blanks (Tag "p" pattrs pcontents) following placeholder);
      auto.
  }
  split; [exact Hparse|].
  intros before after added_before added_after Hb Ha.
  assert (Hadd : AnarchyGolfProblem.added_samples E (before ++ tag :: after)%list
                 = OK (added_before ++ ([], AnarchyGolfProblem.heading name0)
                         :: added_after)%list).
  { rewrite added_samples_app, Hb. cbn [bind AnarchyGolfProblem.added_samples].
    rewrite Hparse. cbn [bind]. rewrite Ha. reflexivity. }
  split; [exact Hadd|].
  intros self session h resp Hsend Hok Hfind.
  unfold AnarchyGolfProblem.download_sample_cases, bindIO, utils_request, lift, ret.
  cbv zeta. rewrite Hsend, Hok. cbn [andb]. rewrite Hfind, Hadd. reflexivity.
Qed.

Lemma empty_sample_is_added_witness :
  AnarchyGolfProblem._parse_sample_tag (table_env [] [] [])
    (golf_heading "Sample input:"
       [NavigableString (String "010" ""); Tag "p" [] [NavigableString "*NOTHING*"]])
  = OK (Some ("", "Sample input")).
Proof.
  destruct (empty_sample_is_added (table_env [] [] [])
              (golf_heading "Sample input:"
                 [NavigableString (String "010" ""); Tag "p" [] [NavigableString "*NOTHING*"]])
              [] "Sample input:" [] [NavigableString (String "010" "")] []
              [] [NavigableString "*NOTHING*"] "*NOTHING*"
              eq_refl eq_refl eq_refl eq_refl eq_refl) as [H _].
  - discriminate.
  - exact H.
Defined.

(** X13.  A [Sample input] or [Sample output] heading whose next
    non-blank sibling is a [pre] with one text in it, not all white
    space, yields the fragment [dos2unix(text[1:])]: the first character
    of the text is dropped, whatever it is and however many bytes encode
    it, and only the conversion of newlines is applied to the rest. *)
Theorem golf_pre_sample
  (E : Env) (tag : occurrence) (attrs : list (string * string)) (name0 : string)
  (rest blanks following : list node) (pattrs : list (string * string))
  (pcontents : list node) (text : string) :
  occ_node tag = Tag "h2" attrs (NavigableString name0 :: rest) ->
  str_in_list (AnarchyGolfProblem.heading name0) AnarchyGolfProblem.sample_headings = true ->
  next_siblings tag = (blanks ++ Tag "pre" pattrs pcontents :: following)%list ->
  forallb blank blanks = true ->
  node_string (Tag "pre" pattrs pcontents) = Some text ->
  strip text <> "" ->
  AnarchyGolfProblem._parse_sample_tag E tag
  = OK (Some (dos2unix E (behead text), AnarchyGolfProblem.heading name0))
  /\ AnarchyGolfProblem.added_samples E [tag]
     = OK [(encode (dos2unix E (behead text)), AnarchyGolfProblem.heading name0)]
  /\ (forall c body,
        text = String c body -> is_ascii c = true ->
        match body with
        | EmptyString => True
        | String d _ => is_continuation d = false
        end ->
        behead text = body).
Proof.
  intros Htag Hname Hsib Hblanks Hstr Hne.
  assert (Hparse : AnarchyGolfProblem._parse_sample_tag E tag
                   = OK (Some (dos2unix E (behead text), AnarchyGolfProblem.heading name0))).
  { unfold AnarchyGolfProblem._parse_sample_tag. rewrite Htag.
    change ("h2" =? "h2") with true. cbv iota. rewrite Hname, Hsib.
    rewrite (skip_blank_stops blanks (Tag "pre" pattrs pcontents) following text); auto.
    cbn [bind]. unfold AnarchyGolfProblem.sample_text. cbn [node_name].
    change ("pre" =? "pre") with true. cbv iota. rewrite Hstr. reflexivity. }
  split; [exact Hparse|].
  split.
  - cbn [AnarchyGolfProblem.added_samples]. rewrite Hparse. reflexivity.
  - intros c body -> _ Hbody. cbn [behead].
    destruct body as [|d body]; [reflexivity|].
    cbn [lstrip_by]. now rewrite Hbody.
Qed.

(** X14.  The scan for the block of a heading steps over every sibling
    whose text is white space, tags included: a [pre] that holds nothing
    but white space is not taken as the sample, and the parse goes on as
    if the page did not have it. *)
Theorem golf_blank_siblings_skipped
  (E : Env) (tag : occurrence) (blanks following : list node) :
  forallb blank blanks = true ->
  next_siblings tag = (blanks ++ following)%list ->
  AnarchyGolfProblem._parse_sample_tag E tag
  = AnarchyGolfProblem._parse_sample_tag E
      (mkOcc (occ_node tag) (previous_siblings tag) following).
Proof.
  intros Hb Hsib. unfold AnarchyGolfProblem._parse_sample_tag.
  cbn [occ_node next_siblings]. rewrite Hsib.
  now rewrite (skip_blank_app blanks following Hb).
Qed.

Lemma golf_pre_sample_witness :
  AnarchyGolfProblem._parse_sample_tag (table_env [] [] [])
    (golf_heading "Sample output:"
       [NavigableString LF;
        Tag "pre" [] [NavigableString (String (ascii_of_nat 227) (String (ascii_of_nat 128)
                                        (String (ascii_of_nat 128) ("Hello" ++ LF))))]])
  = OK (Some ("Hello" ++ LF, "Sample output"))
  /\ AnarchyGolfProblem._parse_sample_tag (table_env [] [] [])
       (golf_heading "Sample output:"
          [NavigableString LF; Tag "pre" [] [NavigableString (LF ++ "Hello" ++ LF)]])
     = OK (Some ("Hello" ++ LF, "Sample output")).
Proof.
  split.
  - destruct (golf_pre_sample (table_env [] [] [])
                (golf_heading "Sample output:"
                   [NavigableString LF;
                    Tag "pre" [] [NavigableString
                                    (String (ascii_of_nat 227) (String (ascii_of_nat 128)
                                       (String (ascii_of_nat 128) ("Hello" ++ LF))))]])
                [] "Sample output:" [] [NavigableString LF] []
                [] [NavigableString (String (ascii_of_nat 227) (String (ascii_of_nat 128)
                                       (String (ascii_of_nat 128) ("Hello" ++ LF))))]
                (String (ascii_of_nat 227) (String (ascii_of_nat 128)
                   (String (ascii_of_nat 128) ("Hello" ++ LF))))
                eq_refl eq_refl eq_refl eq_refl eq_refl) as [H _].
    + vm_compute. discriminate.
    + exact H.
  - destruct (golf_pre_sample (table_env [] [] [])
                (golf_heading "Sample output:"
                   [NavigableString LF; Tag "pre" [] [NavigableString (LF ++ "Hello" ++ LF)]])
                [] "Sample output:" [] [NavigableString LF] []
                [] [NavigableString (LF ++ "Hello" ++ LF)] (LF ++ "Hello" ++ LF)
                eq_refl eq_refl eq_refl eq_refl eq_refl) as (H & _ & Hbe).
    + vm_compute. discriminate.
    + rewrite (Hbe "010"%char ("Hello" ++ LF) eq_refl eq_refl eq_refl) in H. exact H.
Defined.

Lemma golf_blank_siblings_skipped_witness :
  AnarchyGolfProblem._parse_sample_tag (table_env [] [] [])
    (golf_heading "Sample input:"
       [NavigableString LF; Tag "pre" [] [NavigableString (LF ++ " " ++ LF)];
        Tag "p" [] [NavigableString "*NOTHING*"]])
  = OK (Some ("", "Sample input")).
Proof.
  rewrite (golf_blank_siblings_skipped (table_env [] [] [])
             (golf_heading "Sample input:"
                [NavigableString LF; Tag "pre" [] [NavigableString (LF ++ " " ++ LF)];
                 Tag "p" [] [NavigableString "*NOTHING*"]])
             [NavigableString LF; Tag "pre" [] [NavigableString (LF ++ " " ++ LF)]]
             [Tag "p" [] [NavigableString "*NOTHING*"]] eq_refl eq_refl).
  reflexivity.
Defined.

Lemma golf_download_labels_witness :
  exists resp added,
    send golf_world [] tt (GET "http://golf.shinh.org/p.rb?hello+world") = OK resp
    /\ SampleZipper_get golf_world added
       = [mkTestCase "sample-1" "Sample input" []
            "Sample output" (encode ("Hello, world!" ++ LF))]
    /\ map snd added = ["Sample input"; "Sample output"].
Proof.
  destruct (golf_download_labels golf_world (AnarchyGolfProblem.cls "hello+world")
              None [] _ _ eq_refl) as (resp & added & Hsend & _ & Hcases & Hall).
  exists resp, added.
  split; [exact Hsend|]. split; [symmetry; exact Hcases|].
  vm_compute in Hsend. injection Hsend as <-.
  inversion Hall as [|o1 it1 os1 its1 (_ & _ & _ & H1 & _) Hrest1 Ho1 Hi1].
  inversion Hrest1 as [|o2 it2 os2 its2 (_ & _ & _ & H2 & _) Hrest2 Ho2 Hi2].
  inversion Hrest2. subst.
  destruct it1 as [b1 n1], it2 as [b2 n2]. cbn [map snd] in *.
  vm_compute in H1. vm_compute in H2.
  injection H1 as <-. injection H2 as <-. reflexivity.
Defined.

(** ** The downloads of the Aizu Online Judge *)

Lemma aoj_system_cases_loop E self s headers :
  forall h cases h',
    AOJProblem.system_cases E self s headers h = (OK cases, h') ->
    exists serials,
      Forall2 (fun header serial => getitem header "serial" = OK serial) headers serials
      /\ List.length cases = List.length headers
      /\ h' = List.app h
                 (map (fun u => (s, GET u))
                    (flat_map
                       (fun serial =>
                          [("https://judgedat.u-aizu.ac.jp/testcases/"
                              ++ AOJProblem.problem_id self ++ "/"
                              ++ format (repr E) serial) ++ "/in";
                           ("https://judgedat.u-aizu.ac.jp/testcases/"
                              ++ AOJProblem.problem_id self ++ "/"
                              ++ format (repr E) serial) ++ "/out"])
                       serials))
      /\ Forall (fun tc => input_name tc = tc_name tc /\ output_name tc = tc_name tc) cases.
Proof.
  induction headers as [|header rest IH]; intros h cases h';
    cbn [AOJProblem.system_cases].
  - unfold ret. intros [= <- <-]. exists []. cbn [flat_map map].
    rewrite List.app_nil_r. repeat split; constructor.
  - unfold bindIO at 1. unfold lift at 1.
    destruct (getitem header "serial") as [serial|e] eqn:Hserial; [|discriminate].
    cbv zeta. unfold bindIO at 1. unfold utils_request at 1.
    destruct (send E h s _) as [resp_in|e]; [|discriminate].
    destruct (true && is_error_status resp_in); [discriminate|].
    unfold bindIO at 1. unfold utils_request at 1.
    destruct (send E _ s _) as [resp_out|e]; [|discriminate].
    destruct (true && is_error_status resp_out); [discriminate|].
    unfold bindIO at 1. unfold lift at 1.
    destruct (getitem header "name") as [name|e]; [|discriminate].
    unfold bindIO at 1.
    destruct (AOJProblem.system_cases E self s rest _) as [[more|e] h2] eqn:Hmore;
      [|discriminate].
    unfold ret. intros [= <- <-].
    destruct (IH _ _ _ Hmore) as (serials & Hser & Hlen & Hh & Hnames).
    exists (serial :: serials). split; [|split; [|split]].
    + constructor; assumption.
    + cbn [List.length]. now rewrite Hlen.
    + rewrite Hh. cbn [flat_map map List.app]. now rewrite <- !List.app_assoc.
    + constructor; [split; reflexivity | exact Hnames].
Qed.

(** Two histories that differ by the bracketing of their appends. *)
Ltac same_history H :=
  match goal with
  | |- send _ ?a _ _ = _ =>
      match type of H with
      | send _ ?b _ _ = _ =>
          replace a with b;
          [exact H
          |repeat first [rewrite <- List.app_assoc
                        |progress cbn [firstn flat_map map List.app]];
           reflexivity]
      end
  end.

Lemma aoj_system_cases_entries E self s headers :
  forall h cases h' serials,
    AOJProblem.system_cases E self s headers h = (OK cases, h') ->
    Forall2 (fun header serial => getitem header "serial" = OK serial) headers serials ->
    forall k item,
      nth_error headers k = Some item ->
      exists serial name resp_in resp_out,
        nth_error serials k = Some serial
        /\ getitem item "name" = OK name
        /\ (let url := "https://judgedat.u-aizu.ac.jp/testcases/"
                         ++ AOJProblem.problem_id self ++ "/" ++ format (repr E) serial in
            let hk := List.app h
                        (map (fun u => (s, GET u))
                           (flat_map
                              (fun serial =>
                                 [("https://judgedat.u-aizu.ac.jp/testcases/"
                                     ++ AOJProblem.problem_id self ++ "/"
                                     ++ format (repr E) serial) ++ "/in";
                                  ("https://judgedat.u-aizu.ac.jp/testcases/"
                                     ++ AOJProblem.problem_id self ++ "/"
                                     ++ format (repr E) serial) ++ "/out"])
                              (firstn k serials))) in
            send E hk s (GET (url ++ "/in")) = OK resp_in
            /\ send E (List.app hk [(s, GET (url ++ "/in"))]) s (GET (url ++ "/out"))
               = OK resp_out
            /\ nth_error cases k
               = Some (mkTestCase (format (repr E) name) (format (repr E) name)
                         (content resp_in) (format (repr E) name) (content resp_out))).
Proof.
  induction headers as [|header rest IH]; intros h cases h' serials Hrun Hser k item Hk.
  - destruct k; discriminate.
  - inversion Hser as [|x serial xs serials' Hserial Hrest]; subst.
    revert Hrun. cbn [AOJProblem.system_cases].
    unfold bindIO at 1. unfold lift at 1. rewrite Hserial.
    cbv zeta. unfold bindIO at 1. unfold utils_request at 1.
    destruct (send E h s _) as [resp_in|e] eqn:Hin; [|discriminate].
    destruct (true && is_error_status resp_in); [discriminate|].
    unfold bindIO at 1. unfold utils_request at 1.
    destruct (send E (h ++ _)%list s _) as [resp_out|e] eqn:Hout; [|discriminate].
    destruct (true && is_error_status resp_out); [discriminate|].
    unfold bindIO at 1. unfold lift at 1.
    destruct (getitem header "name") as [name|e] eqn:Hname; [|discriminate].
    unfold bindIO at 1.
    destruct (AOJProblem.system_cases E self s rest _) as [[more|e] h2] eqn:Hmore;
      [|discriminate].
    unfold ret. intros [= <- <-].
    destruct k as [|k].
    + cbn [nth_error] in Hk. injection Hk as <-.
      exists serial, name, resp_in, resp_out.
      cbn [nth_error firstn flat_map map]. rewrite List.app_nil_r.
      repeat split; auto.
    + cbn [nth_error] in Hk.
      destruct (IH _ _ _ _ Hmore Hrest k item Hk)
        as (serial' & name' & rin & rout & Hs & Hn & Hi & Ho & Hc).
      exists serial', name', rin, rout.
      split; [exact Hs|]. split; [exact Hn|].
      cbv zeta in Hi, Ho |- *.
      split; [same_history Hi|]. split; [same_history Ho | exact Hc].
Qed.

(** X15.  Whenever [AOJProblem.download_system_cases] returns, it has
    asked for the header of the problem and then, for each entry of
    [headers] in order, for the [in] and the [out] file of the serial of
    that entry, all with [GET] on the one session in use: one request
    and two more per test case.  It returns one test case per entry, in
    the order of the entries: the three names of the test case are the
    name of the entry, its input is the body of the reply to the [in]
    request of the entry and its output the body of the reply to the
    [out] request. *)
Theorem aoj_system_cases_requests
  (E : Env) (self : AOJProblem.t) (session : option (Session E))
  (h h' : History E) (cases : list TestCase) :
  AOJProblem.download_system_cases E self session h = (OK cases, h') ->
  let s := session_or_default E session in
  let base := "https://judgedat.u-aizu.ac.jp/testcases/" ++ AOJProblem.problem_id self in
  let urls := fun serial => [(base ++ "/" ++ format (repr E) serial) ++ "/in";
                             (base ++ "/" ++ format (repr E) serial) ++ "/out"] in
  exists (resp : Response) (header headers : json) (items serials : list json),
    send E h s (GET (base ++ "/header")) = OK resp
    /\ json_loads E (text resp) = OK header
    /\ getitem header "headers" = OK headers
    /\ iterate headers = OK items
    /\ Forall2 (fun item serial => getitem item "serial" = OK serial) items serials
    /\ List.length cases = List.length items
    /\ h' = List.app h (map (fun u => (s, GET u)) ((base ++ "/header") :: flat_map urls serials))
    /\ List.length h' = (List.length h + 1 + 2 * List.length cases)%nat
    /\ Forall (fun tc => input_name tc = tc_name tc /\ output_name tc = tc_name tc) cases
    /\ (forall k item,
          nth_error items k = Some item ->
          exists serial name resp_in resp_out,
            nth_error serials k = Some serial
            /\ getitem item "name" = OK name
            /\ (let hk := List.app h
                            (map (fun u => (s, GET u))
                               ((base ++ "/header") :: flat_map urls (firstn k serials))) in
                let url := base ++ "/" ++ format (repr E) serial in
                send E hk s (GET (url ++ "/in")) = OK resp_in
                /\ send E (List.app hk [(s, GET (url ++ "/in"))]) s (GET (url ++ "/out"))
                   = OK resp_out
                /\ nth_error cases k
                   = Some (mkTestCase (format (repr E) name) (format (repr E) name)
                             (content resp_in) (format (repr E) name)
                             (content resp_out)))).
Proof.
  unfold AOJProblem.download_system_cases. cbv zeta.
  unfold bindIO at 1. unfold utils_request at 1.
  destruct (send E h _ _) as [resp|e] eqn:Hsend; [|discriminate].
  destruct (true && is_error_status resp); [discriminate|].
  unfold bindIO at 1. unfold lift at 1.
  destruct (json_loads E (text resp)) as [header|e] eqn:Hheader; [|discriminate].
  unfold bindIO at 1. unfold lift at 1.
  destruct (getitem header "headers") as [headers|e] eqn:Hheaders; [|discriminate].
  unfold bindIO at 1. unfold lift at 1.
  destruct (iterate headers) as [items|e] eqn:Hitems; [|discriminate].
  intros Hloop.
  destruct (aoj_system_cases_loop E self _ items _ _ _ Hloop)
    as (serials & Hser & Hlen & Hh & Hnames).
  exists resp, header, headers, items, serials.
  assert (Hcount : List.length serials = List.length cases).
  { rewrite Hlen. symmetry. clear -Hser. induction Hser; cbn; congruence. }
  split; [first [reflexivity | exact Hsend]|].
  split; [first [reflexivity | exact Hheader]|].
  split; [first [reflexivity | exact Hheaders]|].
  split; [first [reflexivity | exact Hitems]|].
  split; [exact Hser|]. split; [exact Hlen|].
  split; [|split; [|split; [exact Hnames|]]].
  - rewrite Hh. cbn [map]. rewrite <- List.app_assoc. reflexivity.
  - rewrite Hh. rewrite !List.length_app, List.length_map. cbn [List.length].
    rewrite <- Hcount. clear. induction serials as [|x l IH]; cbn [flat_map List.length List.app].
    + lia.
    + cbn [List.length] in *. lia.
  - intros k item Hk.
    destruct (aoj_system_cases_entries E self _ items _ _ _ serials Hloop Hser k item Hk)
      as (serial & name & rin & rout & Hs & Hn & Hi & Ho & Hc).
    exists serial, name, rin, rout.
    split; [exact Hs|]. split; [exact Hn|].
    cbv zeta in Hi, Ho |- *.
    split; [same_history Hi|]. split; [same_history Ho | exact Hc].
Qed.

Lemma api_samples_names E samples :
  forall i cases,
    AOJProblem.api_samples E i samples = OK cases ->
    map tc_name cases
    = map (fun k => "sample-" ++ str_of_int (Z.of_nat (k + 1)))
        (seq i (List.length samples))
    /\ Forall2 (fun sample tc =>
                  exists serial, getitem sample "serial" = OK serial
                                 /\ input_name tc = format (repr E) serial
                                 /\ output_name tc = format (repr E) serial)
         samples cases.
Proof.
  induction samples as [|sample rest IH]; intros i cases; cbn [AOJProblem.api_samples].
  - intros [= <-]. split; [reflexivity | constructor].
  - destruct (AOJProblem.api_sample E i sample) as [tc|e] eqn:Htc; [|discriminate].
    cbn [bind].
    destruct (AOJProblem.api_samples E (S i) rest) as [more|e] eqn:Hmore; [|discriminate].
    cbn [bind]. intros [= <-].
    destruct (IH _ _ Hmore) as [Hn Hs].
    revert Htc. unfold AOJProblem.api_sample.
    destruct (getitem sample "serial") as [serial|e] eqn:Hserial; [|discriminate].
    cbn [bind].
    destruct (getitem sample "in") as [input|e]; [|discriminate]. cbn [bind].
    destruct (encode_json input) as [ibytes|e]; [|discriminate]. cbn [bind].
    destruct (getitem sample "out") as [output|e]; [|discriminate]. cbn [bind].
    destruct (encode_json output) as [obytes|e]; [|discriminate]. cbn [bind].
    intros [= <-]. split.
    + cbn [map List.length seq tc_name]. now rewrite Hn.
    + constructor; [|exact Hs]. exists serial.
      split; [exact Hserial | split; reflexivity].
Qed.

(** X16.  When the official API lists samples for a problem,
    [AOJProblem.download_sample_cases] makes that one request and
    returns one test case per sample, in the order of the reply, named
    [sample-1], [sample-2], ...; the input and the output of a test
    case are both named by the text of the [serial] of its sample. *)
Theorem aoj_api_sample_names
  (E : Env) (self : AOJProblem.t) (session : option (Session E)) (h : History E)
  (resp : Response) (reply : json) (samples : list json) (cases : list TestCase) :
  let s := session_or_default E session in
  let api := GET ("https://judgedat.u-aizu.ac.jp/testcases/samples/"
                    ++ AOJProblem.problem_id self) in
  send E h s api = OK resp -> is_error_status resp = false ->
  json_loads E (text resp) = OK reply -> iterate reply = OK samples ->
  samples <> [] ->
  AOJProblem.api_samples E 0 samples = OK cases ->
  AOJProblem.download_sample_cases E self session h = (OK cases, (h ++ [(s, api)])%list)
  /\ map tc_name cases
     = map (fun k => "sample-" ++ str_of_int (Z.of_nat (k + 1)))
         (seq 0 (List.length samples))
  /\ Forall2 (fun sample tc =>
                exists serial, getitem sample "serial" = OK serial
                               /\ input_name tc = format (repr E) serial
                               /\ output_name tc = format (repr E) serial)
       samples cases.
Proof.
  intros s api Hsend Hok Hreply Hiter Hne Hcases.
  destruct (api_samples_names E samples 0 cases Hcases) as [Hnames Hserial].
  split; [|split; [exact Hnames | exact Hserial]].
  unfold AOJProblem.download_sample_cases, bindIO, utils_request, lift, ret.
  cbv zeta. fold s. fold api. rewrite Hsend, Hok. cbn [andb].
  rewrite Hreply, Hiter, Hcases.
  destruct cases as [|tc more]; [|reflexivity].
  destruct samples; [congruence|]. inversion Hserial.
Qed.

Lemma resolve_misses self problems :
  (forall p, In p problems ->
     exists id, getitem p "id" = OK id
                /\ eq_str id (AOJArenaProblem.alphabet self) = false) ->
  AOJArenaProblem.resolve self problems = OK self.
Proof.
  induction problems as [|p rest IH]; intros Hall; cbn [AOJArenaProblem.resolve];
    [reflexivity|].
  destruct (Hall p (or_introl eq_refl)) as (id & Hid & Hne).
  rewrite Hid. cbn [bind]. rewrite Hne. apply IH.
  intros q Hq. apply Hall. now right.
Qed.

(** X17.  When the list of the arena has no problem under the letter of
    the handle, [AOJArenaProblem.get_problem_id] raises nothing: it
    returns [None] and leaves the memo slot empty, so that the next call
    asks again; and [download_sample_cases] goes on with the problem
    whose id is the text [None]. *)
Theorem arena_unlisted_letter
  (E : Env) (self : AOJArenaProblem.t) (h : History E)
  (resp : Response) (reply : json) (problems : list json) :
  let req := GET ("https://judgeapi.u-aizu.ac.jp/arenas/"
                    ++ AOJArenaProblem.arena_id self ++ "/problems") in
  AOJArenaProblem._problem_id self = None ->
  (forall session,
      send E h (session_or_default E session) req = OK resp) ->
  is_error_status resp = false ->
  json_loads E (text resp) = OK reply ->
  iterate reply = OK problems ->
  (forall p, In p problems ->
     exists id, getitem p "id" = OK id
                /\ eq_str id (AOJArenaProblem.alphabet self) = false) ->
  (forall session,
      AOJArenaProblem.get_problem_id E self session h
      = (OK (None, self), (h ++ [(session_or_default E session, req)])%list))
  /\ (forall session,
        AOJArenaProblem.download_sample_cases E self session h
        = (cases <- AOJProblem.download_sample_cases E (AOJProblem.cls "None") session ;;
           ret (cases, self))%io (h ++ [(get_default_session E, req)])%list).
Proof.
  intros req Hslot Hsend Hok Hreply Hiter Hmiss.
  assert (Hget : forall session,
             AOJArenaProblem.get_problem_id E self session h
             = (OK (None, self), (h ++ [(session_or_default E session, req)])%list)).
  { intros session. unfold AOJArenaProblem.get_problem_id. rewrite Hslot.
    unfold bindIO, utils_request, lift, ret. cbv zeta. fold req.
    rewrite (Hsend session), Hok. cbn [andb]. rewrite Hreply, Hiter.
    rewrite (resolve_misses self problems Hmiss). now rewrite Hslot. }
  split; [exact Hget|].
  intros session. unfold AOJArenaProblem.download_sample_cases.
  unfold bindIO at 1. rewrite (Hget None). reflexivity.
Qed.

Lemma request_recorded E (req : Request) (s : Session E) flag h :
  snd (utils_request req s flag h) = (h ++ [(s, req)])%list.
Proof.
  unfold utils_request. destruct (send E h s req) as [resp|e]; [|reflexivity].
  destruct (flag && is_error_status resp); reflexivity.
Qed.

(** A computation only adds to the history of requests. *)
Lemma bindIO_extends E A B (m : IO E A) (k : A -> IO E B) :
  (forall h, exists l, snd (m h) = (h ++ l)%list) ->
  (forall a h, exists l, snd (k a h) = (h ++ l)%list) ->
  forall h, exists l, snd (bindIO m k h) = (h ++ l)%list.
Proof.
  intros Hm Hk h. unfold bindIO. destruct (Hm h) as [l Hl].
  destruct (m h) as [[a|e] h1]; cbn [snd] in Hl; subst h1.
  - destruct (Hk a (h ++ l)%list) as [l' Hl']. exists (l ++ l')%list.
    now rewrite Hl', List.app_assoc.
  - now exists l.
Qed.

Lemma lift_extends E A (r : result A) :
  forall h : History E, exists l, snd (lift r h) = (h ++ l)%list.
Proof. intros h. exists []. cbn. now rewrite List.app_nil_r. Qed.

Lemma ret_extends E A (a : A) :
  forall h : History E, exists l, snd (ret a h) = (h ++ l)%list.
Proof. intros h. exists []. cbn. now rewrite List.app_nil_r. Qed.

Lemma request_extends E (req : Request) (s : Session E) flag :
  forall h, exists l, snd (utils_request req s flag h) = (h ++ l)%list.
Proof. intros h. eexists. apply request_recorded. Qed.

Lemma aoj_system_cases_extend E self s headers :
  forall h, exists l, snd (AOJProblem.system_cases E self s headers h) = (h ++ l)%list.
Proof.
  induction headers as [|header rest IH]; cbn [AOJProblem.system_cases].
  - apply ret_extends.
  - apply bindIO_extends; [apply lift_extends | intros serial]. cbv zeta.
    apply bindIO_extends; [apply request_extends | intros resp_in].
    apply bindIO_extends; [apply request_extends | intros resp_out].
    apply bindIO_extends; [apply lift_extends | intros name].
    apply bindIO_extends; [exact IH | intros more]. apply ret_extends.
Qed.

Lemma aoj_downloads_extend E self session :
  (forall h, exists l,
      snd (AOJProblem.download_sample_cases E self session h) = (h ++ l)%list)
  /\ (forall h, exists l,
        snd (AOJProblem.download_system_cases E self session h) = (h ++ l)%list).
Proof.
  split.
  - unfold AOJProblem.download_sample_cases. cbv zeta.
    apply bindIO_extends; [apply request_extends | intros resp].
    apply bindIO_extends; [apply lift_extends | intros reply].
    apply bindIO_extends; [apply lift_extends | intros items].
    apply bindIO_extends; [apply lift_extends | intros samples].
    destruct samples as [|tc more]; [|apply ret_extends].
    apply bindIO_extends; [apply request_extends | intros resp2].
    apply bindIO_extends; [apply lift_extends | intros reply2].
    apply bindIO_extends; [apply lift_extends | intros html].
    apply bindIO_extends; [apply lift_extends | intros soup]. apply ret_extends.
  - unfold AOJProblem.download_system_cases. cbv zeta.
    apply bindIO_extends; [apply request_extends | intros resp].
    apply bindIO_extends; [apply lift_extends | intros header].
    apply bindIO_extends; [apply lift_extends | intros headers].
    apply bindIO_extends; [apply lift_extends | intros items].
    apply aoj_system_cases_extend.
Qed.

(** What follows a first request comes after it in the history. *)
Lemma first_request_recorded E A (req : Request) (s : Session E) flag
  (k : Response -> IO E A) h :
  (forall resp h1, exists l, snd (k resp h1) = (h1 ++ l)%list) ->
  exists later, snd (bindIO (utils_request req s flag) k h) = (h ++ (s, req) :: later)%list.
Proof.
  intros Hk. unfold bindIO. pose proof (request_recorded E req s flag h) as Hr.
  destruct (utils_request req s flag h) as [[resp|e] h1]; cbn [snd] in Hr; subst h1.
  - destruct (Hk resp (h ++ [(s, req)])%list) as [l Hl]. exists l.
    rewrite Hl, <- List.app_assoc. reflexivity.
  - exists []. reflexivity.
Qed.

(** X18.  [AOJArenaProblem.download_sample_cases] and
    [download_system_cases] look the problem id up without handing
    their session on: on a handle whose memo slot is empty, the first
    request of either goes out on the default session, whatever session
    the caller gave. *)
Theorem arena_lookup_uses_default_session
  (E : Env) (self : AOJArenaProblem.t) (session : option (Session E)) (h : History E) :
  AOJArenaProblem._problem_id self = None ->
  let first := (get_default_session E,
                GET ("https://judgeapi.u-aizu.ac.jp/arenas/"
                       ++ AOJArenaProblem.arena_id self ++ "/problems")) in
  (exists later,
      snd (AOJArenaProblem.download_sample_cases E self session h)
      = List.app h (first :: later))
  /\ (exists later,
        snd (AOJArenaProblem.download_system_cases E self session h)
        = List.app h (first :: later)).
Proof.
  intros Hslot first.
  assert (Hshape : forall A (k : option json * AOJArenaProblem.t -> IO E A),
            (forall r h1, exists l, snd (k r h1) = (h1 ++ l)%list) ->
            exists later,
              snd (bindIO (AOJArenaProblem.get_problem_id E self None) k h)
              = List.app h (first :: later)).
  { intros A k Hk. unfold AOJArenaProblem.get_problem_id. rewrite Hslot. cbv zeta.
    cbn [session_or_default].
    assert (Hassoc : forall X Y Z (m : IO E X) (f : X -> IO E Y) (g : Y -> IO E Z) h0,
               bindIO (bindIO m f) g h0 = bindIO m (fun x => bindIO (f x) g) h0).
    { intros X Y Z m f g h0. unfold bindIO. destruct (m h0) as [[x|e] h1]; reflexivity. }
    rewrite Hassoc. apply first_request_recorded. intros resp.
    apply bindIO_extends; [|exact Hk].
    apply bindIO_extends; [apply lift_extends | intros problems].
    apply bindIO_extends; [apply lift_extends | intros items].
    apply bindIO_extends; [apply lift_extends | intros self']. apply ret_extends. }
  split.
  - unfold AOJArenaProblem.download_sample_cases. apply Hshape. intros r.
    apply bindIO_extends; [|intros cases; apply ret_extends].
    apply (aoj_downloads_extend E (AOJArenaProblem.backing_problem E (fst r)) session).
  - unfold AOJArenaProblem.download_system_cases. apply Hshape. intros r.
    apply bindIO_extends; [|intros cases; apply ret_extends].
    apply (aoj_downloads_extend E (AOJArenaProblem.backing_problem E (fst r)) session).
Qed.

Lemma aoj_system_cases_requests_witness :
  List.length (snd (AOJProblem.download_system_cases aoj_system_world
                      (AOJProblem.cls "2256") None [])) = 3%nat
  /\ AOJProblem.download_system_cases aoj_system_world (AOJProblem.cls "2256") None []
     = (OK [mkTestCase "judge_data" "judge_data" (encode "1 2") "judge_data" (encode "3")],
        map (fun u => (tt, GET u))
          ["https://judgedat.u-aizu.ac.jp/testcases/2256/header";
           "https://judgedat.u-aizu.ac.jp/testcases/2256/1/in";
           "https://judgedat.u-aizu.ac.jp/testcases/2256/1/out"])
  /\ exists items serials,
       items = [JObj [("serial", JNum 1); ("name", JStr "judge_data")]]
       /\ serials = [JNum 1].
Proof.
  destruct (aoj_system_cases_requests aoj_system_world (AOJProblem.cls "2256") None []
              _ _ eq_refl)
    as (resp & header & headers & items & serials
        & Hsend & Hheader & Hheaders & Hitems & Hser & _ & _ & Hlen & _).
  split; [exact Hlen|]. split; [reflexivity|].
  exists items, serials.
  vm_compute in Hsend. injection Hsend as <-.
  vm_compute in Hheader. injection Hheader as <-.
  vm_compute in Hheaders. injection Hheaders as <-.
  vm_compute in Hitems. injection Hitems as <-.
  split; [reflexivity|].
  inversion Hser as [|x serial xs ss Hserial Hrest]; subst.
  inversion Hrest; subst.
  vm_compute in Hserial. injection Hserial as <-. reflexivity.
Defined.

Lemma aoj_api_sample_names_witness :
  AOJProblem.download_sample_cases aoj_api_world (AOJProblem.cls "2256") None []
  = (OK [mkTestCase "sample-1" "1" (encode "  1 2") "1" (encode "3")],
     [(tt, GET "https://judgedat.u-aizu.ac.jp/testcases/samples/2256")])
  /\ map tc_name [mkTestCase "sample-1" "1" (encode "  1 2") "1" (encode "3")]
     = ["sample-1"].
Proof.
  destruct (aoj_api_sample_names aoj_api_world (AOJProblem.cls "2256") None [] _ _ _
              [mkTestCase "sample-1" "1" (encode "  1 2") "1" (encode "3")]
              eq_refl eq_refl eq_refl eq_refl) as (Hd & Hn & _).
  - discriminate.
  - reflexivity.
  - split; [exact Hd | exact Hn].
Defined.

Lemma arena_unlisted_letter_witness :
  AOJArenaProblem.get_problem_id arena_world
    (AOJArenaProblem.mk "RitsCamp19Day2" "C" None) None []
  = (OK (None, AOJArenaProblem.mk "RitsCamp19Day2" "C" None),
     [(tt, GET "https://judgeapi.u-aizu.ac.jp/arenas/RitsCamp19Day2/problems")]).
Proof.
  destruct (arena_unlisted_letter arena_world
              (AOJArenaProblem.mk "RitsCamp19Day2" "C" None) []
              (ok_response "https://judgeapi.u-aizu.ac.jp/arenas/RitsCamp19Day2/problems"
                 "problems")
              (JArr [JObj [("id", JStr "A"); ("problemId", JStr "3001")];
                     JObj [("id", JStr "B"); ("problemId", JStr "3002")]])
              [JObj [("id", JStr "A"); ("problemId", JStr "3001")];
               JObj [("id", JStr "B"); ("problemId", JStr "3002")]]
              eq_refl (fun _ => eq_refl) eq_refl eq_refl eq_refl) as [H _].
  - intros p [<-|[<-|[]]].
    + exists (JStr "A"). split; reflexivity.
    + exists (JStr "B"). split; reflexivity.
  - exact (H None).
Defined.

Lemma arena_lookup_uses_default_session_witness :
  exists later,
    snd (AOJArenaProblem.download_sample_cases offline_world
           (AOJArenaProblem.mk "RitsCamp19Day2" "A" None) (Some true) [])
    = (false, GET "https://judgeapi.u-aizu.ac.jp/arenas/RitsCamp19Day2/problems") :: later.
Proof.
  exact (proj1 (arena_lookup_uses_default_session offline_world
                  (AOJArenaProblem.mk "RitsCamp19Day2" "A" None) (Some true) [] eq_refl)).
Defined.

(** ** Searching, slicing and splitting *)

Lemma startswith_app_false m x rest :
  startswith m x = false -> (String.length m <= String.length x)%nat ->
  startswith m (x ++ rest) = false.
Proof.
  revert x. induction m as [|a m IH]; intros x; cbn [startswith]; [discriminate|].
  destruct x as [|b x]; cbn [String.length append]; [lia|].
  intros H Hlen. destruct (Ascii.eqb a b); cbn [andb] in *; [|reflexivity].
  apply IH; [exact H | lia].
Qed.

Lemma find_sub_bound m s n : find_sub m s = Some n -> (n + String.length m <= String.length s)%nat.
Proof.
  revert n. induction s as [|c s IH]; intros n; cbn [find_sub].
  - destruct (startswith m "") eqn:E; [|discriminate]. intros [= <-].
    destruct m; [cbn; lia | discriminate].
  - destruct (startswith m (String c s)) eqn:E.
    + intros [= <-]. clear IH. revert E. generalize (String c s). clear.
      induction m as [|a m IH]; intros x; cbn; [lia|].
      destruct x as [|b x]; [discriminate|].
      intros H. apply andb_true_iff in H. destruct H as [_ H]. apply IH in H. cbn. lia.
    + destruct (find_sub m s) as [k|]; [|discriminate]. cbn [option_map].
      intros [= <-]. specialize (IH k eq_refl). cbn [String.length]. lia.
Qed.

(** The first occurrence of [m] in a text is its first occurrence in any
    longer text. *)
Lemma find_sub_app m s rest n : find_sub m s = Some n -> find_sub m (s ++ rest) = Some n.
Proof.
  revert n. induction s as [|c s IH]; intros n; cbn [find_sub].
  - destruct (startswith m "") eqn:E; [|discriminate]. intros [= <-].
    destruct m; [|discriminate]. cbn [append]. destruct rest; reflexivity.
  - destruct (startswith m (String c s)) eqn:E.
    + intros [= <-]. cbn [append find_sub].
      assert (H : startswith m (String c (s ++ rest)) = true).
      { clear IH. change (String c (s ++ rest)) with (String c s ++ rest).
        revert E. generalize (String c s). clear. induction m as [|a m IH]; intros x; cbn;
          [reflexivity|].
        destruct x as [|b x]; [discriminate|]. cbn.
        intros H. apply andb_true_iff in H. destruct H as [H1 H2].
        now rewrite H1, (IH _ H2). }
      now rewrite H.
    + destruct (find_sub m s) as [k|] eqn:Hk; [|discriminate]. cbn [option_map].
      intros [= <-]. cbn [append find_sub].
      pose proof (find_sub_bound m s k Hk) as Hb.
      change (String c (s ++ rest)) with (String c s ++ rest).
      rewrite (startswith_app_false m (String c s) rest E); [|cbn [String.length]; lia].
      cbn [append]. now rewrite (IH k eq_refl).
Qed.

Lemma index_from_app m pre s :
  index_from m (pre ++ s) (String.length pre)
  = option_map (Nat.add (String.length pre)) (find_sub m s).
Proof.
  induction pre as [|c pre IH]; cbn [append String.length index_from].
  - destruct (find_sub m s); reflexivity.
  - rewrite IH. destruct (find_sub m s); reflexivity.
Qed.

Lemma find_char c a b :
  has_char c a = false -> find_sub (String c "") (a ++ String c b) = Some (String.length a).
Proof.
  induction a as [|x a IH]; cbn [has_char append String.length find_sub startswith].
  - intros _. rewrite Ascii.eqb_refl. reflexivity.
  - intros H. apply orb_false_iff in H. destruct H as [Hx Ha].
    rewrite (Ascii.eqb_sym c x), Hx. cbn [andb]. now rewrite (IH Ha).
Qed.

Lemma str_drop_app pre s : str_drop (String.length pre) (pre ++ s) = s.
Proof. induction pre as [|c pre IH]; [reflexivity | exact IH]. Qed.

Lemma str_take_app a b : str_take (String.length a) (a ++ b) = a.
Proof.
  induction a as [|c a IH]; cbn [String.length append str_take].
  - destruct b; reflexivity.
  - now rewrite IH.
Qed.

Lemma length_app a b : String.length (a ++ b) = (String.length a + String.length b)%nat.
Proof. induction a as [|c a IH]; cbn; [reflexivity | now rewrite IH]. Qed.

Lemma list_ascii_app a b :
  list_ascii_of_string (a ++ b) = (list_ascii_of_string a ++ list_ascii_of_string b)%list.
Proof. induction a as [|c a IH]; cbn; [reflexivity | now rewrite IH]. Qed.

(** The last character of a text, when it is one byte, is what [s[:-1]]
    leaves out. *)
Lemma chop_last s c : is_continuation c = false -> chop (s ++ String c "") = s.
Proof.
  intros Hc. unfold chop. rewrite list_ascii_app. cbn [list_ascii_of_string].
  rewrite List.rev_app_distr. cbn [List.rev List.app chop_reversed]. rewrite Hc.
  rewrite List.rev_involutive. apply string_of_list_ascii_of_string.
Qed.

Lemma split_on2_nonempty a b s : split_on2 a b s <> [].
Proof.
  induction s as [|x r IH]; cbn [split_on2]; [discriminate|].
  destruct r as [|y r']; [discriminate|].
  destruct (Ascii.eqb x a && Ascii.eqb y b); [discriminate|].
  destruct (split_on2 a b (String y r')); discriminate.
Qed.

Lemma split_on2_cons a b x y r :
  Ascii.eqb x a && Ascii.eqb y b = false ->
  split_on2 a b (String x (String y r))
  = match split_on2 a b (String y r) with
    | h :: t => String x h :: t
    | [] => [String x ""]
    end.
Proof. intros H. cbn [split_on2]. rewrite H. reflexivity. Qed.

(** A text without the second character of the separator is not split. *)
Lemma split_on2_absent a b s : has_char b s = false -> split_on2 a b s = [s].
Proof.
  induction s as [|x r IH]; [reflexivity|].
  cbn [has_char]. intros H. apply orb_false_iff in H. destruct H as [Hx Hr].
  destruct r as [|y r']; [reflexivity|].
  pose proof Hr as Hr0. cbn [has_char] in Hr. apply orb_false_iff in Hr.
  destruct Hr as [Hy Hr'].
  rewrite split_on2_cons; [|now rewrite Hy, andb_false_r].
  now rewrite (IH Hr0).
Qed.

(** A separator after a text without its second character. *)
Lemma split_on2_second_absent a b p rest :
  Ascii.eqb a b = false -> has_char b p = false ->
  split_on2 a b (p ++ String a (String b rest)) = p :: split_on2 a b rest.
Proof.
  intros Hab. induction p as [|x p IH]; cbn [has_char append].
  - intros _. cbn [split_on2]. now rewrite !Ascii.eqb_refl.
  - intros H. apply orb_false_iff in H. destruct H as [Hx Hp].
    assert (Hnext : exists y r', p ++ String a (String b rest) = String y r'
                                 /\ Ascii.eqb y b = false).
    { destruct p as [|y p']; cbn [append].
      - exists a, (String b rest). split; [reflexivity | exact Hab].
      - exists y, (p' ++ String a (String b rest)). split; [reflexivity|].
        cbn [has_char] in Hp. apply orb_false_iff in Hp. tauto. }
    destruct Hnext as (y & r' & Hr & Hy). rewrite Hr.
    rewrite split_on2_cons; [|now rewrite Hy, andb_false_r].
    rewrite <- Hr. now rewrite (IH Hp).
Qed.

(** A separator after a text without its first character. *)
Lemma split_on2_first_absent a b p rest :
  has_char a p = false ->
  split_on2 a b (p ++ String a (String b rest)) = p :: split_on2 a b rest.
Proof.
  induction p as [|x p IH]; cbn [has_char append].
  - intros _. cbn [split_on2]. now rewrite !Ascii.eqb_refl.
  - intros H. apply orb_false_iff in H. destruct H as [Hx Hp].
    assert (Hnext : exists y r', p ++ String a (String b rest) = String y r').
    { destruct p as [|y p']; cbn [append]; eexists; eexists; reflexivity. }
    destruct Hnext as (y & r' & Hr). rewrite Hr.
    rewrite split_on2_cons; [|now rewrite Hx].
    rewrite <- Hr. now rewrite (IH Hp).
Qed.

(** A text without the first character of the separator goes to the
    head of the first part. *)
Lemma split_on2_prefix a b p s :
  has_char a p = false -> s <> "" ->
  split_on2 a b (p ++ s)
  = match split_on2 a b s with
    | h :: t => (p ++ h) :: t
    | [] => [p ++ s]
    end.
Proof.
  intros Hp Hs. induction p as [|x p IH]; cbn [append].
  - destruct (split_on2 a b s) eqn:E; [now apply split_on2_nonempty in E | reflexivity].
  - cbn [has_char] in Hp. apply orb_false_iff in Hp. destruct Hp as [Hx Hp].
    assert (Hnext : exists y r', p ++ s = String y r').
    { destruct p as [|y p']; cbn [append]; [|eexists; eexists; reflexivity].
      destruct s as [|y s']; [congruence|]. eexists; eexists; reflexivity. }
    destruct Hnext as (y & r' & Hr). rewrite Hr.
    rewrite split_on2_cons; [|now rewrite Hx].
    rewrite <- Hr. rewrite (IH Hp).
    destruct (split_on2 a b s) eqn:E; [now apply split_on2_nonempty in E | reflexivity].
Qed.

(** ** The table of display names of HackerRank *)

Lemma key_char_no_quote k : str_forallb key_char k = true -> has_char dquote k = false.
Proof. apply has_char_none. reflexivity. Qed.

Lemma value_char_no_quote v : str_forallb value_char v = true -> has_char dquote v = false.
Proof. apply has_char_none. reflexivity. Qed.

Lemma value_char_no_comma v : str_forallb value_char v = true -> has_char "," v = false.
Proof. apply has_char_none. reflexivity. Qed.

Lemma key_char_no_brace k : str_forallb key_char k = true -> has_char "}" k = false.
Proof. apply has_char_none. reflexivity. Qed.

Lemma value_char_no_brace v : str_forallb value_char v = true -> has_char "}" v = false.
Proof. apply has_char_none. reflexivity. Qed.

(** The value of an entry with its opening quote, before the next entry
    and at the end of the table. *)
Lemma split_quoted_value v rest :
  str_forallb value_char v = true ->
  split_on2 dquote "," (String dquote (v ++ String dquote (String "," rest)))
  = String dquote v :: split_on2 dquote "," rest.
Proof.
  intros Hv.
  assert (Hnext : exists y r', v ++ String dquote (String "," rest) = String y r'
                               /\ Ascii.eqb y "," = false).
  { destruct v as [|y v']; cbn [append].
    - exists dquote, (String "," rest). split; reflexivity.
    - exists y, (v' ++ String dquote (String "," rest)). split; [reflexivity|].
      cbn [str_forallb] in Hv. apply andb_true_iff in Hv. destruct Hv as [Hy _].
      revert Hy. clear. all_chars y. }
  destruct Hnext as (y & r' & Hr & Hy). rewrite Hr.
  rewrite split_on2_cons; [|now rewrite Hy, andb_false_r].
  rewrite <- Hr.
  now rewrite (split_on2_second_absent dquote "," v rest eq_refl (value_char_no_comma v Hv)).
Qed.

Lemma split_quoted_last v :
  str_forallb value_char v = true ->
  split_on2 dquote "," (String dquote v) = [String dquote v].
Proof.
  intros Hv. destruct v as [|y v']; [reflexivity|].
  rewrite split_on2_cons.
  - now rewrite (split_on2_absent dquote "," _ (value_char_no_comma _ Hv)).
  - cbn [str_forallb] in Hv. apply andb_true_iff in Hv. destruct Hv as [Hy _].
    revert Hy. clear. all_chars y.
Qed.

Lemma colon_no_quote k : has_char dquote k = false -> has_char dquote (k ++ ":") = false.
Proof. intros H. rewrite has_char_app, H. reflexivity. Qed.

(** The body of the table, split at each quote followed by a comma. *)
Lemma split_table_body entries :
  forallb plain_entry entries = true -> entries <> [] ->
  split_on2 dquote ","
    (join (String dquote ",")
       (map (fun kv => (fst kv ++ ":") ++ String dquote (snd kv)) entries))
  = map (fun kv => (fst kv ++ ":") ++ String dquote (snd kv)) entries.
Proof.
  induction entries as [|[k v] rest IH]; [congruence|]. intros Hall _.
  cbn [forallb] in Hall. apply andb_true_iff in Hall. destruct Hall as [Hkv Hrest].
  unfold plain_entry in Hkv. cbn [fst snd] in Hkv.
  apply andb_true_iff in Hkv. destruct Hkv as [Hk Hv].
  pose proof (colon_no_quote k (key_char_no_quote k Hk)) as Hkq.
  destruct rest as [|e rest'].
  - cbn [map join fst snd].
    rewrite (split_on2_prefix dquote "," (k ++ ":") (String dquote v) Hkq); [|discriminate].
    now rewrite (split_quoted_last v Hv).
  - specialize (IH Hrest ltac:(discriminate)).
    change (join (String dquote ",")
              (map (fun kv => (fst kv ++ ":") ++ String dquote (snd kv)) ((k, v) :: e :: rest')))
      with (((k ++ ":") ++ String dquote v) ++ String dquote "," ++
            join (String dquote ",")
              (map (fun kv => (fst kv ++ ":") ++ String dquote (snd kv)) (e :: rest'))).
    rewrite append_assoc.
    change (String dquote v ++ String dquote "," ++ ?j)
      with (String dquote (v ++ String dquote (String "," j))).
    rewrite (split_on2_prefix dquote "," (k ++ ":") _ Hkq); [|discriminate].
    rewrite (split_quoted_value v _ Hv), IH. reflexivity.
Qed.

Lemma dict_set_new k v d :
  ~ In k (map fst d) -> dict_set k v d = (d ++ [(k, v)])%list.
Proof.
  induction d as [|[k' v'] d IH]; cbn [dict_set map fst List.app In]; [reflexivity|].
  intros Hn. destruct (String.eqb_spec k' k) as [->|Hne]; [tauto|].
  rewrite IH; [reflexivity | tauto].
Qed.

Lemma mapping_of_plain_fields entries :
  forall d,
    forallb plain_entry entries = true ->
    NoDup (map fst d ++ map fst entries)%list ->
    HackerRankProblem.mapping_of_fields
      (map (fun kv => (fst kv ++ ":") ++ String dquote (snd kv)) entries) d
    = OK (d ++ entries)%list.
Proof.
  induction entries as [|[k v] rest IH]; intros d Hall Hnd.
  - cbn. now rewrite List.app_nil_r.
  - cbn [forallb] in Hall. apply andb_true_iff in Hall. destruct Hall as [Hkv Hrest].
    unfold plain_entry in Hkv. cbn [fst snd] in Hkv.
    apply andb_true_iff in Hkv. destruct Hkv as [Hk Hv].
    cbn [map HackerRankProblem.mapping_of_fields fst snd].
    change ((k ++ ":") ++ String dquote v) with ((k ++ ":") ++ String dquote v).
    rewrite append_assoc. change (":" ++ String dquote v) with (String ":" (String dquote v)).
    rewrite (split_on2_second_absent ":" dquote k v eq_refl (key_char_no_quote k Hk)).
    rewrite (split_on2_absent ":" dquote v (value_char_no_quote v Hv)).
    cbn [map fst] in Hnd.
    assert (Hfresh : ~ In k (map fst d)).
    { apply NoDup_remove_2 in Hnd. intros Hin. apply Hnd. apply in_or_app. now left. }
    rewrite (dict_set_new k v d Hfresh). rewrite IH; auto.
    + now rewrite <- List.app_assoc.
    + rewrite List.map_app. cbn [map fst]. rewrite <- List.app_assoc. exact Hnd.
Qed.

Lemma join_rendered entries :
  entries <> [] ->
  join "," (map render_entry entries)
  = join (String dquote ",")
      (map (fun kv => (fst kv ++ ":") ++ String dquote (snd kv)) entries)
    ++ String dquote "".
Proof.
  induction entries as [|[k v] rest IH]; [congruence|]. intros _.
  destruct rest as [|e rest'].
  - cbn [map join]. unfold render_entry. cbn [fst snd].
    rewrite !append_assoc. reflexivity.
  - specialize (IH ltac:(discriminate)).
    change (join "," (map render_entry ((k, v) :: e :: rest')))
      with (render_entry (k, v) ++ "," ++ join "," (map render_entry (e :: rest'))).
    rewrite IH.
    change (join (String dquote ",")
              (map (fun kv => (fst kv ++ ":") ++ String dquote (snd kv)) ((k, v) :: e :: rest')))
      with (((k ++ ":") ++ String dquote v) ++ String dquote "," ++
            join (String dquote ",")
              (map (fun kv => (fst kv ++ ":") ++ String dquote (snd kv)) (e :: rest'))).
    unfold render_entry. cbn [fst snd].
    repeat (progress (rewrite ?append_assoc; cbn [append])). reflexivity.
Qed.

Lemma rendered_no_brace entries :
  forallb plain_entry entries = true ->
  has_char "}" (join "," (map render_entry entries)) = false.
Proof.
  induction entries as [|[k v] rest IH]; [reflexivity|]. intros Hall.
  cbn [forallb] in Hall. apply andb_true_iff in Hall. destruct Hall as [Hkv Hrest].
  unfold plain_entry in Hkv. cbn [fst snd] in Hkv.
  apply andb_true_iff in Hkv. destruct Hkv as [Hk Hv].
  assert (He : has_char "}" (render_entry (k, v)) = false).
  { unfold render_entry. cbn [fst snd].
    rewrite has_char_app, (key_char_no_brace k Hk). cbn [append has_char orb].
    change (Ascii.eqb ":" "}") with false. change (Ascii.eqb dquote "}") with false.
    cbn [orb]. rewrite has_char_app, (value_char_no_brace v Hv). reflexivity. }
  destruct rest as [|e rest']; [exact He|].
  change (join "," (map render_entry ((k, v) :: e :: rest')))
    with (render_entry (k, v) ++ "," ++ join "," (map render_entry (e :: rest'))).
  rewrite has_char_app, He. cbn [append has_char orb].
  change (Ascii.eqb "," "}") with false. cbn [orb]. exact (IH Hrest).
Qed.

(** X19.  The table of display names is read back as it was written: in
    a script that holds, where the marker first occurs, a table of
    entries [key:value] with the values in double quotes, the first
    of them [c] for [C], with different keys and no double quote or
    closing brace in a key or a value and no comma in a value,
    [parse_lang_display_mapping] returns exactly these entries, in
    their order, whatever the script holds before and after. *)
Theorem lang_display_mapping_roundtrip
  (pre post : string) (second : string * string) (more : list (string * string)) :
  let entries := ("c", "C") :: second :: more in
  find_sub HackerRankProblem.lang_display_mapping_marker
    (pre ++ HackerRankProblem.lang_display_mapping_marker)
  = Some (String.length pre) ->
  forallb plain_entry entries = true ->
  NoDup (map fst entries) ->
  HackerRankProblem.parse_lang_display_mapping
    (pre ++ "lang_display_mapping:" ++ render_mapping entries ++ post)
  = OK entries.
Proof.
  intros entries Hfirst Hall Hnd.
  set (body := join "," (map render_entry entries)).
  set (tail_ := join "," (map render_entry (second :: more))).
  assert (Hbody : body = "c:" ++ String dquote ("C" ++ String dquote ("," ++ tail_)))
    by reflexivity.
  assert (Hmark : pre ++ "lang_display_mapping:" ++ render_mapping entries ++ post
                  = (pre ++ HackerRankProblem.lang_display_mapping_marker)
                      ++ tail_ ++ "}" ++ post).
  { unfold render_mapping. fold body. rewrite Hbody.
    rewrite !append_assoc. reflexivity. }
  assert (Hopen : pre ++ "lang_display_mapping:" ++ render_mapping entries ++ post
                  = pre ++ "lang_display_mapping:" ++ String "{" (body ++ String "}" post)).
  { unfold render_mapping. fold body. cbn [append]. now rewrite append_assoc. }
  assert (Hopen2 : pre ++ "lang_display_mapping:" ++ String "{" (body ++ String "}" post)
                   = (pre ++ "lang_display_mapping:") ++ String "{" (body ++ String "}" post)).
  { now rewrite append_assoc. }
  pose proof (rendered_no_brace entries Hall) as Hnb. fold body in Hnb.
  unfold HackerRankProblem.parse_lang_display_mapping.
  (* the marker *)
  change (index_from ?m ?s 0) with (find_sub m s).
  rewrite Hmark at 1. rewrite (find_sub_app _ _ _ _ Hfirst).
  (* the opening brace *)
  rewrite Hopen at 1.
  rewrite (index_from_app "{" pre _).
  change (find_sub "{" ("lang_display_mapping:" ++ String "{" (body ++ String "}" post)))
    with (Some 21%nat).
  cbn [option_map].
  (* the closing brace *)
  rewrite Hopen, Hopen2.
  replace (String.length pre + 21)%nat with (String.length (pre ++ "lang_display_mapping:"))
    by (rewrite length_app; reflexivity).
  rewrite (index_from_app "}" (pre ++ "lang_display_mapping:") _).
  change (String "{" (body ++ String "}" post)) with (String "{" body ++ String "}" post).
  rewrite (find_char "}" (String "{" body) post); [|exact Hnb].
  cbn [option_map]. cbv zeta.
  (* the slice *)
  unfold slice. rewrite str_drop_app.
  replace (String.length (pre ++ "lang_display_mapping:") + String.length (String "{" body) + 1
           - String.length (pre ++ "lang_display_mapping:"))%nat
    with (String.length (String "{" body ++ "}")) by (rewrite length_app; cbn; lia).
  replace (String "{" body ++ String "}" post) with ((String "{" body ++ "}") ++ post)
    by (rewrite append_assoc; reflexivity).
  rewrite str_take_app.
  (* without the braces and the last quote *)
  rewrite (chop_last (String "{" body) "}" eq_refl).
  unfold body. rewrite (join_rendered entries ltac:(discriminate)).
  change (String "{" (?j ++ String dquote "")) with (String "{" j ++ String dquote "").
  rewrite (chop_last _ dquote eq_refl).
  change (behead (String "{" ?j)) with (lstrip_by is_continuation j).
  change (lstrip_by is_continuation
            (join (String dquote ",")
               (map (fun kv => (fst kv ++ ":") ++ String dquote (snd kv)) entries)))
    with (join (String dquote ",")
            (map (fun kv => (fst kv ++ ":") ++ String dquote (snd kv)) entries)).
  rewrite (split_table_body entries Hall ltac:(discriminate)).
  now rewrite (mapping_of_plain_fields entries [] Hall Hnd).
Qed.

Lemma lang_display_mapping_roundtrip_witness :
  HackerRankProblem.parse_lang_display_mapping
    ("var a={x:1};lang_display_mapping:"
       ++ render_mapping [("c", "C"); ("cpp", "C++"); ("java8", "Java 8")] ++ ",foo:{}")
  = OK [("c", "C"); ("cpp", "C++"); ("java8", "Java 8")].
Proof.
  apply (lang_display_mapping_roundtrip "var a={x:1};" ",foo:{}" ("cpp", "C++")
           [("java8", "Java 8")]).
  - reflexivity.
  - reflexivity.
  - repeat constructor; cbn; intuition discriminate.
Defined.

(** ** The languages of a HackerRank challenge *)

Lemma find_sub_absent m s : contains m s = false -> find_sub m s = None.
Proof.
  induction s as [|c s IH]; cbn [contains find_sub].
  - rewrite orb_false_r. intros ->. reflexivity.
  - intros H. apply orb_false_iff in H. destruct H as [H1 H2].
    rewrite H1, (IH H2). reflexivity.
Qed.



(** X21.  When the reply about the challenge has a false [status],
    [HackerRankProblem.get_available_languages] raises [SubmissionError]
    after that one request, without asking for the script.  When the
    script does not hold the marker of the table, it raises the
    [ValueError] of [str.index] after the two requests, whatever the
    model lists. *)
Theorem hackerrank_languages_errors
  (E : Env) (self : HackerRankProblem.t) (session : option (Session E)) (h : History E)
  (reply : Response) (body : string) (it status : json) :
  let s := session_or_default E session in
  let h1 := (h ++ [(s, GET (HackerRankProblem.rest_url self))])%list in
  let h2 := (h1 ++ [(get_default_session E, GET HackerRankProblem.codeshell_url)])%list in
  send E h s (GET (HackerRankProblem.rest_url self)) = OK reply ->
  is_error_status reply = false ->
  decode_utf8 (content reply) = OK body ->
  json_loads E body = OK it ->
  getitem it "status" = OK status ->
  (truthy status = false ->
   HackerRankProblem.get_available_languages E self session h
   = (Raise (SubmissionError ""), h1))
  /\ (forall info page script,
        truthy status = true -> getitem it "model" = OK info ->
        send E h1 (get_default_session E) (GET HackerRankProblem.codeshell_url) = OK page ->
        is_error_status page = false ->
        decode_utf8 (content page) = OK script ->
        contains HackerRankProblem.lang_display_mapping_marker script = false ->
        HackerRankProblem.get_available_languages E self session h
        = (Raise ValueError, h2)).
Proof.
  intros s h1 h2 Hsend Hok Hbody Hit Hstatus.
  unfold HackerRankProblem.get_available_languages, HackerRankProblem._get_model,
    HackerRankProblem._get_lang_display_mapping, bindIO, utils_request, lift, ret, throw.
  cbv zeta. cbn [session_or_default]. fold s.
  rewrite Hsend, Hok. cbn [andb]. rewrite Hbody, Hit, Hstatus. split.
  - intros Hfalse. rewrite Hfalse. reflexivity.
  - intros info page script Htrue Hmodel Hsend2 Hok2 Hscript Hmarker.
    rewrite Htrue. cbn [negb]. rewrite Hmodel. fold h1. rewrite Hsend2, Hok2. cbn [andb].
    rewrite Hscript. unfold HackerRankProblem.parse_lang_display_mapping.
    change (index_from ?m ?x 0) with (find_sub m x).
    rewrite (find_sub_absent _ _ Hmarker). reflexivity.
Qed.


Lemma hackerrank_languages_errors_witness :
  HackerRankProblem.get_available_languages (hackerrank_languages_world (JBool false))
    (HackerRankProblem.cls "master" "fp-hello-world") (Some true) []
  = (Raise (SubmissionError ""),
     [(true, GET "https://www.hackerrank.com/rest/contests/master/challenges/fp-hello-world")]).
Proof.
  destruct (hackerrank_languages_errors (hackerrank_languages_world (JBool false))
              (HackerRankProblem.cls "master" "fp-hello-world") (Some true) []
              _ "model" _ (JBool false) eq_refl eq_refl eq_refl eq_refl eq_refl) as [H _].
  exact (H eq_refl).
Defined.

(** ** The languages of a Codeforces problem *)

Lemma languages_of_options_shape options langs :
  CodeforcesProblem.languages_of_options options = OK langs ->
  Forall2 (fun o l =>
             exists name attrs contents,
               occ_node o = Tag name attrs contents
               /\ attr "value" attrs = Some (lang_id l)
               /\ lang_name l = node_string (occ_node o))
    options langs.
Proof.
  revert langs. induction options as [|o rest IH]; intros langs;
    cbn [CodeforcesProblem.languages_of_options].
  - intros [= <-]. constructor.
  - destruct (occ_node o) as [| |name attrs contents] eqn:Ho; try discriminate.
    destruct (attr "value" attrs) as [v|] eqn:Hv; [|discriminate]. cbn [bind].
    destruct (CodeforcesProblem.languages_of_options rest) as [more|e]; [|discriminate].
    cbn [bind]. intros [= <-]. constructor; [|now apply IH].
    exists name, attrs, contents. cbn [lang_id lang_name]. rewrite Ho. auto.
Qed.

(** X22.  [CodeforcesProblem.get_available_languages] makes one request,
    for the page of the problem.  A page without a [select] named
    [programTypeId] (the page of a session that is not signed in) makes
    it raise [NotLoggedInError].  Otherwise it lists the [option] tags
    below that [select] in document order, one language each: the id is
    the [value] attribute, the name the text of the option; an option
    without a [value] makes it raise [KeyError]. *)
Theorem codeforces_available_languages
  (E : Env) (self : CodeforcesProblem.t) (session : option (Session E)) (h : History E)
  (url : string) (page : Response) :
  let s := session_or_default E session in
  let h1 := (h ++ [(s, GET url)])%list in
  let soup := BeautifulSoup E (text page) in
  CodeforcesProblem.get_url self = OK url ->
  send E h s (GET url) = OK page -> is_error_status page = false ->
  (find_with_attr "select" "name" "programTypeId" soup = None ->
   CodeforcesProblem.get_available_languages E self session h = (Raise NotLoggedInError, h1))
  /\ (forall select langs,
        find_with_attr "select" "name" "programTypeId" soup = Some select ->
        CodeforcesProblem.get_available_languages E self session h = (OK langs, h1) ->
        Forall2 (fun o l =>
                   exists name attrs contents,
                     occ_node o = Tag name attrs contents
                     /\ attr "value" attrs = Some (lang_id l)
                     /\ lang_name l = node_string (occ_node o))
          (find_all "option" select) langs)
  /\ (forall select before o name attrs contents following,
        find_with_attr "select" "name" "programTypeId" soup = Some select ->
        find_all "option" select = (before ++ o :: following)%list ->
        (forall b, In b before ->
           exists nm at' cs v, occ_node b = Tag nm at' cs /\ attr "value" at' = Some v) ->
        occ_node o = Tag name attrs contents -> attr "value" attrs = None ->
        CodeforcesProblem.get_available_languages E self session h = (Raise KeyError, h1)).
Proof.
  intros s h1 soup Hurl Hsend Hok.
  unfold CodeforcesProblem.get_available_languages, bindIO, utils_request, lift, ret, throw.
  cbv zeta. fold s. rewrite Hurl, Hsend, Hok. cbn [andb]. fold h1. fold soup.
  split; [|split].
  - intros ->. reflexivity.
  - intros select langs ->. intros [= Hl]. now apply languages_of_options_shape.
  - intros select before o name attrs contents following -> -> Hbefore Ho Hv.
    assert (H : CodeforcesProblem.languages_of_options (before ++ o :: following)%list
                = Raise KeyError).
    { induction before as [|b before IH]; cbn [List.app CodeforcesProblem.languages_of_options].
      - rewrite Ho, Hv. reflexivity.
      - destruct (Hbefore b (or_introl eq_refl)) as (nm & at' & cs & v & Hb & Hbv).
        rewrite Hb, Hbv. cbn [bind]. rewrite IH; [reflexivity|].
        intros b' Hb'. apply Hbefore. now right. }
    now rewrite H.
Qed.

Lemma codeforces_available_languages_witness :
  CodeforcesProblem.get_available_languages codeforces_languages_world
    (CodeforcesProblem.mk 538 "H" "contest" None None None) None []
  = (OK [mkLanguage "54" (Some "GNU G++17 7.3.0"); mkLanguage "31" (Some "Python 3.9.1")],
     [(tt, GET "https://codeforces.com/contest/538/problem/H")])
  /\ CodeforcesProblem.get_available_languages
       (table_env [("GET https://codeforces.com/contest/538/problem/H",
                    ok_response "https://codeforces.com/contest/538/problem/H" "enter")]
          [] [])
       (CodeforcesProblem.mk 538 "H" "contest" None None None) None []
     = (Raise NotLoggedInError, [(tt, GET "https://codeforces.com/contest/538/problem/H")]).
Proof.
  split; [reflexivity|].
  destruct (codeforces_available_languages
              (table_env [("GET https://codeforces.com/contest/538/problem/H",
                           ok_response "https://codeforces.com/contest/538/problem/H" "enter")]
                 [] [])
              (CodeforcesProblem.mk 538 "H" "contest" None None None) None []
              "https://codeforces.com/contest/538/problem/H" _ eq_refl eq_refl eq_refl)
    as [H _].
  exact (H eq_refl).
Defined.

(** ** Signed in at the Aizu Online Judge *)

(** X23.  [AOJService.is_logged_in] makes one request and never raises
    on the status of the reply: every status other than 200, the failure
    statuses included, gives [False] without the body being parsed.  On
    status 200 with a JSON object as body, the answer is whether the
    object has the key [id]. *)
Theorem aoj_is_logged_in
  (E : Env) (loads : list byte -> result json) (self : AOJService.t)
  (session : option (Session E)) (h : History E) (resp : Response) :
  let s := session_or_default E session in
  let h1 := (h ++ [(s, GET "https://judgeapi.u-aizu.ac.jp/self")])%list in
  send E h s (GET "https://judgeapi.u-aizu.ac.jp/self") = OK resp ->
  (status_code resp <> 200%Z ->
   AOJService.is_logged_in E loads self session h = (OK false, h1))
  /\ (forall members,
        status_code resp = 200%Z -> loads (content resp) = OK (JObj members) ->
        AOJService.is_logged_in E loads self session h
        = (OK (match getitem (JObj members) "id" with
               | OK _ => true
               | Raise _ => false
               end), h1)).
Proof.
  intros s h1 Hsend.
  unfold AOJService.is_logged_in, bindIO, utils_request, lift, ret.
  cbv zeta. fold s. rewrite Hsend. cbn [andb]. fold h1. split.
  - intros Hne. apply Z.eqb_neq in Hne. now rewrite Hne.
  - intros members H200 Hloads. apply Z.eqb_eq in H200. rewrite H200. cbn [negb].
    rewrite Hloads. cbn [AOJService.json_contains getitem].
    assert (Hx : existsb (fun m : string * json => fst m =? "id") members
                 = match find (fun m : string * json => fst m =? "id") members with
                   | Some _ => true
                   | None => false
                   end).
    { clear. induction members as [|m rest IH]; [reflexivity|].
      cbn [existsb find]. destruct (fst m =? "id"); [reflexivity | exact IH]. }
    rewrite Hx. destruct (find _ members); reflexivity.
Qed.

Lemma aoj_is_logged_in_witness :
  AOJService.is_logged_in (aoj_self_world 401) (fun _ => Raise ValueError)
    AOJService.cls None []
  = (OK false, [(tt, GET "https://judgeapi.u-aizu.ac.jp/self")])
  /\ AOJService.is_logged_in (aoj_self_world 200)
       (fun _ => OK (JObj [("id", JStr "someone"); ("name", JStr "Some One")]))
       AOJService.cls None []
     = (OK true, [(tt, GET "https://judgeapi.u-aizu.ac.jp/self")]).
Proof.
  split.
  - destruct (aoj_is_logged_in (aoj_self_world 401) (fun _ => Raise ValueError)
                AOJService.cls None [] _ eq_refl) as [H _].
    apply H. discriminate.
  - destruct (aoj_is_logged_in (aoj_self_world 200)
                (fun _ => OK (JObj [("id", JStr "someone"); ("name", JStr "Some One")]))
                AOJService.cls None [] _ eq_refl) as [_ H].
    exact (H _ eq_refl eq_refl).
Defined.

(** ** What [AOJProblem.from_url] returns *)

Lemma re_source_path_sound p g :
  AOJProblem.re_source_path p = Some g -> AOJProblem.canonical (AOJProblem.cls g) = true.
Proof.
  unfold AOJProblem.re_source_path, obind, AOJProblem.canonical.
  cbn [AOJProblem.problem_id].
  destruct (strip_prefix "/" p) as [r1|]; [|discriminate].
  destruct (AOJProblem.re_area r1) as [r2|]; [|discriminate].
  destruct (strip_prefix "/" r2) as [r3|]; [|discriminate].
  destruct (AOJProblem.re_section r3) as [r4|]; [|discriminate].
  destruct (strip_prefix "/" r4) as [r5|]; [|discriminate].
  destruct (re_plus is_word r5) as [[g3 r6]|]; [|discriminate].
  destruct (strip_prefix "/" r6) as [r7|]; [|discriminate].
  destruct (re_plus is_word r7) as [[g4 r8]|]; [|discriminate].
  destruct (strip_prefix "/" r8) as [r9|]; [|discriminate].
  destruct (re_plus is_word r9) as [[g5 r10]|] eqn:H5; [|discriminate].
  destruct (at_end r10); [|discriminate]. intros [= <-].
  destruct (re_plus_spec _ _ _ _ H5) as (_ & Hne & Hw).
  now rewrite Hw, (nonempty_eqb g5 Hne).
Qed.

Lemma re_problems_path_sound p g :
  AOJProblem.re_problems_path p = Some g -> AOJProblem.canonical (AOJProblem.cls g) = true.
Proof.
  unfold AOJProblem.re_problems_path, obind, AOJProblem.canonical.
  cbn [AOJProblem.problem_id].
  destruct (strip_prefix "/problems/" p) as [r1|]; [|discriminate].
  destruct (re_plus is_word r1) as [[g1 r2]|] eqn:H1; [|discriminate].
  destruct (at_end r2); [|discriminate]. intros [= <-].
  destruct (re_plus_spec _ _ _ _ H1) as (_ & Hne & Hw).
  now rewrite Hw, (nonempty_eqb g1 Hne).
Qed.

Section SoundnessAOJ.

Variable normpath : string -> string.

(** X24.  Whatever URL without a percent escape and with a normalized
    path of ASCII characters [AOJProblem.from_url] resolves is on one of
    the two hosts.  On the old host the id of the handle is the value of
    the one [id] parameter of the query that has a value.  On the new
    host it is the last component of the path, a non-empty run of ASCII
    word characters: the handle is canonical and its own [get_url], on
    the old host, resolves back to it. *)
Theorem aoj_problem_from_url_sound (url : string) (p : AOJProblem.t) :
  has_char "%" url = false ->
  ascii_text (normpath (url_path url)) = true ->
  AOJProblem.from_url normpath url = OK (Some p) ->
  exists r,
    urlparse url = OK r /\ scheme_accepted r = true
    /\ ((netloc r = "judge.u-aizu.ac.jp"
         /\ parse_qs_get (query r) "id" = [AOJProblem.problem_id p])
        \/ (netloc r = "onlinejudge.u-aizu.ac.jp"
            /\ AOJProblem.canonical p = true
            /\ (keeps_path normpath (AOJProblem.get_url p) ->
                AOJProblem.from_url normpath (AOJProblem.get_url p) = OK (Some p)))).
Proof.
  unfold AOJProblem.from_url at 1. intros _ _ H.
  destruct (urlparse url) as [r|e] eqn:Hr; [|discriminate]. cbn [bind] in H.
  exists r. split; [reflexivity|].
  destruct (scheme_accepted r) eqn:Hs; cbn [andb] in H; [|discriminate].
  split; [reflexivity|].
  destruct (String.eqb_spec (netloc r) "judge.u-aizu.ac.jp") as [Hold|Hnew];
    cbn [andb] in H.
  - left. split; [exact Hold|].
    rewrite Hold in H.
    change ("judge.u-aizu.ac.jp" =? "onlinejudge.u-aizu.ac.jp") with false in H.
    cbv iota in H.
    destruct (normpath (path r) =? "/onlinejudge/description.jsp"); [|discriminate].
    destruct (parse_qs_get (query r) "id") as [|n [|n' t]]; try discriminate.
    injection H as <-. reflexivity.
  - right.
    destruct (String.eqb_spec (netloc r) "onlinejudge.u-aizu.ac.jp") as [Hn|];
      [|discriminate].
    split; [exact Hn|].
    assert (Hc : AOJProblem.canonical p = true).
    { destruct (AOJProblem.re_source_path (normpath (path r))) as [g|] eqn:H2.
      - injection H as <-. exact (re_source_path_sound _ _ H2).
      - destruct (AOJProblem.re_problems_path (normpath (path r))) as [g|] eqn:H3;
          [|discriminate].
        injection H as <-. exact (re_problems_path_sound _ _ H3). }
    split; [exact Hc|].
    intros Hk. exact (aoj_problem_roundtrip normpath p Hc Hk).
Qed.

End SoundnessAOJ.

Lemma aoj_problem_from_url_sound_witness :
  AOJProblem.canonical (AOJProblem.cls "CGL_3_B") = true
  /\ AOJProblem.from_url utils_normpath (AOJProblem.get_url (AOJProblem.cls "CGL_3_B"))
     = OK (Some (AOJProblem.cls "CGL_3_B")).
Proof.
  destruct (aoj_problem_from_url_sound utils_normpath
              "https://onlinejudge.u-aizu.ac.jp/courses/library/4/CGL/3/CGL_3_B"
              (AOJProblem.cls "CGL_3_B") eq_refl eq_refl eq_refl)
    as (r & _ & _ & [[Hold _]|(_ & Hc & Hr)]).
  - split; reflexivity.
  - split; [exact Hc | apply Hr; reflexivity].
Defined.

(** ** Edges of the HackerRank downloads and submissions *)

(** X25.  In [HackerRankProblem.download_system_cases] the body of a
    reply with status 403 is decoded for the log before anything is
    raised: a body that is not UTF-8 makes the call raise the decoding
    error, not [SampleParseError].  A reply whose status is neither 403
    nor a failure status is handed as it is to [extract_from_zip], with
    the pattern of the names of the archive. *)
Theorem hackerrank_system_cases_edges
  (E : Env) (self : HackerRankProblem.t) (session : option (Session E)) (h : History E)
  (resp : Response) :
  let s := session_or_default E session in
  let req := GET (HackerRankProblem.rest_url self ++ "/download_testcases") in
  let h' := (h ++ [(s, req)])%list in
  send E h s req = OK resp ->
  (status_code resp = 403%Z -> valid_utf8 [] (content resp) = false ->
   HackerRankProblem.download_system_cases E self session h
   = (Raise UnicodeDecodeError, h'))
  /\ (is_error_status resp = false ->
      HackerRankProblem.download_system_cases E self session h
      = (extract_from_zip E (content resp) "%eput/%eput%s.txt", h')).
Proof.
  intros s req h' Hsend.
  unfold HackerRankProblem.download_system_cases, bindIO, utils_request.
  fold s. fold req. fold h'. rewrite Hsend. cbn [andb]. split.
  - intros H403 Hbad. apply Z.eqb_eq in H403. rewrite H403.
    unfold lift, decode_utf8. rewrite Hbad. reflexivity.
  - intros Hok.
    assert (Hne : (status_code resp =? 403)%Z = false).
    { apply Z.eqb_neq. intros H403. unfold is_error_status in Hok. rewrite H403 in Hok.
      discriminate. }
    rewrite Hne. unfold raise_for_status. rewrite Hok. reflexivity.
Qed.

(** X26.  [HackerRankProblem.submit_code] decodes the code before it
    posts anything: with a signed-in session and a challenge page that
    carries a CSRF token, code that is not UTF-8 raises the decoding
    error after the two [GET] requests, and no [POST] is made.  A
    challenge page without the [meta] tag of the token raises
    [AttributeError] at the same point. *)
Theorem hackerrank_submit_before_post
  (E : Env) (self : HackerRankProblem.t) (code : list byte) (language_id : string)
  (filename : option string) (session : option (Session E)) (h : History E)
  (login page : Response) :
  let s := session_or_default E session in
  let h1 := (h ++ [(s, GET "https://www.hackerrank.com/auth/login")])%list in
  let h2 := (h1 ++ [(s, GET (HackerRankProblem.get_url self))])%list in
  send E h s (GET "https://www.hackerrank.com/auth/login") = OK login ->
  is_error_status login = false ->
  contains "/auth" (resp_url login) = false ->
  send E h1 s (GET (HackerRankProblem.get_url self)) = OK page ->
  is_error_status page = false ->
  (forall token,
      HackerRankProblem.csrf_token (BeautifulSoup E (text page)) = OK token ->
      valid_utf8 [] code = false ->
      HackerRankProblem.submit_code E self code language_id filename session h
      = (Raise UnicodeDecodeError, h2))
  /\ (find_with_attr "meta" "name" "csrf-token" (BeautifulSoup E (text page)) = None ->
      HackerRankProblem.submit_code E self code language_id filename session h
      = (Raise AttributeError, h2)).
Proof.
  intros s h1 h2 Hlogin Hok Hauth Hpage Hpok.
  unfold HackerRankProblem.submit_code, HackerRankService.is_logged_in, bindIO,
    utils_request, ret, throw, lift.
  cbn [session_or_default]. fold s. rewrite Hlogin, Hok. cbn [andb].
  rewrite Hauth. cbn [negb]. fold h1. rewrite Hpage, Hpok. cbn [andb]. fold h2.
  split.
  - intros token Htoken Hbad. rewrite Htoken. unfold decode_utf8. rewrite Hbad. reflexivity.
  - intros Hmeta. unfold HackerRankProblem.csrf_token. rewrite Hmeta. reflexivity.
Qed.

Lemma hackerrank_system_cases_edges_witness :
  HackerRankProblem.download_system_cases
    (table_env
       [("GET https://www.hackerrank.com/rest/contests/master/challenges/fp-hello-world/download_testcases",
         mkResponse 403 "https://www.hackerrank.com/" [x80] "?")] [] [])
    (HackerRankProblem.cls "master" "fp-hello-world") None []
  = (Raise UnicodeDecodeError,
     [(tt, GET "https://www.hackerrank.com/rest/contests/master/challenges/fp-hello-world/download_testcases")]).
Proof.
  destruct (hackerrank_system_cases_edges
              (table_env
                 [("GET https://www.hackerrank.com/rest/contests/master/challenges/fp-hello-world/download_testcases",
                   mkResponse 403 "https://www.hackerrank.com/" [x80] "?")] [] [])
              (HackerRankProblem.cls "master" "fp-hello-world") None [] _ eq_refl)
    as [H _].
  exact (H eq_refl eq_refl).
Defined.

Lemma hackerrank_submit_before_post_witness :
  HackerRankProblem.submit_code (hackerrank_submission_world (JBool true))
    (HackerRankProblem.cls "master" "fp-hello-world") [xff] "haskell" None None []
  = (Raise UnicodeDecodeError,
     [(tt, GET "https://www.hackerrank.com/auth/login");
      (tt, GET "https://www.hackerrank.com/challenges/fp-hello-world")]).
Proof.
  destruct (hackerrank_submit_before_post (hackerrank_submission_world (JBool true))
              (HackerRankProblem.cls "master" "fp-hello-world") [xff] "haskell" None None []
              _ _ eq_refl eq_refl eq_refl eq_refl eq_refl) as [H _].
  exact (H "TOKEN" eq_refl eq_refl).
Defined.

(** ** What [from_url] can raise *)

Lemma int_of_str_raises s e : int_of_str s = Raise e -> e = ValueError.
Proof.
  unfold int_of_str. destruct s as [|c r]; [now intros [= <-]|].
  destruct (str_forallb is_digit (String c r)); [|now intros [= <-]].
  destruct (NilEmpty.uint_of_string (String c r)); [discriminate | now intros [= <-]].
Qed.

Lemma urlparse_raises url e : urlparse url = Raise e -> e = ValueError.
Proof.
  unfold urlparse. destruct (urlsplit url) as [[[[[sch loc] p] qry] frag]|e0] eqn:Hsplit.
  - destruct (str_in_list sch uses_params && has_char ";" p);
      [destruct (splitparams p)|]; discriminate.
  - intros [= <-]. revert Hsplit. unfold urlsplit.
    destruct (split_scheme _) as [sch url1]. destruct (split_netloc url1) as [loc url2].
    destruct (xorb _ _); [now intros [= <-]|].
    destruct (split_once "#" url2) as [url3 frag]. destruct (split_once "?" url3).
    discriminate.
Qed.

Lemma contest_of_match_raises kind g e :
  In kind ["contest"; "gym"] ->
  CodeforcesContest.of_match kind g = Raise e -> e = ValueError.
Proof.
  intros Hk. unfold CodeforcesContest.of_match.
  destruct (int_of_str g) as [n|e0] eqn:Hn; cbn [bind].
  - unfold CodeforcesContest.cls. cbn [kind_in].
    rewrite (str_in_list_of_In _ _ Hk). discriminate.
  - intros [= <-]. exact (int_of_str_raises g e0 Hn).
Qed.

Lemma problem_of_match_raises kind c i co le st e :
  In kind ["contest"; "gym"; "problemset"; "edu"] ->
  CodeforcesProblem.url_index i = true ->
  (kind = "edu" -> exists a b d, co = Some a /\ le = Some b /\ st = Some d) ->
  CodeforcesProblem.of_match kind (CodeforcesProblem.mkGroups c i co le st) = Raise e ->
  e = ValueError.
Proof.
  intros Hk Hi Hedu. unfold CodeforcesProblem.of_match.
  cbn [CodeforcesProblem.g_contest CodeforcesProblem.g_index CodeforcesProblem.g_course
       CodeforcesProblem.g_lesson CodeforcesProblem.g_step].
  pose proof (str_in_list_of_In _ _ Hk) as Hin.
  destruct (String.eqb_spec kind "edu") as [->|_].
  - destruct (Hedu eq_refl) as (a & b & d & -> & -> & ->).
    cbn [CodeforcesProblem.int_of_group].
    destruct (int_of_str c) as [n|e0] eqn:Hc; cbn [bind];
      [|intros [= <-]; exact (int_of_str_raises _ _ Hc)].
    destruct (int_of_str a) as [na|e0] eqn:Ha; cbn [bind];
      [|intros [= <-]; exact (int_of_str_raises _ _ Ha)].
    destruct (int_of_str b) as [nb|e0] eqn:Hb; cbn [bind];
      [|intros [= <-]; exact (int_of_str_raises _ _ Hb)].
    destruct (int_of_str d) as [nd|e0] eqn:Hd; cbn [bind];
      [|intros [= <-]; exact (int_of_str_raises _ _ Hd)].
    rewrite cls_normalized_index; auto. discriminate.
  - destruct (int_of_str c) as [n|e0] eqn:Hc; cbn [bind];
      [|intros [= <-]; exact (int_of_str_raises _ _ Hc)].
    rewrite cls_normalized_index; auto. discriminate.
Qed.

Lemma re_contest_problem_shape kind p m :
  CodeforcesProblem.re_contest_problem kind p = Some m ->
  exists c i, m = CodeforcesProblem.mkGroups c i None None None
              /\ CodeforcesProblem.url_index i = true.
Proof.
  unfold CodeforcesProblem.re_contest_problem, obind.
  destruct (strip_prefix _ _) as [r1|]; [|discriminate].
  destruct (re_plus is_digit r1) as [[c r2]|]; [|discriminate].
  destruct (strip_prefix "/problem/" r2) as [r3|]; [|discriminate].
  destruct (CodeforcesProblem.re_for_index r3) as [i|] eqn:Hi; [|discriminate].
  intros [= <-]. exists c, i. split; [reflexivity | exact (re_for_index_sound _ _ Hi)].
Qed.

Lemma re_problemset_shape p m :
  CodeforcesProblem.re_problemset p = Some m ->
  exists c i, m = CodeforcesProblem.mkGroups c i None None None
              /\ CodeforcesProblem.url_index i = true.
Proof.
  unfold CodeforcesProblem.re_problemset, obind.
  destruct (strip_prefix _ _) as [r1|]; [|discriminate].
  destruct (re_plus is_digit r1) as [[c r2]|]; [|discriminate].
  destruct (strip_prefix "/" r2) as [r3|]; [|discriminate].
  destruct (CodeforcesProblem.re_for_index r3) as [i|] eqn:Hi; [|discriminate].
  intros [= <-]. exists c, i. split; [reflexivity | exact (re_for_index_sound _ _ Hi)].
Qed.

Lemma re_edu_shape p m :
  CodeforcesProblem.re_edu p = Some m ->
  exists c i co le st,
    m = CodeforcesProblem.mkGroups c i (Some co) (Some le) (Some st)
    /\ CodeforcesProblem.url_index i = true.
Proof.
  unfold CodeforcesProblem.re_edu, obind, re_star.
  destruct (strip_prefix _ _) as [r1|]; [|discriminate].
  destruct (span is_digit r1) as [co r2].
  destruct (strip_prefix "/lesson/" r2) as [r3|]; [|discriminate].
  destruct (span is_digit r3) as [le r4].
  destruct (strip_prefix "/" r4) as [r5|]; [|discriminate].
  destruct (span is_digit r5) as [st r6].
  destruct (strip_prefix "/practice/contest/" r6) as [r7|]; [|discriminate].
  destruct (span is_digit r7) as [c r8].
  destruct (strip_prefix "/problem/" r8) as [r9|]; [|discriminate].
  destruct (CodeforcesProblem.re_for_index r9) as [i|] eqn:Hi; [|discriminate].
  intros [= <-]. exists c, i, co, le, st.
  split; [reflexivity | exact (re_for_index_sound _ _ Hi)].
Qed.

Section Raises.

Variable normpath : string -> string.

(** X27.  Whatever [CodeforcesContest.from_url] or
    [CodeforcesProblem.from_url] raises is a [ValueError], that of the
    URL parser or that of [int] on a number of the path: the
    assertions of the constructors never fail on what [from_url] passes
    them, and no group is read that the matched pattern does not
    have. *)
Theorem codeforces_from_url_raises (url : string) (e : exn) :
  (CodeforcesContest.from_url normpath url = Raise e -> e = ValueError)
  /\ (CodeforcesProblem.from_url normpath url = Raise e -> e = ValueError).
Proof.
  unfold CodeforcesContest.from_url, CodeforcesProblem.from_url.
  destruct (urlparse url) as [r|e0] eqn:Hparse; cbn [bind].
  2:{ split; intros [= <-]; exact (urlparse_raises url e0 Hparse). }
  destruct (scheme_accepted r && str_in_list (netloc r) _CODEFORCES_DOMAINS).
  2:{ split; discriminate. }
  split.
  - unfold CodeforcesContest.table. cbn [first_match].
    destruct (CodeforcesContest.re_contest "contest" (normpath (path r))) as [g|].
    { apply contest_of_match_raises. now left. }
    destruct (CodeforcesContest.re_contest "gym" (normpath (path r))) as [g|];
      [|discriminate].
    apply contest_of_match_raises. right. now left.
  - unfold CodeforcesProblem.table. cbn [first_match].
    destruct (CodeforcesProblem.re_contest_problem "contest" (normpath (path r)))
      as [m|] eqn:H1.
    { destruct (re_contest_problem_shape _ _ _ H1) as (c & i & -> & Hi).
      apply problem_of_match_raises; [now left | exact Hi | discriminate]. }
    destruct (CodeforcesProblem.re_problemset (normpath (path r))) as [m|] eqn:H2.
    { destruct (re_problemset_shape _ _ H2) as (c & i & -> & Hi).
      apply problem_of_match_raises;
        [right; right; now left | exact Hi | discriminate]. }
    destruct (CodeforcesProblem.re_contest_problem "gym" (normpath (path r)))
      as [m|] eqn:H3.
    { destruct (re_contest_problem_shape _ _ _ H3) as (c & i & -> & Hi).
      apply problem_of_match_raises; [right; now left | exact Hi | discriminate]. }
    destruct (CodeforcesProblem.re_edu (normpath (path r))) as [m|] eqn:H4;
      [|discriminate].
    destruct (re_edu_shape _ _ H4) as (c & i & co & le & st & -> & Hi).
    apply problem_of_match_raises; [right; right; right; now left | exact Hi |].
    intros _. exists co, le, st. repeat split.
Qed.

(** X28.  [from_url] of the services and of the problems of Anarchy
    Golf, HackerRank and the Aizu Online Judge raises only what the URL
    parser raises; [AOJArenaProblem.from_url] raises only that or the
    [AssertionError] of its constructor. *)
Theorem plain_from_url_raises (url : string) (e : exn) :
  (AnarchyGolfService.from_url url = Raise e -> urlparse url = Raise e)
  /\ (HackerRankService.from_url url = Raise e -> urlparse url = Raise e)
  /\ (AOJService.from_url url = Raise e -> urlparse url = Raise e)
  /\ (CodeforcesService.from_url url = Raise e -> urlparse url = Raise e)
  /\ (AnarchyGolfProblem.from_url normpath url = Raise e -> urlparse url = Raise e)
  /\ (HackerRankProblem.from_url normpath url = Raise e -> urlparse url = Raise e)
  /\ (AOJProblem.from_url normpath url = Raise e -> urlparse url = Raise e)
  /\ (AOJArenaProblem.from_url normpath url = Raise e ->
      urlparse url = Raise e \/ e = AssertionError).
Proof.
  unfold AnarchyGolfService.from_url, HackerRankService.from_url, AOJService.from_url,
    CodeforcesService.from_url, AnarchyGolfProblem.from_url, HackerRankProblem.from_url,
    AOJProblem.from_url, AOJArenaProblem.from_url.
  destruct (urlparse url) as [r|e0]; cbn [bind].
  2:{ repeat split; intros [= <-]; try reflexivity. now left. }
  split; [|split; [|split; [|split; [|split; [|split; [|split]]]]]].
  - destruct (scheme_accepted r && _); discriminate.
  - destruct (scheme_accepted r && _); discriminate.
  - destruct (scheme_accepted r && _); discriminate.
  - destruct (scheme_accepted r && _); discriminate.
  - destruct (scheme_accepted r && _ && _ && _); discriminate.
  - destruct (scheme_accepted r && _); [|discriminate].
    destruct (HackerRankProblem.re_contest_challenge _) as [[g1 g2]|]; [discriminate|].
    destruct (HackerRankProblem.re_challenge _); discriminate.
  - repeat match goal with
           | |- context [match ?c with Some _ => _ | None => _ end] => destruct c
           end; discriminate.
  - destruct (scheme_accepted r && _ && _); [|discriminate].
    destruct (split_on "/" (fragment r)) as [|f0 [|f1 [|f2 [|f3 t]]]]; try discriminate.
    destruct (f1 =? "problems"); [|discriminate].
    unfold AOJArenaProblem.cls. destruct (contains _ _); cbn [bind]; [discriminate|].
    intros [= <-]. now right.
Qed.

End Raises.

Lemma codeforces_from_url_raises_witness :
  CodeforcesProblem.from_url utils_normpath "http://[codeforces.com/contest/538/problem/H"
  = Raise ValueError
  /\ CodeforcesContest.from_url utils_normpath "http://[codeforces.com/contest/538"
     = Raise ValueError.
Proof.
  split.
  - destruct (CodeforcesProblem.from_url utils_normpath
                "http://[codeforces.com/contest/538/problem/H") as [o|e] eqn:H;
      [discriminate|].
    now rewrite (proj2 (codeforces_from_url_raises utils_normpath _ e) H).
  - destruct (CodeforcesContest.from_url utils_normpath
                "http://[codeforces.com/contest/538") as [o|e] eqn:H;
      [discriminate|].
    now rewrite (proj1 (codeforces_from_url_raises utils_normpath _ e) H).
Defined.

Lemma plain_from_url_raises_witness :
  AOJArenaProblem.from_url utils_normpath
    "https://onlinejudge.u-aizu.ac.jp/services/room.html#RitsCamp19Day2/problems/1"
  = Raise AssertionError
  /\ (urlparse "https://onlinejudge.u-aizu.ac.jp/services/room.html#RitsCamp19Day2/problems/1"
      = Raise AssertionError \/ AssertionError = AssertionError).
Proof.
  split; [reflexivity|].
  destruct (plain_from_url_raises utils_normpath
              "https://onlinejudge.u-aizu.ac.jp/services/room.html#RitsCamp19Day2/problems/1"
              AssertionError) as (_ & _ & _ & _ & _ & _ & _ & H).
  exact (H eq_refl).
Defined.
